(** * Session context engine of ai-rpg: a shallow embedding

    The Go package [context] (manager, events, ai_integration, types and the
    in-memory storage backend) is embedded as pure state-passing functions.

    Modelling conventions.
    - Go [int] is the 64-bit signed integer: it is a [Z] kept in range by
      [wrap64], applied wherever the source adds, subtracts or increments.
    - [time.Time] is a [Z] (nanoseconds); the zero [Time] is [0], so
      [IsZero t] is [t =? 0].  Every [time.Now()] and [uuid.New()] of an
      operation is an explicit argument ([now], [newID]); the clock reads
      made inside one call are identified.
    - A [*PlayerContext] handed around by the manager always comes from
      [GetContext], which caches it first: the cache is the heap and the
      session key is the pointer.  In-place mutation of the pointee is an
      update of the cache entry under that key.
    - [interface{}] values of the metadata bags are the closed type
      [value]; a failed comma-ok type assertion takes the [else] arm, a
      failed plain assertion is a run-time panic.
    - A run-time panic is [None] in the [option] that wraps the final
      state; Go [error] results are returned values of type [option error]
      ([None] is [nil]).
    - A [float64] computed from a duration is a dyadic rational, rounded
      at each conversion, sum and quotient as IEEE 754 does ([round64]).
    - The in-memory store is modelled by value; its copies are shallow in
      Go, and what that leaves out is said at [MemoryContextStorage]. *)

From stdpp Require Import base option list gmap strings pretty.
From Stdlib Require Import ZArith Lia.

Local Open Scope string_scope.
Local Open Scope list_scope.
Local Open Scope Z_scope.

(** ** Machine integers and time *)

Definition wrap64 (z : Z) : Z := (z + 2 ^ 63) mod 2 ^ 64 - 2 ^ 63.

Definition int_add (a b : Z) : Z := wrap64 (a + b).
Definition int_sub (a b : Z) : Z := wrap64 (a - b).

Definition Time : Type := Z.
Definition IsZero (t : Time) : bool := t =? 0.

(** Nanoseconds per minute and per hour, as in package [time]. *)
Definition Minute : Z := 60000000000.
Definition Hour : Z := 3600000000000.

(** ** Floating point ([float64])

    A finite [float64] is the dyadic rational [mant * 2 ^ expo].
    [round64 n d], for [d > 0], is the [float64] nearest to [n / d], with
    53 bits and ties to even, the rounding of IEEE 754 that Go's
    conversions, additions and divisions apply.  Overflow and the
    subnormal range are not modelled: what is computed here from [int64]
    durations stays far from both. *)
Record float64 : Type := mkFloat64 { mant : Z; expo : Z }.

(** [|n| / (d * 2 ^ e)] as a fraction of integers. *)
Definition scaled (n d e : Z) : Z * Z :=
  if 0 <=? e then (Z.abs n, d * 2 ^ e) else (Z.abs n * 2 ^ (- e), d).

Definition round64 (n d : Z) : float64 :=
  if n =? 0 then mkFloat64 0 0
  else
    let e := Z.log2 (Z.abs n) - Z.log2 d - 52 in
    let e := if (scaled n d e).1 <? (scaled n d e).2 * 2 ^ 52 then e - 1 else e in
    let num := (scaled n d e).1 in
    let den := (scaled n d e).2 in
    let q := num / den in
    let r := num mod den in
    let q := if (den <? 2 * r) || ((den =? 2 * r) && Z.odd q) then q + 1 else q in
    mkFloat64 (Z.sgn n * q) e.

(** [float64(z)]. *)
Definition float64_of_int (z : Z) : float64 := round64 z 1.

(** [x + y]. *)
Definition float64_add (x y : float64) : float64 :=
  let e := Z.min (expo x) (expo y) in
  let n := mant x * 2 ^ (expo x - e) + mant y * 2 ^ (expo y - e) in
  if 0 <=? e then round64 (n * 2 ^ e) 1 else round64 n (2 ^ (- e)).

(** [x / y], for [y] other than zero. *)
Definition float64_div (x y : float64) : float64 :=
  let n := mant x * Z.sgn (mant y) in
  let d := Z.abs (mant y) in
  let e := expo x - expo y in
  if 0 <=? e then round64 (n * 2 ^ e) d else round64 n (d * 2 ^ (- e)).

(** [int(x)]: the fraction is discarded. *)
Definition int_of_float64 (x : float64) : Z :=
  if 0 <=? expo x then mant x * 2 ^ expo x else Z.quot (mant x) (2 ^ (- expo x)).

(** [Duration.Minutes] and [Duration.Hours] of package [time]:
    [float64(d / unit) + float64(d % unit) / float64(unit)]. *)
Definition Duration_Minutes (d : Z) : float64 :=
  float64_add (float64_of_int (Z.quot d Minute))
    (float64_div (float64_of_int (Z.rem d Minute)) (float64_of_int Minute)).

Definition Duration_Hours (d : Z) : float64 :=
  float64_add (float64_of_int (Z.quot d Hour))
    (float64_div (float64_of_int (Z.rem d Hour)) (float64_of_int Hour)).

(** ** Dynamic values ([interface{}]) *)

#[warnings="-register-all"]
Inductive value : Type :=
| VInt (z : Z)
| VString (s : string)
| VBool (b : bool)
| VMap (m : gmap string value)
| VOther.

Definition as_int (v : option value) : option Z :=
  match v with Some (VInt z) => Some z | _ => None end.
Definition as_string (v : option value) : option string :=
  match v with Some (VString s) => Some s | _ => None end.
Definition as_map (v : option value) : option (gmap string value) :=
  match v with Some (VMap m) => Some m | _ => None end.

(** ** Data model (types.go) *)

Module HealthStatus.
Record t : Type := mk { Current : Z; Max : Z }.
End HealthStatus.

Module EquipmentItem.
Record t : Type := mk {
  ID : string; Name : string; Type_ : string; Slot : string;
  Stats : gmap string Z; Metadata : gmap string value }.
End EquipmentItem.

Module InventoryItem.
Record t : Type := mk {
  ID : string; Name : string; Type_ : string;
  Quantity : Z; Value : Z; Metadata : gmap string value }.
End InventoryItem.

Module CharacterState.
Record t : Type := mk {
  Name : string;
  Health : HealthStatus.t;
  Equipment : list EquipmentItem.t;
  Inventory : list InventoryItem.t;
  Reputation : Z;
  Attributes : gmap string Z;
  Metadata : gmap string value }.
End CharacterState.

Module LocationVisit.
Record t : Type := mk {
  Location : string; EntryTime : Time; ExitTime : Time; Duration : Z }.
End LocationVisit.

Module LocationState.
Record t : Type := mk {
  Current : string;
  Previous : string;
  VisitCount : Z;
  FirstVisit : Time;
  TimeInLocation : Z;
  LocationHistory : list LocationVisit.t }.
End LocationState.

Module ActionEvent.
Record t : Type := mk {
  ID : string;
  Timestamp : Time;
  Type_ : string;
  Command : string;
  Target : string;
  Location : string;
  Outcome : string;
  Consequences : list string;
  Metadata : gmap string value }.
End ActionEvent.

Module NPCRelationship.
Record t : Type := mk {
  NPCID : string;
  Name : string;
  Disposition : Z;
  FirstMet : Time;
  LastInteraction : Time;
  InteractionCount : Z;
  KnownFacts : list string;
  Mood : string;
  Location : string;
  Notes : list string }.
End NPCRelationship.

(** [SessionTime] is a [float64] number of minutes in the source; the
    model keeps the underlying duration in nanoseconds. *)
Module SessionMetrics.
Record t : Type := mk {
  TotalActions : Z;
  CombatActions : Z;
  SocialActions : Z;
  ExploreActions : Z;
  SessionTime : Z;
  LocationsVisited : Z;
  NPCsInteracted : Z }.
End SessionMetrics.

Module PlayerContext.
Record t : Type := mk {
  PlayerID : string;
  SessionID : string;
  StartTime : Time;
  LastUpdate : Time;
  Character : CharacterState.t;
  Location : LocationState.t;
  Actions : list ActionEvent.t;
  NPCStates : gmap string NPCRelationship.t;
  SessionStats : SessionMetrics.t }.
End PlayerContext.

Module ContextEvent.
Record t : Type := mk {
  SessionID : string; Event : ActionEvent.t; Timestamp : Time }.
End ContextEvent.

(** ** Errors *)

(** The error values the package builds with [fmt.Errorf]; [ErrWrap] is the
    [%w] wrapping. *)
Inductive error : Type :=
| ErrNotFound (sessionID : string)
| ErrQueueFull
| ErrStorage (msg : string)
| ErrWrap (msg : string) (cause : error).

(** ** Field updates

    Go assigns to one field of a struct in place; each assignment is a
    function that rebuilds the record with that field replaced. *)

Definition set_Health_Current (v : Z) (h : HealthStatus.t) : HealthStatus.t :=
  HealthStatus.mk v (HealthStatus.Max h).

Definition set_Health (h : HealthStatus.t) (c : CharacterState.t) : CharacterState.t :=
  CharacterState.mk (CharacterState.Name c) h (CharacterState.Equipment c)
    (CharacterState.Inventory c) (CharacterState.Reputation c)
    (CharacterState.Attributes c) (CharacterState.Metadata c).

Definition set_Inventory (inv : list InventoryItem.t) (c : CharacterState.t) : CharacterState.t :=
  CharacterState.mk (CharacterState.Name c) (CharacterState.Health c)
    (CharacterState.Equipment c) inv (CharacterState.Reputation c)
    (CharacterState.Attributes c) (CharacterState.Metadata c).

Definition set_Reputation (r : Z) (c : CharacterState.t) : CharacterState.t :=
  CharacterState.mk (CharacterState.Name c) (CharacterState.Health c)
    (CharacterState.Equipment c) (CharacterState.Inventory c) r
    (CharacterState.Attributes c) (CharacterState.Metadata c).

Definition set_Character (c : CharacterState.t) (ctx : PlayerContext.t) : PlayerContext.t :=
  PlayerContext.mk (PlayerContext.PlayerID ctx) (PlayerContext.SessionID ctx)
    (PlayerContext.StartTime ctx) (PlayerContext.LastUpdate ctx) c
    (PlayerContext.Location ctx) (PlayerContext.Actions ctx)
    (PlayerContext.NPCStates ctx) (PlayerContext.SessionStats ctx).

Definition set_Location (l : LocationState.t) (ctx : PlayerContext.t) : PlayerContext.t :=
  PlayerContext.mk (PlayerContext.PlayerID ctx) (PlayerContext.SessionID ctx)
    (PlayerContext.StartTime ctx) (PlayerContext.LastUpdate ctx)
    (PlayerContext.Character ctx) l (PlayerContext.Actions ctx)
    (PlayerContext.NPCStates ctx) (PlayerContext.SessionStats ctx).

Definition set_Actions (a : list ActionEvent.t) (ctx : PlayerContext.t) : PlayerContext.t :=
  PlayerContext.mk (PlayerContext.PlayerID ctx) (PlayerContext.SessionID ctx)
    (PlayerContext.StartTime ctx) (PlayerContext.LastUpdate ctx)
    (PlayerContext.Character ctx) (PlayerContext.Location ctx) a
    (PlayerContext.NPCStates ctx) (PlayerContext.SessionStats ctx).

Definition set_NPCStates (m : gmap string NPCRelationship.t) (ctx : PlayerContext.t) : PlayerContext.t :=
  PlayerContext.mk (PlayerContext.PlayerID ctx) (PlayerContext.SessionID ctx)
    (PlayerContext.StartTime ctx) (PlayerContext.LastUpdate ctx)
    (PlayerContext.Character ctx) (PlayerContext.Location ctx)
    (PlayerContext.Actions ctx) m (PlayerContext.SessionStats ctx).

Definition set_SessionStats (s : SessionMetrics.t) (ctx : PlayerContext.t) : PlayerContext.t :=
  PlayerContext.mk (PlayerContext.PlayerID ctx) (PlayerContext.SessionID ctx)
    (PlayerContext.StartTime ctx) (PlayerContext.LastUpdate ctx)
    (PlayerContext.Character ctx) (PlayerContext.Location ctx)
    (PlayerContext.Actions ctx) (PlayerContext.NPCStates ctx) s.

Definition set_LastUpdate (t : Time) (ctx : PlayerContext.t) : PlayerContext.t :=
  PlayerContext.mk (PlayerContext.PlayerID ctx) (PlayerContext.SessionID ctx)
    (PlayerContext.StartTime ctx) t
    (PlayerContext.Character ctx) (PlayerContext.Location ctx)
    (PlayerContext.Actions ctx) (PlayerContext.NPCStates ctx)
    (PlayerContext.SessionStats ctx).

(** ** Storage interface (types.go, [ContextStorage]) *)

Class ContextStorage (S : Type) : Type := {
  LoadContext : S -> string -> PlayerContext.t + error;
  SaveContext : S -> PlayerContext.t -> S * option error;
  DeleteContext : S -> string -> S * option error;
  ListActiveSessions : S -> list string + error }.

(** The in-memory backend.  [LoadContext] and [SaveContext] copy the
    struct, shallowly: in Go a stored copy shares the NPC map, and the
    backing arrays of its slices, with the context it was copied from.
    The model stores values: it gives a stored copy as it is when taken.
    A later write through the cached context into the shared NPC map
    ([UpdateNPCRelationship]) or into an element a shared slice already
    has (the exit stamped on the last visit by [UpdateLocation], the shift
    of [removeItemFromInventory]) shows in the stored copy in Go and not
    in the model; appended elements and the plain fields (health,
    reputation, statistics, current and previous location, stamps) do not
    show.  The manager itself reads a stored copy back on a cache miss
    only.  What the theorems say of the store after such a write is
    limited to properties the written structure has as well (bounds,
    absence of duplicates); none says that the stored copy of the written
    session is unchanged. *)
Record MemoryContextStorage : Type := mkMemoryContextStorage {
  contexts : gmap string PlayerContext.t }.

Definition NewMemoryStorage : MemoryContextStorage := mkMemoryContextStorage ∅.

Definition Memory_LoadContext (s : MemoryContextStorage) (sessionID : string)
  : PlayerContext.t + error :=
  match contexts s !! sessionID with
  | Some ctx => inl ctx
  | None => inr (ErrNotFound sessionID)
  end.

Definition Memory_SaveContext (s : MemoryContextStorage) (ctx : PlayerContext.t)
  : MemoryContextStorage * option error :=
  (mkMemoryContextStorage (<[PlayerContext.SessionID ctx := ctx]> (contexts s)), None).

Definition Memory_DeleteContext (s : MemoryContextStorage) (sessionID : string)
  : MemoryContextStorage * option error :=
  (mkMemoryContextStorage (delete sessionID (contexts s)), None).

Definition Memory_ListActiveSessions (s : MemoryContextStorage)
  : list string + error :=
  inl (map fst (map_to_list (contexts s))).

#[export] Instance MemoryStorage_ContextStorage : ContextStorage MemoryContextStorage := {
  LoadContext := Memory_LoadContext;
  SaveContext := Memory_SaveContext;
  DeleteContext := Memory_DeleteContext;
  ListActiveSessions := Memory_ListActiveSessions }.

(** A backend whose database is unreachable: every call reports the I/O
    error the PostgreSQL backend wraps ("failed to save context", "failed
    to load context", ...). *)
Definition UnreachableStorage : Type := unit.

#[export] Instance UnreachableStorage_ContextStorage : ContextStorage UnreachableStorage := {
  LoadContext := fun _ _ => inr (ErrWrap "failed to load context" (ErrStorage "connection refused"));
  SaveContext := fun s _ => (s, Some (ErrWrap "failed to save context" (ErrStorage "connection refused")));
  DeleteContext := fun s _ => (s, Some (ErrWrap "failed to delete context" (ErrStorage "connection refused")));
  ListActiveSessions := fun _ => inr (ErrWrap "failed to list sessions" (ErrStorage "connection refused")) }.

(** ** The context manager (manager.go) *)

(** [eventQueue] is the buffered channel: its contents in FIFO order and
    its capacity [queueCap]. *)
Record ContextManager (S : Type) : Type := mkContextManager {
  storage : S;
  cache : gmap string PlayerContext.t;
  eventQueue : list ContextEvent.t;
  queueCap : nat;
  maxActions : Z;
  cacheTimeout : Z;
  persistInterval : Z }.

Arguments mkContextManager {S}.
Arguments storage {S}.
Arguments cache {S}.
Arguments eventQueue {S}.
Arguments queueCap {S}.
Arguments maxActions {S}.
Arguments cacheTimeout {S}.
Arguments persistInterval {S}.

Definition NewContextManager {S : Type} (st : S) : ContextManager S :=
  mkContextManager st ∅ [] 1000 50 (30 * Minute) (5 * Minute).

Definition set_storage {S : Type} (st : S) (cm : ContextManager S) : ContextManager S :=
  mkContextManager st (cache cm) (eventQueue cm) (queueCap cm)
    (maxActions cm) (cacheTimeout cm) (persistInterval cm).

Definition set_cache {S : Type} (c : gmap string PlayerContext.t) (cm : ContextManager S)
  : ContextManager S :=
  mkContextManager (storage cm) c (eventQueue cm) (queueCap cm)
    (maxActions cm) (cacheTimeout cm) (persistInterval cm).

Definition set_eventQueue {S : Type} (q : list ContextEvent.t) (cm : ContextManager S)
  : ContextManager S :=
  mkContextManager (storage cm) (cache cm) q (queueCap cm)
    (maxActions cm) (cacheTimeout cm) (persistInterval cm).

(** [cm.cache.Store(sessionID, ctx)]. *)
Definition cache_Store {S : Type} (sessionID : string) (ctx : PlayerContext.t)
  (cm : ContextManager S) : ContextManager S :=
  set_cache (<[sessionID := ctx]> (cache cm)) cm.

(** In-place mutation through the pointer cached under [k]. *)
Definition mutate {S : Type} (k : string) (f : PlayerContext.t -> PlayerContext.t)
  (cm : ContextManager S) : ContextManager S :=
  set_cache (alter f k (cache cm)) cm.

(** ** Pure helpers of manager.go *)

(** [contains]: linear search of a string slice. *)
Fixpoint contains (slice : list string) (item : string) : bool :=
  match slice with
  | [] => false
  | s :: rest => if String.eqb s item then true else contains rest item
  end.

(** [calculateMood]: the [switch] on the disposition thresholds. *)
Definition calculateMood (disposition : Z) : string :=
  if 50 <=? disposition then "friendly"
  else if 25 <=? disposition then "helpful"
  else if 0 <=? disposition then "neutral"
  else if -25 <=? disposition then "suspicious"
  else if -50 <=? disposition then "unfriendly"
  else "hostile".

(** [if v > 100 { v = 100 } else if v < -100 { v = -100 }], the clamp
    written out for reputation and disposition. *)
Definition clamp100 (v : Z) : Z :=
  if 100 <? v then 100 else if v <? -100 then -100 else v.

(** [if cur > max { cur = max } else if cur < 0 { cur = 0 }]. *)
Definition clampHealth (cur max : Z) : Z :=
  if max <? cur then max else if cur <? 0 then 0 else cur.

(** The [for _, fact := range facts] loop of [UpdateNPCRelationship]. *)
Definition addFacts (known facts : list string) : list string :=
  foldl (fun known fact => if contains known fact then known else known ++ [fact])
    known facts.

(** [createNewContext]: the skeleton made on a cache and store miss. *)
Definition createNewContext (sessionID : string) (now : Time) : PlayerContext.t :=
  PlayerContext.mk "" sessionID now now
    (CharacterState.mk "" (HealthStatus.mk 20 20) [] [] 0 ∅ ∅)
    (LocationState.mk "unknown" "" 0 0 0 [])
    [] ∅
    (SessionMetrics.mk 0 0 0 0 0 0 0).

(** The struct literal of [CreateSession]. *)
Definition newSessionContext (playerID playerName sessionID : string) (now : Time)
  : PlayerContext.t :=
  PlayerContext.mk playerID sessionID now now
    (CharacterState.mk playerName (HealthStatus.mk 20 20) [] [] 0
       (<["strength" := 10]> (<["dexterity" := 10]>
          (<["intelligence" := 10]> (<["charisma" := 10]> ∅))))
       ∅)
    (LocationState.mk "starting_village" "" 1 now 0 [])
    [] ∅
    (SessionMetrics.mk 0 0 0 0 0 1 0).

(** Body of [UpdateLocation] on the loaded context: [closeVisit] stamps
    the exit time and the duration,
    [int(time.Since(lastVisit.EntryTime).Minutes())]. *)
Definition closeVisit (now : Time) (v : LocationVisit.t) : LocationVisit.t :=
  LocationVisit.mk (LocationVisit.Location v) (LocationVisit.EntryTime v) now
    (int_of_float64 (Duration_Minutes (now - LocationVisit.EntryTime v))).

(** The exit recorded on the last visit when it is still open. *)
Definition closeLastVisit (now : Time) (h : list LocationVisit.t) : list LocationVisit.t :=
  match last h with
  | Some v =>
      if IsZero (LocationVisit.ExitTime v)
      then <[pred (length h) := closeVisit now v]> h
      else h
  | None => h
  end.

(** The update of location, history and statistics. *)
Definition moveTo (newLocation : string) (now : Time) (ctx : PlayerContext.t)
  : PlayerContext.t :=
  let loc := PlayerContext.Location ctx in
  if String.eqb (LocationState.Current loc) newLocation then ctx
  else
    let history := closeLastVisit now (LocationState.LocationHistory loc) in
    let history := history ++ [LocationVisit.mk newLocation now 0 0] in
    let stats := PlayerContext.SessionStats ctx in
    let stats := SessionMetrics.mk
      (SessionMetrics.TotalActions stats) (SessionMetrics.CombatActions stats)
      (SessionMetrics.SocialActions stats) (SessionMetrics.ExploreActions stats)
      (SessionMetrics.SessionTime stats)
      (int_add (SessionMetrics.LocationsVisited stats) 1)
      (SessionMetrics.NPCsInteracted stats) in
    let firstVisit :=
      if IsZero (LocationState.FirstVisit loc) then now
      else LocationState.FirstVisit loc in
    set_SessionStats stats
      (set_Location
         (LocationState.mk newLocation (LocationState.Current loc)
            (LocationState.VisitCount loc) firstVisit 0 history)
         ctx).

(** Body of [UpdateNPCRelationship] on the loaded context.  A nil
    [NPCStates] map and an empty one are both [∅]. *)
Definition touchNPC (npcID npcName : string) (dispositionChange : Z)
  (facts : list string) (now : Time) (ctx : PlayerContext.t) : PlayerContext.t :=
  let found := PlayerContext.NPCStates ctx !! npcID in
  let here := LocationState.Current (PlayerContext.Location ctx) in
  let npcRel :=
    match found with
    | Some r => r
    | None => NPCRelationship.mk npcID npcName 0 now 0 0 [] "neutral" here []
    end in
  let stats := PlayerContext.SessionStats ctx in
  let stats :=
    match found with
    | Some _ => stats
    | None => SessionMetrics.mk
        (SessionMetrics.TotalActions stats) (SessionMetrics.CombatActions stats)
        (SessionMetrics.SocialActions stats) (SessionMetrics.ExploreActions stats)
        (SessionMetrics.SessionTime stats) (SessionMetrics.LocationsVisited stats)
        (int_add (SessionMetrics.NPCsInteracted stats) 1)
    end in
  let disposition :=
    clamp100 (int_add (NPCRelationship.Disposition npcRel) dispositionChange) in
  let npcRel := NPCRelationship.mk
    (NPCRelationship.NPCID npcRel) (NPCRelationship.Name npcRel) disposition
    (NPCRelationship.FirstMet npcRel) now
    (int_add (NPCRelationship.InteractionCount npcRel) 1)
    (addFacts (NPCRelationship.KnownFacts npcRel) facts)
    (calculateMood disposition) here (NPCRelationship.Notes npcRel) in
  set_NPCStates (<[npcID := npcRel]> (PlayerContext.NPCStates ctx))
    (set_SessionStats stats ctx).

(** Body of [UpdateCharacterHealth]. *)
Definition changeHealth (healthChange : Z) (ctx : PlayerContext.t) : PlayerContext.t :=
  let c := PlayerContext.Character ctx in
  let h := CharacterState.Health c in
  let cur := int_add (HealthStatus.Current h) healthChange in
  set_Character (set_Health (set_Health_Current (clampHealth cur (HealthStatus.Max h)) h) c) ctx.

(** Body of [UpdateReputation]. *)
Definition changeReputation (reputationChange : Z) (ctx : PlayerContext.t)
  : PlayerContext.t :=
  let c := PlayerContext.Character ctx in
  let r := int_add (CharacterState.Reputation c) reputationChange in
  set_Character (set_Reputation (clamp100 r) c) ctx.

(** [l[len(l)-count:]] under the guard [len(l) > count]; a negative
    [count] passes the guard and the slice expression panics. *)
Definition lastN {A : Type} (count : Z) (l : list A) : option (list A) :=
  let n := Z.of_nat (length l) in
  if count <? n then
    if count <? 0 then None
    else Some (drop (Z.to_nat (n - count)) l)
  else Some l.

Section Manager.

Context {S : Type} `{ContextStorage S}.

Local Abbreviation CM := (ContextManager S).

(** [GetContext]: cache, then store, then a fresh skeleton; the entry is
    cached before it is returned, and the error is always [nil]. *)
Definition GetContext (sessionID : string) (now : Time) (cm : CM)
  : PlayerContext.t * option error * CM :=
  match cache cm !! sessionID with
  | Some cached => (cached, None, cm)
  | None =>
      let ctx :=
        match LoadContext (storage cm) sessionID with
        | inl ctx => ctx
        | inr _ => createNewContext sessionID now
        end in
      (ctx, None, cache_Store sessionID ctx cm)
  end.

(** [CreateSession]: the session is cached, then saved; a failed save
    returns the empty id and the wrapped error. *)
Definition CreateSession (playerID playerName newID : string) (now : Time) (cm : CM)
  : string * option error * CM :=
  let sessionID := newID in
  let ctx := newSessionContext playerID playerName sessionID now in
  let cm := cache_Store sessionID ctx cm in
  match SaveContext (storage cm) ctx with
  | (st, Some err) =>
      ("", Some (ErrWrap "failed to save new context" err), set_storage st cm)
  | (st, None) => (sessionID, None, set_storage st cm)
  end.

(** [RecordAction]: the non-blocking send on the buffered channel. *)
Definition RecordAction (sessionID command actionType target location outcome : string)
  (consequences : list string) (newID : string) (now : Time) (cm : CM)
  : option error * CM :=
  let action := ActionEvent.mk newID now actionType command target location
                  outcome consequences ∅ in
  if (length (eventQueue cm) <? queueCap cm)%nat
  then (None, set_eventQueue (eventQueue cm ++ [ContextEvent.mk sessionID action now]) cm)
  else (Some ErrQueueFull, cm).

Definition UpdateLocation (sessionID newLocation : string) (now : Time) (cm : CM)
  : option error * CM :=
  let '(ctx, err, cm) := GetContext sessionID now cm in
  match err with
  | Some e => (Some e, cm)
  | None =>
      let ctx := moveTo newLocation now ctx in
      (None, cache_Store sessionID (set_LastUpdate now ctx) cm)
  end.

Definition UpdateNPCRelationship (sessionID npcID npcName : string)
  (dispositionChange : Z) (facts : list string) (now : Time) (cm : CM)
  : option error * CM :=
  let '(ctx, err, cm) := GetContext sessionID now cm in
  match err with
  | Some e => (Some e, cm)
  | None =>
      let ctx := touchNPC npcID npcName dispositionChange facts now ctx in
      (None, cache_Store sessionID (set_LastUpdate now ctx) cm)
  end.

Definition UpdateCharacterHealth (sessionID : string) (healthChange : Z)
  (now : Time) (cm : CM) : option error * CM :=
  let '(ctx, err, cm) := GetContext sessionID now cm in
  match err with
  | Some e => (Some e, cm)
  | None =>
      let ctx := changeHealth healthChange ctx in
      (None, cache_Store sessionID (set_LastUpdate now ctx) cm)
  end.

Definition UpdateReputation (sessionID : string) (reputationChange : Z)
  (now : Time) (cm : CM) : option error * CM :=
  let '(ctx, err, cm) := GetContext sessionID now cm in
  match err with
  | Some e => (Some e, cm)
  | None =>
      let ctx := changeReputation reputationChange ctx in
      (None, cache_Store sessionID (set_LastUpdate now ctx) cm)
  end.

(** [GetRecentActions]; [None] is the panic of the slice expression. *)
Definition GetRecentActions (sessionID : string) (count : Z) (now : Time) (cm : CM)
  : option (list ActionEvent.t * option error * CM) :=
  let '(ctx, err, cm) := GetContext sessionID now cm in
  match err with
  | Some e => Some ([], Some e, cm)
  | None =>
      actions ← lastN count (PlayerContext.Actions ctx);
      Some (actions, None, cm)
  end.

(** ** The event pipeline (events.go) *)

(** [removeItemFromInventory]: drops the first item with the given id. *)
Fixpoint removeItemFromInventory (inv : list InventoryItem.t) (itemID : string)
  : list InventoryItem.t :=
  match inv with
  | [] => []
  | item :: rest =>
      if String.eqb (InventoryItem.ID item) itemID then rest
      else item :: removeItemFromInventory rest itemID
  end.

(** [ctx.Character.Reputation += change], no clamp. *)
Definition addReputation (change : Z) (ctx : PlayerContext.t) : PlayerContext.t :=
  let c := PlayerContext.Character ctx in
  set_Character (set_Reputation (int_add (CharacterState.Reputation c) change) c) ctx.

(** The [health_damage] arm: subtract, then floor at zero. *)
Definition damageHealth (damage : Z) (ctx : PlayerContext.t) : PlayerContext.t :=
  let c := PlayerContext.Character ctx in
  let h := CharacterState.Health c in
  let cur := int_sub (HealthStatus.Current h) damage in
  let cur := if cur <? 0 then 0 else cur in
  set_Character (set_Health (set_Health_Current cur h) c) ctx.

(** The [health_heal] arm: add, then cap at the maximum. *)
Definition healHealth (healing : Z) (ctx : PlayerContext.t) : PlayerContext.t :=
  let c := PlayerContext.Character ctx in
  let h := CharacterState.Health c in
  let cur := int_add (HealthStatus.Current h) healing in
  let cur := if HealthStatus.Max h <? cur then HealthStatus.Max h else cur in
  set_Character (set_Health (set_Health_Current cur h) c) ctx.

(** The [item_gained] arm: append to the inventory. *)
Definition gainItem (item : InventoryItem.t) (ctx : PlayerContext.t) : PlayerContext.t :=
  let c := PlayerContext.Character ctx in
  set_Character (set_Inventory (CharacterState.Inventory c ++ [item]) c) ctx.

(** The [item_lost] arm. *)
Definition loseItem (itemID : string) (ctx : PlayerContext.t) : PlayerContext.t :=
  let c := PlayerContext.Character ctx in
  set_Character
    (set_Inventory (removeItemFromInventory (CharacterState.Inventory c) itemID) c) ctx.

(** The final clamp of [processActionConsequences]. *)
Definition clampReputation (ctx : PlayerContext.t) : PlayerContext.t :=
  let c := PlayerContext.Character ctx in
  set_Character (set_Reputation (clamp100 (CharacterState.Reputation c)) c) ctx.

(** The [item_gained] payload; [None] is the panic of a plain type
    assertion on [id], [name] or [type]. *)
Definition itemOfPayload (itemData : gmap string value) : option InventoryItem.t :=
  id ← as_string (itemData !! "id");
  name ← as_string (itemData !! "name");
  ty ← as_string (itemData !! "type");
  Some (InventoryItem.mk id name ty
          (default 1 (as_int (itemData !! "quantity")))
          (default 0 (as_int (itemData !! "value")))
          ∅).

(** One iteration of the [switch] in [processActionConsequences], on the
    context cached under [k]. *)
Definition applyConsequence (k : string) (action : ActionEvent.t) (now : Time)
  (consequence : string) (cm : CM) : option CM :=
  let md := ActionEvent.Metadata action in
  if String.eqb consequence "reputation_increase" then
    Some (mutate k (addReputation (default 5 (as_int (md !! "reputation_change")))) cm)
  else if String.eqb consequence "reputation_decrease" then
    Some (mutate k (addReputation (default (-10) (as_int (md !! "reputation_change")))) cm)
  else if String.eqb consequence "health_damage" then
    match as_int (md !! "damage") with
    | Some damage => Some (mutate k (damageHealth damage) cm)
    | None => Some cm
    end
  else if String.eqb consequence "health_heal" then
    match as_int (md !! "healing") with
    | Some healing => Some (mutate k (healHealth healing) cm)
    | None => Some cm
    end
  else if String.eqb consequence "npc_noticed" then
    match as_string (md !! "npc_id"), as_string (md !! "npc_name"), cache cm !! k with
    | Some npcID, Some npcName, Some ctx =>
        Some (UpdateNPCRelationship (PlayerContext.SessionID ctx) npcID npcName 0
                ["noticed_player_" ++ ActionEvent.Type_ action]%string now cm).2
    | _, _, _ => Some cm
    end
  else if String.eqb consequence "combat_victory" then
    Some (mutate k (addReputation 2) cm)
  else if String.eqb consequence "combat_defeat" then
    Some (mutate k (addReputation (-1)) cm)
  else if String.eqb consequence "quest_completed" then
    match as_int (md !! "reputation_reward") with
    | Some reward => Some (mutate k (addReputation reward) cm)
    | None => Some cm
    end
  else if String.eqb consequence "item_gained" then
    match as_map (md !! "item") with
    | Some itemData =>
        item ← itemOfPayload itemData;
        Some (mutate k (gainItem item) cm)
    | None => Some cm
    end
  else if String.eqb consequence "item_lost" then
    match as_string (md !! "item_id") with
    | Some itemID => Some (mutate k (loseItem itemID) cm)
    | None => Some cm
    end
  else Some cm.

Fixpoint applyConsequences (k : string) (action : ActionEvent.t) (now : Time)
  (consequences : list string) (cm : CM) : option CM :=
  match consequences with
  | [] => Some cm
  | c :: rest =>
      cm ← applyConsequence k action now c cm;
      applyConsequences k action now rest cm
  end.

(** [processActionConsequences(ctx, action)], [ctx] being the pointer
    cached under [k]. *)
Definition processActionConsequences (k : string) (action : ActionEvent.t)
  (now : Time) (cm : CM) : option CM :=
  cm ← applyConsequences k action now (ActionEvent.Consequences action) cm;
  Some (mutate k clampReputation cm).

(** [updateSessionStats]. *)
Definition updateSessionStats (action : ActionEvent.t) (now : Time)
  (ctx : PlayerContext.t) : PlayerContext.t :=
  let s := PlayerContext.SessionStats ctx in
  let ty := ActionEvent.Type_ action in
  let among (l : list string) := contains l ty in
  let combat := among ["combat"; "attack"; "defend"] in
  let social := among ["talk"; "dialogue"; "social"] in
  let explore := among ["move"; "explore"; "examine"; "look"] in
  set_SessionStats
    (SessionMetrics.mk
       (int_add (SessionMetrics.TotalActions s) 1)
       (if combat then int_add (SessionMetrics.CombatActions s) 1
        else SessionMetrics.CombatActions s)
       (if social then int_add (SessionMetrics.SocialActions s) 1
        else SessionMetrics.SocialActions s)
       (if explore then int_add (SessionMetrics.ExploreActions s) 1
        else SessionMetrics.ExploreActions s)
       (now - PlayerContext.StartTime ctx)
       (SessionMetrics.LocationsVisited s)
       (SessionMetrics.NPCsInteracted s))
    ctx.

(** [processContextEvent]: append, trim to [maxActions], apply the
    consequences, update the statistics, stamp and store. *)
Definition processContextEvent (event : ContextEvent.t) (now : Time) (cm : CM)
  : option CM :=
  let k := ContextEvent.SessionID event in
  let '(ctx, err, cm) := GetContext k now cm in
  match err with
  | Some _ => Some cm
  | None =>
      actions ← lastN (maxActions cm) (PlayerContext.Actions ctx ++ [ContextEvent.Event event]);
      let cm := mutate k (set_Actions actions) cm in
      cm ← processActionConsequences k (ContextEvent.Event event) now cm;
      let cm := mutate k (updateSessionStats (ContextEvent.Event event) now) cm in
      Some (mutate k (set_LastUpdate now) cm)
  end.

(** One turn of the worker loop of [processEvents]: receive the head of
    the queue and process it; an empty queue leaves the worker blocked. *)
Definition processEvents_step (now : Time) (cm : CM) : option CM :=
  match eventQueue cm with
  | [] => Some cm
  | event :: rest => processContextEvent event now (set_eventQueue rest cm)
  end.

(** The shutdown arm of [processEvents]: the queue is drained; the
    [i]-th event received is processed at time [tick i]. *)
Fixpoint drainQueue (tick : nat -> Time) (i : nat) (q : list ContextEvent.t) (cm : CM)
  : option CM :=
  match q with
  | [] => Some cm
  | event :: rest =>
      cm ← processContextEvent event (tick i) (set_eventQueue rest cm);
      drainQueue tick (Datatypes.S i) rest cm
  end.

Definition processEvents_shutdown (tick : nat -> Time) (cm : CM) : option CM :=
  drainQueue tick 0%nat (eventQueue cm) cm.

(** [saveAllCachedContexts] and [FlushContext]; a failed save is logged
    and otherwise ignored by the former. *)
Definition saveAllCachedContexts (cm : CM) : CM :=
  set_storage
    (foldl (fun st kv => (SaveContext st kv.2).1) (storage cm) (map_to_list (cache cm)))
    cm.

Definition FlushContext (sessionID : string) (cm : CM) : option error * CM :=
  match cache cm !! sessionID with
  | Some ctx =>
      let '(st, err) := SaveContext (storage cm) ctx in (err, set_storage st cm)
  | None => (None, cm)
  end.

Definition IsSessionActive (sessionID : string) (cm : CM) : bool :=
  bool_decide (is_Some (cache cm !! sessionID)).

Definition GetActiveSessions (cm : CM) : list string :=
  map fst (map_to_list (cache cm)).

End Manager.

(** ** Prompt synthesis (ai_integration.go) *)

(** [fmt.Sprintf("%d", z)]. *)
Definition fmt_d (z : Z) : string := pretty z.

(** [formatTimeSince]. *)
Definition formatTimeSince (t now : Time) : string :=
  let duration := now - t in
  if duration <? Minute then "moments"
  else if duration <? Hour then
    let minutes := int_of_float64 (Duration_Minutes duration) in
    (fmt_d minutes ++ " min")%string
  else if duration <? 24 * Hour then
    let hours := int_of_float64 (Duration_Hours duration) in
    (fmt_d hours ++ " hr")%string
  else
    let days := int_of_float64 (float64_div (Duration_Hours duration) (float64_of_int 24)) in
    (fmt_d days ++ " days")%string.

(** [make([]T, 0, n)] panics when [n] is negative or when [n] elements
    of [size] bytes are more than the allocator can address, [maxAlloc]
    (2^48 bytes on the 64-bit targets). *)
Definition maxAlloc : Z := 2 ^ 48.

Definition make_panics (size n : Z) : bool := (n <? 0) || (maxAlloc <? size * n).

(** [getActionSummary]; [None] is the panic of [make] on a capacity that
    is negative or too large (a string header takes 16 bytes).
    [len(actions) - count] cannot overflow unless [count] is negative, and
    then the call panics whatever [startIdx] is. *)
Definition getActionSummary (actions : list ActionEvent.t) (count : Z)
  : option (list string) :=
  if (length actions =? 0)%nat then Some ["No recent actions"]
  else
    let startIdx := Z.of_nat (length actions) - count in
    let startIdx := if startIdx <? 0 then 0 else startIdx in
    if make_panics 16 count then None
    else
      Some (map (fun action =>
                   (ActionEvent.Type_ action ++ ": " ++ ActionEvent.Command action
                    ++ " -> " ++ ActionEvent.Outcome action)%string)
              (drop (Z.to_nat startIdx) actions)).

(** The entries [formatRecentActions] joins with newlines. *)
Definition formatRecentActions_entries (actions : list ActionEvent.t) (now : Time)
  : list string :=
  match actions with
  | [] => ["- No recent actions"]
  | _ =>
      map (fun action =>
             ("- " ++ formatTimeSince (ActionEvent.Timestamp action) now ++ " ago: "
              ++ ActionEvent.Command action ++ " (" ++ ActionEvent.Type_ action
              ++ ") -> " ++ ActionEvent.Outcome action)%string)
        actions
  end.

Definition formatRecentActions (actions : list ActionEvent.t) (now : Time) : string :=
  String.concat (String (Ascii.ascii_of_nat 10) EmptyString)
    (formatRecentActions_entries actions now).

(** The fields of [ContextSummary] that are computed from integers and
    strings.  [ActiveNPCs], [SessionDuration], [PlayerMood] and
    [WorldState] (a map walk in unspecified order and floating-point
    ratios) are computed from the same context independently of these. *)
Module ContextSummary.
Record t : Type := mk {
  CurrentLocation : string;
  PreviousLocation : string;
  PlayerHealth : string;
  PlayerReputation : Z;
  RecentActions : list string }.
End ContextSummary.

Section Synthesis.

Context {S : Type} `{ContextStorage S}.

Local Abbreviation CM := (ContextManager S).

Definition GetContextSummary (sessionID : string) (now : Time) (cm : CM)
  : option (option ContextSummary.t * option error * CM) :=
  let '(ctx, err, cm) := GetContext sessionID now cm in
  match err with
  | Some e => Some (None, Some e, cm)
  | None =>
      recent ← getActionSummary (PlayerContext.Actions ctx) 5;
      let c := PlayerContext.Character ctx in
      let h := CharacterState.Health c in
      Some (Some (ContextSummary.mk
                    (LocationState.Current (PlayerContext.Location ctx))
                    (LocationState.Previous (PlayerContext.Location ctx))
                    (fmt_d (HealthStatus.Current h) ++ "/" ++ fmt_d (HealthStatus.Max h))%string
                    (CharacterState.Reputation c)
                    recent),
            None, cm)
  end.

(** The slice [GenerateAIPrompt] passes to [formatRecentActions] for the
    RECENT PLAYER ACTIONS section, and the section's entries. *)
Definition GenerateAIPrompt_recentActions (sessionID : string) (now : Time) (cm : CM)
  : option (list string * CM) :=
  '(summary, err, cm) ← GetContextSummary sessionID now cm;
  match err with
  | Some _ => Some ([], cm)
  | None =>
      '(recentActions, err, cm) ← GetRecentActions sessionID 3 now cm;
      match err with
      | Some _ => Some ([], cm)
      | None => Some (formatRecentActions_entries recentActions now, cm)
      end
  end.

End Synthesis.

(** ** Engine operations as a transition system *)

Inductive Op : Type :=
| OpCreateSession (playerID playerName newID : string)
| OpGetContext (sessionID : string)
| OpRecordAction (sessionID command actionType target location outcome : string)
    (consequences : list string) (newID : string)
| OpUpdateLocation (sessionID newLocation : string)
| OpUpdateNPCRelationship (sessionID npcID npcName : string)
    (dispositionChange : Z) (facts : list string)
| OpUpdateCharacterHealth (sessionID : string) (healthChange : Z)
| OpUpdateReputation (sessionID : string) (reputationChange : Z)
| OpWorker
| OpProcessContextEvent (event : ContextEvent.t)
| OpFlushContext (sessionID : string)
| OpSaveAll.

Section Transitions.

Context {S : Type} `{ContextStorage S}.

Local Abbreviation CM := (ContextManager S).

(** One engine call at clock reading [now]; [None] is a panic. *)
Definition step (now : Time) (op : Op) (cm : CM) : option CM :=
  match op with
  | OpCreateSession playerID playerName newID =>
      Some (CreateSession playerID playerName newID now cm).2
  | OpGetContext sessionID => Some (GetContext sessionID now cm).2
  | OpRecordAction sessionID command actionType target location outcome cs newID =>
      Some (RecordAction sessionID command actionType target location outcome cs
              newID now cm).2
  | OpUpdateLocation sessionID newLocation =>
      Some (UpdateLocation sessionID newLocation now cm).2
  | OpUpdateNPCRelationship sessionID npcID npcName change facts =>
      Some (UpdateNPCRelationship sessionID npcID npcName change facts now cm).2
  | OpUpdateCharacterHealth sessionID change =>
      Some (UpdateCharacterHealth sessionID change now cm).2
  | OpUpdateReputation sessionID change =>
      Some (UpdateReputation sessionID change now cm).2
  | OpWorker => processEvents_step now cm
  | OpProcessContextEvent event => processContextEvent event now cm
  | OpFlushContext sessionID => Some (FlushContext sessionID cm).2
  | OpSaveAll => Some (saveAllCachedContexts cm)
  end.

Fixpoint run (trace : list (Time * Op)) (cm : CM) : option CM :=
  match trace with
  | [] => Some cm
  | (now, op) :: rest => cm ← step now op cm; run rest cm
  end.

End Transitions.

(** ** Further functions of the package *)

(** [determineRelationshipLevel] (ai_integration.go). *)
Definition determineRelationshipLevel (disposition : Z) : string :=
  if 75 <=? disposition then "close_friend"
  else if 50 <=? disposition then "friend"
  else if 25 <=? disposition then "ally"
  else if 0 <=? disposition then "acquaintance"
  else if -25 <=? disposition then "stranger"
  else if -50 <=? disposition then "rival"
  else "enemy".

(** [MemoryContextStorage.GetStats]. *)
Definition Memory_GetStats (s : MemoryContextStorage) : gmap string value :=
  <["total_contexts" := VInt (Z.of_nat (size (contexts s)))]>
    (<["storage_type" := VString "memory"]> ∅).

(** [NPCContextInfo] (types.go). *)
Module NPCContextInfo.
Record t : Type := mk {
  ID : string;
  Name : string;
  Disposition : Z;
  Mood : string;
  KnownFacts : list string;
  LastSeen : string;
  Location : string;
  Relationship : string }.
End NPCContextInfo.

(** [getRelevantNPCs]: the NPCs met within the last 24 hours.  The source
    ranges over the map in an unspecified order; the model takes the
    entries in the order of [map_to_list]. *)
Definition getRelevantNPCs (ctx : PlayerContext.t) (now : Time) : list NPCContextInfo.t :=
  omap (fun kv : string * NPCRelationship.t =>
          let npcRel := kv.2 in
          if now - NPCRelationship.LastInteraction npcRel <? 24 * Hour then
            Some (NPCContextInfo.mk
                    (NPCRelationship.NPCID npcRel)
                    (NPCRelationship.Name npcRel)
                    (NPCRelationship.Disposition npcRel)
                    (NPCRelationship.Mood npcRel)
                    (NPCRelationship.KnownFacts npcRel)
                    (formatTimeSince (NPCRelationship.LastInteraction npcRel) now)
                    (NPCRelationship.Location npcRel)
                    (determineRelationshipLevel (NPCRelationship.Disposition npcRel)))
          else None)
    (map_to_list (PlayerContext.NPCStates ctx)).

(** [getKnownLocations]: the keys of the set built from the current and
    the (non-empty) previous location, the visits and the (non-empty)
    locations of the logged actions, in an unspecified order. *)
Definition getKnownLocations (ctx : PlayerContext.t) : list string :=
  let loc := PlayerContext.Location ctx in
  let locations : gset string := {[ LocationState.Current loc ]} in
  let locations :=
    if String.eqb (LocationState.Previous loc) "" then locations
    else locations ∪ {[ LocationState.Previous loc ]} in
  let locations :=
    foldl (fun s visit => s ∪ {[ LocationVisit.Location visit ]}) locations
      (LocationState.LocationHistory loc) in
  let locations :=
    foldl (fun s action =>
             if String.eqb (ActionEvent.Location action) "" then s
             else s ∪ {[ ActionEvent.Location action ]})
      locations (PlayerContext.Actions ctx) in
  elements locations.

Section Housekeeping.

Context {S : Type} `{ContextStorage S}.

Local Abbreviation CM := (ContextManager S).

(** [cleanupOldContexts]: each cached session last updated before
    [now - cacheTimeout] is saved (a failed save is only logged) and
    removed from the cache.  The callback deletes the entry it is visiting
    and no other, so the range sees every entry once.  The copy the
    in-memory store then holds is the session as it was evicted, and it is
    saved again before it is evicted again, so stored values are still
    read only when they are current. *)
Definition cleanupOldContexts (now : Time) (cm : CM) : CM :=
  let cutoff := now - cacheTimeout cm in
  foldl (fun (cm : CM) (kv : string * PlayerContext.t) =>
           if PlayerContext.LastUpdate kv.2 <? cutoff then
             set_cache (delete kv.1 (cache cm))
               (set_storage (SaveContext (storage cm) kv.2).1 cm)
           else cm)
    cm (map_to_list (cache cm)).

(** [Shutdown]: the two background routines are waited for, the worker
    draining the queue and the saver making its last pass, and the cache
    is then saved once more.  The saver's pass is placed after the drain;
    the pass of [Shutdown] itself always follows both. *)
Definition Shutdown (tick : nat -> Time) (cm : CM) : option CM :=
  cm ← processEvents_shutdown tick cm;
  let cm := saveAllCachedContexts cm in
  Some (saveAllCachedContexts cm).

End Housekeeping.

(** ** The game server (main.go, [processGameCommand]) *)

(** The errors of the handler: [fmt.Errorf] with the cause formatted by
    [%v]. *)
Inductive handlerError : Type :=
| SessionNotFound
| PromptFailed (cause : error)
| RecordFailed (cause : error)
| SummaryFailed (cause : error).

(** [GameResponse]; of the [Context] map the entries "location",
    "health" and "reputation" are modelled ("mood" and "session_time" come
    from floating-point ratios, "ai_provider" from the AI service). *)
Module GameResponse.
Record t : Type := mk {
  Success : bool;
  Message : string;
  Context : gmap string value }.
End GameResponse.

Section GameServer.

Context {S : Type} `{ContextStorage S}.

Local Abbreviation CM := (ContextManager S).

(** The [switch] of [processGameCommand]: the action type, the target
    and the consequence tags, and the engine calls some arms make.  The
    engine calls of the handler read the clock at [tick 0], [tick 1], ...
    in the order they are made (those inside [GenerateAIPrompt] share
    [tick 3]). *)
Definition commandSwitch (sessionID command : string) (tick : nat -> Time) (cm : CM)
  : string * string * list string * CM :=
  if String.eqb command "/look around" || String.eqb command "/look" then
    ("examine", "environment", ["exploration_success"], cm)
  else if String.eqb command "/talk tavern_keeper" then
    ("social", "tavern_keeper", ["social_success"; "npc_noticed"],
     (UpdateNPCRelationship sessionID "tavern_keeper" "Marcus the Tavern Keeper" 5
        ["friendly_conversation"; "willing_to_help"] (tick 1%nat) cm).2)
  else if String.eqb command "/attack goblin" then
    ("combat", "goblin", ["combat_success"; "reputation_increase"],
     (UpdateCharacterHealth sessionID (-2) (tick 2%nat)
        (UpdateReputation sessionID 10 (tick 1%nat) cm).2).2)
  else if String.eqb command "/move forest" || String.eqb command "/go forest" then
    ("move", "forest", ["location_change"],
     (UpdateLocation sessionID "thornwick_forest" (tick 1%nat) cm).2)
  else if String.eqb command "/examine chest" || String.eqb command "/search chest" then
    ("examine", "chest", ["item_gained"; "exploration_success"], cm)
  else if String.eqb command "/inventory" || String.eqb command "/inv" then
    ("examine", "inventory", [], cm)
  else ("unknown", "unknown", [], cm).

(** [processGameCommand].  [aiResponse] is what the AI service (or the
    fallback text) answers and [newID] the id [RecordAction] generates.
    [ctx] is the pointer the cache holds, so [ctx.Location.Current] is read
    after the engine calls of the switch; of [GenerateAIPrompt], the calls
    that reach the manager are kept.  [None] is a panic. *)
Definition processGameCommand (sessionID command aiResponse newID : string)
  (tick : nat -> Time) (cm : CM)
  : option (option GameResponse.t * option handlerError * CM) :=
  let '(ctx, err, cm) := GetContext sessionID (tick 0%nat) cm in
  match err with
  | Some _ => Some (None, Some SessionNotFound, cm)
  | None =>
      let '(actionType, target, consequences, cm) :=
        commandSwitch sessionID command tick cm in
      '(_, cm) ← GenerateAIPrompt_recentActions sessionID (tick 3%nat) cm;
      let '(_, err, cm) := GetContext sessionID (tick 3%nat) cm in
      match err with
      | Some e => Some (None, Some (PromptFailed e), cm)
      | None =>
          let ctx := default ctx (cache cm !! sessionID) in
          let here := LocationState.Current (PlayerContext.Location ctx) in
          match RecordAction sessionID command actionType target here aiResponse
                  consequences newID (tick 4%nat) cm with
          | (Some e, cm) => Some (None, Some (RecordFailed e), cm)
          | (None, cm) =>
              '(summary, err, cm) ← GetContextSummary sessionID (tick 5%nat) cm;
              match summary, err with
              | Some summary, None =>
                  Some (Some (GameResponse.mk true aiResponse
                                (<["location" := VString (ContextSummary.CurrentLocation summary)]>
                                   (<["health" := VString (ContextSummary.PlayerHealth summary)]>
                                      (<["reputation" := VInt (ContextSummary.PlayerReputation summary)]>
                                         ∅)))),
                        None, cm)
              | _, Some e => Some (None, Some (SummaryFailed e), cm)
              | None, None => None
              end
          end
      end
  end.

End GameServer.

(** ** The world-context section of the prompt (ai_integration.go) *)

(** [v.(bool)] with its [ok] result. *)
Definition as_bool (v : option value) : option bool :=
  match v with Some (VBool b) => Some b | _ => None end.

(** The [WorldState] map that [GetContextSummary] fills. *)
Definition summaryWorldState (ctx : PlayerContext.t) : gmap string value :=
  let s := PlayerContext.SessionStats ctx in
  <["social_active" :=
      VBool (SessionMetrics.CombatActions s <? SessionMetrics.SocialActions s)]>
    (<["combat_experienced" := VBool (0 <? SessionMetrics.CombatActions s)]>
       (<["total_actions" := VInt (SessionMetrics.TotalActions s)]>
          (<["locations_visited" := VInt (SessionMetrics.LocationsVisited s)]> ∅))).

(** The lines [formatWorldContext] collects, each behind a checked type
    assertion. *)
Definition formatWorldContext_lines (worldState : gmap string value) : list string :=
  let context := [] in
  let context :=
    match as_int (worldState !! "locations_visited") with
    | Some val => context ++ [("- Locations explored: " ++ fmt_d val)%string]
    | None => context
    end in
  let context :=
    match as_bool (worldState !! "combat_experienced") with
    | Some true => context ++ ["- Has combat experience"]
    | _ => context
    end in
  let context :=
    match as_bool (worldState !! "social_active") with
    | Some true => context ++ ["- Prefers social interactions"]
    | _ => context
    end in
  context.

(** [formatWorldContext]. *)
Definition formatWorldContext (worldState : gmap string value) : string :=
  match formatWorldContext_lines worldState with
  | [] => "- New to this world"
  | lines => String.concat (String (Ascii.ascii_of_nat 10) EmptyString) lines
  end.

(** ** The MCP server (mcp-server/main.go, [toolExecuteAction]) *)

(** [strings.HasPrefix] and [strings.Contains], on bytes as in Go. *)
Definition HasPrefix (s prefix : string) : bool := String.prefix prefix s.

Definition Contains (s substr : string) : bool :=
  match String.index 0 substr s with
  | Some _ => true
  | None => false
  end.

(** The errors of the tool: a missing argument, or [fmt.Errorf] wrapping
    the cause with [%w]. *)
Inductive toolError : Type :=
| ArgumentRequired (name : string)
| ToolFailed (msg : string) (cause : error).

(** What the result text of [toolExecuteAction] is formatted from (the
    session duration, a float, is left out). *)
Module ActionResult.
Record t : Type := mk {
  GMResponse : string;
  Location : string;
  Health : string;
  Reputation : Z }.
End ActionResult.

Section MCPServer.

Context {S : Type} `{ContextStorage S}.

(** [strings.Fields]: the fields of a string around runs of white space. *)
Variable Fields : string -> list string.

Local Abbreviation CM := (ContextManager S).

(** [parts[1]] under the guard [len(parts) > 1]; [target] is otherwise
    left at its zero value. *)
Definition secondField (command : string) : string :=
  match Fields command with
  | _ :: target :: _ => target
  | _ => ""
  end.

(** [parseGameCommand]. *)
Definition parseGameCommand (command : string) : string * string * list string :=
  if HasPrefix command "/look" || HasPrefix command "/examine" then
    ("examine", "environment", ["exploration_success"])
  else if HasPrefix command "/talk" || HasPrefix command "/speak" then
    ("social", secondField command, ["social_success"; "npc_noticed"])
  else if HasPrefix command "/attack" || HasPrefix command "/fight" then
    ("combat", secondField command, ["combat_success"; "reputation_increase"])
  else if HasPrefix command "/move" || HasPrefix command "/go" then
    ("move", secondField command, ["location_change"])
  else ("unknown", "unknown", []).

(** One iteration of the loop of [applyActionConsequences]; the errors
    of the engine calls are dropped, as in the source. *)
Definition applyActionConsequence (sessionID command : string) (now : Time)
  (consequence : string) (cm : CM) : CM :=
  if String.eqb consequence "reputation_increase" then
    (UpdateReputation sessionID 5 now cm).2
  else if String.eqb consequence "combat_success" then
    (UpdateCharacterHealth sessionID (-2) now (UpdateReputation sessionID 10 now cm).2).2
  else if String.eqb consequence "location_change" then
    if Contains command "forest" then
      (UpdateLocation sessionID "thornwick_forest" now cm).2
    else if Contains command "village" then
      (UpdateLocation sessionID "starting_village" now cm).2
    else cm
  else if String.eqb consequence "npc_noticed" then
    if Contains command "tavern_keeper" then
      (UpdateNPCRelationship sessionID "tavern_keeper" "Marcus the Tavern Keeper" 5
         ["friendly_conversation"; "noticed_player"] now cm).2
    else cm
  else cm.

(** [applyActionConsequences]; the calls made for the [i]-th tag handled
    read the clock at [tick i]. *)
Fixpoint applyActionConsequences (sessionID command : string) (tick : nat -> Time)
  (i : nat) (consequences : list string) (cm : CM) : CM :=
  match consequences with
  | [] => cm
  | consequence :: rest =>
      applyActionConsequences sessionID command tick (Datatypes.S i) rest
        (applyActionConsequence sessionID command (tick i) consequence cm)
  end.

(** [toolExecuteAction].  [aiResponse] is what the AI service (or the
    fallback text) answers and [newID] the id [RecordAction] generates;
    [ctx.Location.Current] is read before the engine calls of
    [applyActionConsequences], which follow [RecordAction].  [None] is a
    panic. *)
Definition toolExecuteAction (args : gmap string value) (aiResponse newID : string)
  (tick : nat -> Time) (cm : CM)
  : option (option ActionResult.t * option toolError * CM) :=
  match as_string (args !! "sessionID") with
  | None => Some (None, Some (ArgumentRequired "sessionID"), cm)
  | Some sessionID =>
      match as_string (args !! "command") with
      | None => Some (None, Some (ArgumentRequired "command"), cm)
      | Some command =>
          let '(ctx, err, cm) := GetContext sessionID (tick 0%nat) cm in
          match err with
          | Some e => Some (None, Some (ToolFailed "session not found" e), cm)
          | None =>
              let '(actionType, target, consequences) := parseGameCommand command in
              '(_, cm) ← GenerateAIPrompt_recentActions sessionID (tick 1%nat) cm;
              let '(_, err, cm) := GetContext sessionID (tick 1%nat) cm in
              match err with
              | Some e => Some (None, Some (ToolFailed "failed to generate AI prompt" e), cm)
              | None =>
                  let ctx := default ctx (cache cm !! sessionID) in
                  let here := LocationState.Current (PlayerContext.Location ctx) in
                  match RecordAction sessionID command actionType target here aiResponse
                          consequences newID (tick 2%nat) cm with
                  | (Some e, cm) =>
                      Some (None, Some (ToolFailed "failed to record action" e), cm)
                  | (None, cm) =>
                      let cm :=
                        applyActionConsequences sessionID command tick 3%nat consequences cm in
                      '(summary, err, cm) ← GetContextSummary sessionID (tick 5%nat) cm;
                      match summary, err with
                      | Some summary, None =>
                          Some (Some (ActionResult.mk aiResponse
                                        (ContextSummary.CurrentLocation summary)
                                        (ContextSummary.PlayerHealth summary)
                                        (ContextSummary.PlayerReputation summary)),
                                None, cm)
                      | _, Some e =>
                          Some (None, Some (ToolFailed "failed to get updated context" e), cm)
                      | None, None => None
                      end
                  end
              end
          end
      end
  end.

End MCPServer.

(** * Specification vocabulary

    The predicates, observations and scenario data the theorems are stated
    with. *)

(** Storage contract used by the invariants: what can be loaded after a
    save is the saved snapshot or something that could be loaded before. *)
Class ContextStorageLaws (S : Type) `{ContextStorage S} : Prop := {
  load_after_save : forall (st : S) (ctx : PlayerContext.t) (k : string) (c : PlayerContext.t),
    LoadContext (SaveContext st ctx).1 k = inl c ->
    c = ctx \/ LoadContext st k = inl c }.

(** The closure conditions an invariant must meet, one per mutation of a
    context that the engine performs; [good] restricts the clock. *)
Record closed (good : Time -> Prop) (P Q : PlayerContext.t -> Prop) : Prop := {
  cl_weaken : forall ctx, P ctx -> Q ctx;
  cl_skeleton : forall sid now, P (createNewContext sid now);
  cl_session : forall pid name sid now, P (newSessionContext pid name sid now);
  cl_move : forall loc now ctx, good now -> P ctx -> P (moveTo loc now ctx);
  cl_touch : forall id name d facts now ctx,
    P ctx -> P (touchNPC id name d facts now ctx);
  cl_touch_mid : forall id name d facts now ctx,
    Q ctx -> Q (touchNPC id name d facts now ctx);
  cl_health : forall d ctx, P ctx -> P (changeHealth d ctx);
  cl_reputation : forall d ctx, P ctx -> P (changeReputation d ctx);
  cl_stamp : forall now ctx, P ctx -> P (set_LastUpdate now ctx);
  cl_stamp_mid : forall now ctx, Q ctx -> Q (set_LastUpdate now ctx);
  cl_actions : forall a ctx, Q ctx -> Q (set_Actions a ctx);
  cl_addrep : forall d ctx, Q ctx -> Q (addReputation d ctx);
  cl_damage : forall d ctx, Q ctx -> Q (damageHealth d ctx);
  cl_heal : forall d ctx, Q ctx -> Q (healHealth d ctx);
  cl_gain : forall item ctx, Q ctx -> Q (gainItem item ctx);
  cl_lose : forall id ctx, Q ctx -> Q (loseItem id ctx);
  cl_clamp : forall ctx, Q ctx -> P (clampReputation ctx);
  cl_stats : forall action now ctx, P ctx -> P (updateSessionStats action now ctx) }.

(** The range of reputation and disposition. *)
Definition in_range100 (v : Z) : Prop := -100 <= v <= 100.

(** Every NPC of the session has its disposition in range. *)
Definition dispositions_bounded (ctx : PlayerContext.t) : Prop :=
  forall id r, PlayerContext.NPCStates ctx !! id = Some r ->
               in_range100 (NPCRelationship.Disposition r).

(** Reputation and all dispositions of the session are in range. *)
Definition within_bounds (ctx : PlayerContext.t) : Prop :=
  in_range100 (CharacterState.Reputation (PlayerContext.Character ctx)) /\
  dispositions_bounded ctx.

(** An item payload on which the plain type assertions of the
    [item_gained] arm succeed.  The actions built by [RecordAction] carry
    an empty metadata bag and satisfy it. *)
Definition payload_ok (action : ActionEvent.t) : Prop :=
  match as_map (ActionEvent.Metadata action !! "item") with
  | Some itemData => is_Some (itemOfPayload itemData)
  | None => True
  end.

(** The actions of the events addressed to [sid], in processing order. *)
Definition eventsFor (sid : string) (timed : list (Time * ContextEvent.t))
  : list ActionEvent.t :=
  (fun te => ContextEvent.Event te.2)
    <$> filter (fun te => ContextEvent.SessionID te.2 = sid) timed.

(** A visit is open while it has no exit time. *)
Definition isOpen (v : LocationVisit.t) : bool := IsZero (LocationVisit.ExitTime v).

(** The open visits of the session's location history, in order. *)
Definition openVisits (ctx : PlayerContext.t) : list LocationVisit.t :=
  filter (fun v => isOpen v = true)
    (LocationState.LocationHistory (PlayerContext.Location ctx)).

(** The property as the specification words it: one open visit, at the
    current location. *)
Definition exactly_one_open (ctx : PlayerContext.t) : Prop :=
  exists v, openVisits ctx = [v] /\
            LocationVisit.Location v = LocationState.Current (PlayerContext.Location ctx).

(** What the code maintains: whenever the history has a last visit, that
    visit is open and at the current location, and all earlier ones are
    closed. *)
Definition history_ok (ctx : PlayerContext.t) : Prop :=
  forall init v,
    LocationState.LocationHistory (PlayerContext.Location ctx) = init ++ [v] ->
    Forall (fun w => isOpen w = false) init /\
    isOpen v = true /\
    LocationVisit.Location v = LocationState.Current (PlayerContext.Location ctx).


(** No NPC of the session has a fact twice among its known facts. *)
Definition facts_nodup (ctx : PlayerContext.t) : Prop :=
  forall id r, PlayerContext.NPCStates ctx !! id = Some r ->
               NoDup (NPCRelationship.KnownFacts r).

(** Health lies between zero and the maximum. *)
Definition health_ok (ctx : PlayerContext.t) : Prop :=
  let h := CharacterState.Health (PlayerContext.Character ctx) in
  0 <= HealthStatus.Current h <= HealthStatus.Max h.

(** The arguments of one [RecordAction] call, with the id and clock
    reading it draws. *)
Record Submission : Type := mkSubmission {
  sub_sessionID : string;
  sub_command : string;
  sub_actionType : string;
  sub_target : string;
  sub_location : string;
  sub_outcome : string;
  sub_consequences : list string;
  sub_newID : string;
  sub_now : Time }.

(** The action [RecordAction] builds from them. *)
Definition actionOf (s : Submission) : ActionEvent.t :=
  ActionEvent.mk (sub_newID s) (sub_now s) (sub_actionType s) (sub_command s)
    (sub_target s) (sub_location s) (sub_outcome s) (sub_consequences s) ∅.

(** The queue entry that wraps it. *)
Definition eventOf (s : Submission) : ContextEvent.t :=
  ContextEvent.mk (sub_sessionID s) (actionOf s) (sub_now s).

(** The only panics of the engine are in the worker: a negative
    [maxActions], or an [item_gained] payload whose fields are not
    strings. *)
Definition op_safe (op : Op) : Prop :=
  match op with
  | OpProcessContextEvent event => payload_ok (ContextEvent.Event event)
  | _ => True
  end.






Section Vocabulary.

Context {S : Type} `{ContextStorage S}.

Local Abbreviation CM := (ContextManager S).

(** Every session the manager can hand out, cached or loadable from the
    store, satisfies [P]. *)
Definition sessions_satisfy (P : PlayerContext.t -> Prop) (cm : CM) : Prop :=
  (forall k ctx, cache cm !! k = Some ctx -> P ctx) /\
  (forall k ctx, LoadContext (storage cm) k = inl ctx -> P ctx).

(** While the worker is inside [processActionConsequences] for the session
    cached under [k], that session is only known to satisfy the weaker
    [Q]; all others satisfy [P]. *)
Definition sessions_satisfy_but (k : string) (P Q : PlayerContext.t -> Prop) (cm : CM)
  : Prop :=
  (forall k' ctx, cache cm !! k' = Some ctx -> Q ctx /\ (k' <> k -> P ctx)) /\
  (forall k' ctx, LoadContext (storage cm) k' = inl ctx -> P ctx).

(** The action log [GetContext sessionID] gives access to: the cached
    one, else the stored one, else the skeleton's empty log. *)
Definition sessionLog (sessionID : string) (cm : CM) : list ActionEvent.t :=
  match cache cm !! sessionID with
  | Some ctx => PlayerContext.Actions ctx
  | None =>
      match LoadContext (storage cm) sessionID with
      | inl ctx => PlayerContext.Actions ctx
      | inr _ => []
      end
  end.

(** [cm'] differs from [cm] in its cache only, and no session's action
    log has changed. *)
Definition logs_kept (cm cm' : CM) : Prop :=
  cm' = set_cache (cache cm') cm /\
  forall sid, sessionLog sid cm' = sessionLog sid cm.

(** The worker's successive calls of [processContextEvent], each with its
    clock reading. *)
Fixpoint processAll (timed : list (Time * ContextEvent.t)) (cm : CM) : option CM :=
  match timed with
  | [] => Some cm
  | (now, event) :: rest => cm ← processContextEvent event now cm; processAll rest cm
  end.

(** [RecordAction] applied to a submission. *)
Definition submit (s : Submission) (cm : CM) : option error * CM :=
  RecordAction (sub_sessionID s) (sub_command s) (sub_actionType s) (sub_target s)
    (sub_location s) (sub_outcome s) (sub_consequences s) (sub_newID s) (sub_now s) cm.

(** Submissions made back to back while the worker is paused: the
    errors returned, in order, and the final state. *)
Fixpoint submitAll (subs : list Submission) (cm : CM) : list (option error) * CM :=
  match subs with
  | [] => ([], cm)
  | s :: rest =>
      let '(err, cm) := submit s cm in
      let '(errs, cm) := submitAll rest cm in
      (err :: errs, cm)
  end.

(** The worker cannot panic on what is queued: [maxActions] is not
    negative and every queued action has a well-formed item payload. *)
Definition queue_safe (cm : CM) : Prop :=
  0 <= maxActions cm /\
  Forall (fun event => payload_ok (ContextEvent.Event event)) (eventQueue cm).

End Vocabulary.

(** ** Vocabulary of the further properties *)

(** Each NPC record sits under its own id and carries the mood label of
    its disposition. *)
Definition npc_records_consistent (ctx : PlayerContext.t) : Prop :=
  forall id r, PlayerContext.NPCStates ctx !! id = Some r ->
    NPCRelationship.NPCID r = id /\
    NPCRelationship.Mood r = calculateMood (NPCRelationship.Disposition r).

(** The counter of NPCs met equals the number of NPC records (as a
    machine integer). *)
Definition npcs_counted (ctx : PlayerContext.t) : Prop :=
  SessionMetrics.NPCsInteracted (PlayerContext.SessionStats ctx)
  = wrap64 (Z.of_nat (size (PlayerContext.NPCStates ctx))).

(** The locations of the visits in the history, oldest first. *)
Definition visitedPlaces (ctx : PlayerContext.t) : list string :=
  LocationVisit.Location <$> LocationState.LocationHistory (PlayerContext.Location ctx).

(** Previous and current location differ; the last visit is at the
    current location and the one before it at the previous location; no
    two consecutive visits are at the same location. *)
Definition places_ok (ctx : PlayerContext.t) : Prop :=
  let loc := PlayerContext.Location ctx in
  LocationState.Previous loc <> LocationState.Current loc /\
  (forall init a, visitedPlaces ctx = init ++ [a] -> a = LocationState.Current loc) /\
  (forall init a b, visitedPlaces ctx = init ++ [a; b] -> a = LocationState.Previous loc) /\
  (forall l1 a b l2, visitedPlaces ctx = l1 ++ a :: b :: l2 -> a <> b).

(** A change of the reputation alone. *)
Definition overReputation (g : Z -> Z) (ctx : PlayerContext.t) : PlayerContext.t :=
  let c := PlayerContext.Character ctx in
  set_Character (set_Reputation (g (CharacterState.Reputation c)) c) ctx.

(** What one consequence tag does to the reputation when the action
    carries no metadata: the defaults of the reputation arms and the fixed
    steps of the combat arms; every other tag does nothing. *)
Definition tagNudge (tag : string) (rep : Z) : Z :=
  if String.eqb tag "reputation_increase" then int_add rep 5
  else if String.eqb tag "reputation_decrease" then int_add rep (-10)
  else if String.eqb tag "combat_victory" then int_add rep 2
  else if String.eqb tag "combat_defeat" then int_add rep (-1)
  else rep.

(** The same as a signed amount. *)
Definition tagDelta (tag : string) : Z :=
  if String.eqb tag "reputation_increase" then 5
  else if String.eqb tag "reputation_decrease" then -10
  else if String.eqb tag "combat_victory" then 2
  else if String.eqb tag "combat_defeat" then -1
  else 0.

(** The tags of an action applied in order, before the final clamp. *)
Definition nudgeReputation (tags : list string) (rep : Z) : Z :=
  foldl (fun r tag => tagNudge tag r) rep tags.

(** The session after the worker has processed a metadata-free action:
    the log extended and trimmed, the reputation nudged and clamped, the
    statistics and the stamp updated. *)
Definition recordedOutcome (maxActions : Z) (a : ActionEvent.t) (now : Time)
  (ctx : PlayerContext.t) : PlayerContext.t :=
  let log := PlayerContext.Actions ctx ++ [a] in
  set_LastUpdate now
    (updateSessionStats a now
       (overReputation (fun r => clamp100 (nudgeReputation (ActionEvent.Consequences a) r))
          (set_Actions (drop (length log - Z.to_nat maxActions) log) ctx))).

(** Every queued action is as [RecordAction] builds it: no metadata. *)
Definition queue_plain {S : Type} (cm : ContextManager S) : Prop :=
  Forall (fun event => ActionEvent.Metadata (ContextEvent.Event event) = ∅)
    (eventQueue cm).

(** The calls the package exports, and the worker: everything but the
    processing of an event that did not come through the queue. *)
Definition public_op (op : Op) : Prop :=
  match op with
  | OpProcessContextEvent _ => False
  | _ => True
  end.

(** The state a public run keeps: sessions with health in range, a queue
    of metadata-free actions, a non-negative log bound. *)
Definition health_kept {S : Type} `{ContextStorage S} (cm : ContextManager S) : Prop :=
  sessions_satisfy health_ok cm /\ queue_plain cm /\ 0 <= maxActions cm.

(** The statistics [GetContext sessionID] gives access to: the cached
    ones, else the stored ones, else the skeleton's zeros. *)
Definition sessionStats {S : Type} `{ContextStorage S} (sessionID : string)
  (cm : ContextManager S) : SessionMetrics.t :=
  match cache cm !! sessionID with
  | Some ctx => PlayerContext.SessionStats ctx
  | None =>
      match LoadContext (storage cm) sessionID with
      | inl ctx => PlayerContext.SessionStats ctx
      | inr _ => SessionMetrics.mk 0 0 0 0 0 0 0
      end
  end.

(** The categories of [updateSessionStats]. *)
Definition isCombat (a : ActionEvent.t) : bool :=
  contains ["combat"; "attack"; "defend"] (ActionEvent.Type_ a).
Definition isSocial (a : ActionEvent.t) : bool :=
  contains ["talk"; "dialogue"; "social"] (ActionEvent.Type_ a).
Definition isExplore (a : ActionEvent.t) : bool :=
  contains ["move"; "explore"; "examine"; "look"] (ActionEvent.Type_ a).

(** How many actions of a list fall in a category. *)
Definition countIf (hit : ActionEvent.t -> bool) (l : list ActionEvent.t) : Z :=
  Z.of_nat (length (filter (fun a => hit a = true) l)).

(** Every cached and every stored session is filed under its own
    [SessionID] (in-memory store). *)
Definition filed (cm : ContextManager MemoryContextStorage) : Prop :=
  (forall k c, cache cm !! k = Some c -> PlayerContext.SessionID c = k) /\
  (forall k c, contexts (storage cm) !! k = Some c -> PlayerContext.SessionID c = k).

(** The actions of the queued events addressed to [sid], in queue order. *)
Definition queuedFor (sid : string) (q : list ContextEvent.t) : list ActionEvent.t :=
  ContextEvent.Event <$> filter (fun e => ContextEvent.SessionID e = sid) q.

(** The action log of the session stored under [sid], empty when the
    store has none. *)
Definition storedLog {S : Type} `{ContextStorage S} (sid : string) (cm : ContextManager S)
  : list ActionEvent.t :=
  match LoadContext (storage cm) sid with
  | inl c => PlayerContext.Actions c
  | inr _ => []
  end.

(** Whether [cleanupOldContexts] at [now] evicts a session. *)
Definition expired {S : Type} (now : Time) (cm : ContextManager S) (c : PlayerContext.t)
  : bool :=
  PlayerContext.LastUpdate c <? now - cacheTimeout cm.

(** Every session cached in [cm] is still cached in [cm']. *)
Definition cached_kept {S : Type} (cm cm' : ContextManager S) : Prop :=
  forall k, is_Some (cache cm !! k) -> is_Some (cache cm' !! k).

(** What the engine calls of the switch do to the session. *)
Definition directEffect (command : string) (tick : nat -> Time) (ctx : PlayerContext.t)
  : PlayerContext.t :=
  if String.eqb command "/talk tavern_keeper" then
    set_LastUpdate (tick 1%nat)
      (touchNPC "tavern_keeper" "Marcus the Tavern Keeper" 5
         ["friendly_conversation"; "willing_to_help"] (tick 1%nat) ctx)
  else if String.eqb command "/attack goblin" then
    set_LastUpdate (tick 2%nat)
      (changeHealth (-2) (set_LastUpdate (tick 1%nat) (changeReputation 10 ctx)))
  else if String.eqb command "/move forest" || String.eqb command "/go forest" then
    set_LastUpdate (tick 1%nat) (moveTo "thornwick_forest" (tick 1%nat) ctx)
  else ctx.

(** The action the handler records. *)
Definition commandAction (command aiResponse newID here : string) (now : Time)
  : ActionEvent.t :=
  let '(actionType, target, consequences) :=
    if String.eqb command "/look around" || String.eqb command "/look" then
      ("examine", "environment", ["exploration_success"])
    else if String.eqb command "/talk tavern_keeper" then
      ("social", "tavern_keeper", ["social_success"; "npc_noticed"])
    else if String.eqb command "/attack goblin" then
      ("combat", "goblin", ["combat_success"; "reputation_increase"])
    else if String.eqb command "/move forest" || String.eqb command "/go forest" then
      ("move", "forest", ["location_change"])
    else if String.eqb command "/examine chest" || String.eqb command "/search chest" then
      ("examine", "chest", ["item_gained"; "exploration_success"])
    else if String.eqb command "/inventory" || String.eqb command "/inv" then
      ("examine", "inventory", [])
    else ("unknown", "unknown", []) in
  ActionEvent.mk newID now actionType command target here aiResponse consequences ∅.

(** What the engine calls of [applyActionConsequences] do to the session
    when the command is an attack: 10 reputation and 2 damage for
    "combat_success", then 5 reputation for "reputation_increase". *)
Definition attackEffect (tick : nat -> Time) (ctx : PlayerContext.t) : PlayerContext.t :=
  set_LastUpdate (tick 4%nat)
    (changeReputation 5
       (set_LastUpdate (tick 3%nat)
          (changeHealth (-2) (set_LastUpdate (tick 3%nat) (changeReputation 10 ctx))))).

(** ** Scenario data *)

(** A fresh manager over an empty in-memory store; its queue is empty
    and [maxActions] is 50. *)
Definition freshManager : ContextManager MemoryContextStorage :=
  NewContextManager NewMemoryStorage.

(** An adversarial run: one huge reputation delta, one beyond the
    machine range, a disposition delta of 150, and a recorded action whose
    metadata supplies a reputation change of 5000. *)
Definition C1_trace : list (Time * Op) :=
  [ (1000, OpCreateSession "p1" "Aragorn" "sid-1");
    (1001, OpUpdateReputation "sid-1" 1000000);
    (1002, OpUpdateReputation "sid-1" (2 ^ 63 - 1));
    (1003, OpUpdateNPCRelationship "sid-1" "npc1" "Bob" 150 ["a"]);
    (1004, OpProcessContextEvent
             (ContextEvent.mk "sid-1"
                (ActionEvent.mk "a1" 1004 "combat" "/attack goblin" "goblin" "forest"
                   "victory" ["reputation_increase"; "combat_victory"; "npc_noticed"]
                   (<["reputation_change" := VInt 5000]> ∅))
                1004)) ].

(** Ninety actions as [RecordAction] builds them: every third one goes
    to session "s2", the other sixty to "s1". *)
Definition C2_event (i : nat) : Time * ContextEvent.t :=
  let now := Z.of_nat (1000 + i) in
  let sid := if (i mod 3 =? 2)%nat then "s2" else "s1" in
  (now,
   eventOf (mkSubmission sid "/look" "examine" "" "forest" "trees"
              ["combat_victory"] (pretty i) now)).

(** The ninety of them, in processing order. *)
Definition C2_events : list (Time * ContextEvent.t) := C2_event <$> seq 0 90.

(** A recorded action for session "sid-1" with one consequence tag and
    one integer metadata entry. *)
Definition taggedEvent (tag key : string) (amount : Z) : ContextEvent.t :=
  ContextEvent.mk "sid-1"
    (ActionEvent.mk "a1" 2000 "combat" "/attack goblin" "goblin" "forest" "ouch"
       [tag] (<[key := VInt amount]> ∅))
    2000.


(** A session is created; the consequence arms hurt it by 5, heal it by
    50, hurt it by 50 and heal it by 7; [UpdateCharacterHealth] then
    changes it by -3, by +50 and by -2^63. *)
Definition C3_trace : list (Time * Op) :=
  [ (1000, OpCreateSession "p1" "Aragorn" "sid-1");
    (2001, OpProcessContextEvent (taggedEvent "health_damage" "damage" 5));
    (2002, OpProcessContextEvent (taggedEvent "health_heal" "healing" 50));
    (2003, OpProcessContextEvent (taggedEvent "health_damage" "damage" 50));
    (2004, OpProcessContextEvent (taggedEvent "health_heal" "healing" 7));
    (2005, OpUpdateCharacterHealth "sid-1" (-3));
    (2006, OpUpdateCharacterHealth "sid-1" 50);
    (2007, OpUpdateCharacterHealth "sid-1" (-(2 ^ 63))) ].

(** The [i]-th of a series of submissions for session "sid-1". *)
Definition C4_submission (i : nat) : Submission :=
  mkSubmission "sid-1" "/look" "examine" "" "forest" "trees" [] (pretty i)
    (Z.of_nat (1000 + i)).

(** A fresh manager after a thousand of them, the worker paused. *)
Definition C4_full : ContextManager MemoryContextStorage :=
  (submitAll (C4_submission <$> seq 0 1000) freshManager).2.

(** A session is created, moves twice (and once to where it already
    is), and a location update reaches an unknown session id. *)
Definition C6_trace : list (Time * Op) :=
  [ (1000, OpCreateSession "p1" "Aragorn" "sid-1");
    (1060, OpUpdateLocation "sid-1" "new_forest");
    (1120, OpUpdateLocation "sid-1" "new_forest");
    (1180, OpUpdateLocation "sid-1" "cave");
    (1240, OpUpdateLocation "typo" "cave") ].

(** The state that run ends in. *)
Definition C6_final : ContextManager MemoryContextStorage :=
  default freshManager (run C6_trace freshManager).

(** The scenario of the specification, followed by updates that repeat
    facts, within one call and across calls. *)
Definition C8_trace : list (Time * Op) :=
  [ (1000, OpCreateSession "p1" "Aragorn" "sid-1");
    (1001, OpUpdateNPCRelationship "sid-1" "npc1" "Bob" 150 ["a"]);
    (1002, OpUpdateNPCRelationship "sid-1" "npc1" "Bob" 5 ["b"; "a"; "b"]);
    (1003, OpUpdateNPCRelationship "sid-1" "npc1" "Bob" 0 ["a"; "b"]) ].

(** A session that meets an NPC, moves, is hurt, records a fight, has it
    processed and moves on; the cache is then saved. *)
Definition tour_trace : list (Time * Op) :=
  [ (1000, OpCreateSession "p1" "Aragorn" "sid-1");
    (1010, OpUpdateNPCRelationship "sid-1" "npc1" "Bob" 30 ["met_in_village"]);
    (1020, OpUpdateLocation "sid-1" "forest");
    (1030, OpUpdateCharacterHealth "sid-1" (-5));
    (1040, OpRecordAction "sid-1" "/attack goblin" "combat" "goblin" "forest" "victory"
             ["combat_victory"] "a1");
    (1050, OpWorker);
    (1060, OpUpdateLocation "sid-1" "cave");
    (1070, OpSaveAll) ].

(** The state that run ends in. *)
Definition tour_final : ContextManager MemoryContextStorage :=
  default freshManager (run tour_trace freshManager).

(** The same session with two more actions queued and not yet processed,
    and changes not yet saved. *)
Definition tour_busy_trace : list (Time * Op) :=
  [ (1080, OpUpdateReputation "sid-1" 40);
    (1090, OpRecordAction "sid-1" "/look" "examine" "" "cave" "dark"
             ["exploration_success"] "a2");
    (1100, OpRecordAction "sid-2" "/talk bob" "social" "bob" "village" "hello"
             ["reputation_increase"] "a3") ].

Definition tour_busy : ContextManager MemoryContextStorage :=
  default tour_final (run tour_busy_trace tour_final).

(** An action as [RecordAction] builds it, with two reputation tags. *)
Definition tour_action : ActionEvent.t :=
  ActionEvent.mk "a4" 1040 "combat" "/attack goblin" "goblin" "forest" "victory"
    ["reputation_increase"; "combat_victory"] ∅.

(** Three actions in processing order, two of them for "sid-1". *)
Definition tour_events : list (Time * ContextEvent.t) :=
  [ (1200, ContextEvent.mk "sid-1" tour_action 1190);
    (1201, ContextEvent.mk "sid-2"
             (ActionEvent.mk "a5" 1195 "talk" "/talk bob" "bob" "village" "hello" [] ∅) 1195);
    (1202, ContextEvent.mk "sid-1"
             (ActionEvent.mk "a6" 1198 "look" "/look" "" "forest" "trees" [] ∅) 1198) ].

(** An [item_gained] action whose item payload has no "id". *)
Definition chest_event : ContextEvent.t :=
  ContextEvent.mk "sid-1"
    (ActionEvent.mk "a7" 1300 "examine" "/examine chest" "chest" "cave" "a gem"
       ["item_gained"] (<["item" := VMap (<["name" := VString "gem"]> ∅)]> ∅))
    1300.

(** The clock of a handler or of the drain: the [i]-th reading. *)
Definition tour_clock (i : nat) : Time := 2000 + Z.of_nat i.

(** A fresh manager whose queue a thousand submissions have filled, the
    worker paused. *)
Definition crowded : ContextManager MemoryContextStorage :=
  (submitAll
     ((fun i => mkSubmission "sid-1" "/look" "examine" "environment" "village" "quiet"
                  ["exploration_success"] (pretty i) (Z.of_nat (1000 + i)))
        <$> seq 0 1000)
     freshManager).2.
(** The arguments of an attack through the MCP tool, and the fields of
    its command. *)
Definition attack_args : gmap string value :=
  <["sessionID" := VString "sid-1"]> (<["command" := VString "/attack goblin"]> ∅).

Definition attack_fields (command : string) : list string := ["/attack"; "goblin"].

(** * Verification *)

(** ** Arithmetic of the clamps *)

Lemma wrap64_range (z : Z) : - 2 ^ 63 <= wrap64 z < 2 ^ 63.
Proof.
  unfold wrap64.
  pose proof (Z.mod_pos_bound (z + 2 ^ 63) (2 ^ 64) ltac:(lia)). lia.
Qed.

Lemma wrap64_small (z : Z) : - 2 ^ 63 <= z < 2 ^ 63 -> wrap64 z = z.
Proof.
  intros Hz. unfold wrap64. rewrite Z.mod_small; lia.
Qed.

Lemma clamp100_range (v : Z) : -100 <= clamp100 v <= 100.
Proof.
  unfold clamp100.
  destruct (100 <? v) eqn:E1; [lia|].
  destruct (v <? -100) eqn:E2; lia.
Qed.

Lemma clamp100_id (v : Z) : -100 <= v <= 100 -> clamp100 v = v.
Proof.
  intros Hv. unfold clamp100.
  destruct (100 <? v) eqn:E1; [lia|].
  destruct (v <? -100) eqn:E2; lia.
Qed.

Lemma clampHealth_range (cur max : Z) : 0 <= max -> 0 <= clampHealth cur max <= max.
Proof.
  intros Hmax. unfold clampHealth.
  destruct (max <? cur) eqn:E1; [lia|].
  destruct (cur <? 0) eqn:E2; lia.
Qed.

(** ** Durations through [float64] *)

(** Small integers convert exactly, and [int] drops the fraction, towards
    zero. *)
Example float64_conversions :
  int_of_float64 <$> (float64_of_int <$> [0; 1; -1; 24; 2 ^ 53 - 1; - 2 ^ 53])
    = [0; 1; -1; 24; 2 ^ 53 - 1; - 2 ^ 53] /\
  int_of_float64 <$> (Duration_Minutes <$> [90 * Minute - 1; - (90 * Minute - 1)])
    = [89; -89] /\
  float64_div (float64_of_int 1) (float64_of_int 3)
    = mkFloat64 6004799503160661 (-54).
Proof. repeat split; vm_compute; reflexivity. Qed.

(** The sum in [Duration.Hours] and [Duration.Minutes] rounds: one
    nanosecond short of 100000 days is reported as 100000 days, and a
    visit one nanosecond short of a million minutes lasts a million.
    Short durations are far from where this happens. *)
Example formatTimeSince_rounds :
  formatTimeSince 0 (100000 * (24 * Hour) - 1) = "100000 days" /\
  formatTimeSince 0 (3 * (24 * Hour) - 1) = "2 days" /\
  formatTimeSince 0 (2 * Hour - 1) = "1 hr" /\
  formatTimeSince 0 (2 * Minute - 1) = "1 min" /\
  formatTimeSince 0 (Minute - 1) = "moments" /\
  LocationVisit.Duration
    (closeVisit (5 + (1000000 * Minute - 1)) (LocationVisit.mk "forest" 5 0 0))
    = 1000000.
Proof. repeat split; vm_compute; reflexivity. Qed.

(** ** Invariants of the sessions a manager holds *)

#[export] Instance MemoryStorage_Laws : ContextStorageLaws MemoryContextStorage.
Proof.
  constructor. intros st ctx k c.
  unfold LoadContext, SaveContext; cbn. unfold Memory_LoadContext; cbn.
  destruct (decide (PlayerContext.SessionID ctx = k)) as [->|Hne].
  - rewrite lookup_insert_eq. intros [= ->]. by left.
  - rewrite lookup_insert_ne by done. by right.
Qed.

#[export] Instance UnreachableStorage_Laws : ContextStorageLaws UnreachableStorage.
Proof. constructor. intros st ctx k c. cbn. discriminate. Qed.

Section Invariants.

Context {S : Type} `{ContextStorage S}.

Local Abbreviation CM := (ContextManager S).

Lemma GetContext_spec (P : PlayerContext.t -> Prop) sid now (cm : CM) :
  (forall s n, P (createNewContext s n)) ->
  sessions_satisfy P cm ->
  exists ctx cm',
    GetContext sid now cm = (ctx, None, cm') /\
    cache cm' !! sid = Some ctx /\ P ctx /\ sessions_satisfy P cm' /\
    storage cm' = storage cm /\ eventQueue cm' = eventQueue cm /\
    maxActions cm' = maxActions cm /\ queueCap cm' = queueCap cm /\
    (forall k, k <> sid -> cache cm' !! k = cache cm !! k).
Proof.
  intros Hnew [Hc Hs]. unfold GetContext.
  destruct (cache cm !! sid) as [cached|] eqn:E.
  - exists cached, cm. repeat split; eauto.
  - set (ctx := match LoadContext (storage cm) sid with
                | inl c => c | inr _ => createNewContext sid now end).
    assert (P ctx) as HP.
    { subst ctx. destruct (LoadContext (storage cm) sid) eqn:EL; eauto. }
    exists ctx, (cache_Store sid ctx cm). cbn.
    repeat split; auto.
    + apply lookup_insert_eq.
    + intros k c. cbn. destruct (decide (sid = k)) as [->|Hne].
      * rewrite lookup_insert_eq. by intros [= <-].
      * rewrite lookup_insert_ne by done. eauto.
    + intros k Hk. by rewrite lookup_insert_ne.
Qed.

Lemma cache_Store_satisfy (P : PlayerContext.t -> Prop) sid ctx (cm : CM) :
  P ctx -> sessions_satisfy P cm -> sessions_satisfy P (cache_Store sid ctx cm).
Proof.
  intros HP [Hc Hs]. split; [|exact Hs].
  intros k c. cbn. destruct (decide (sid = k)) as [->|Hne].
  - rewrite lookup_insert_eq. by intros [= <-].
  - rewrite lookup_insert_ne by done. eauto.
Qed.

Lemma mutate_satisfy (P : PlayerContext.t -> Prop) k f (cm : CM) :
  (forall ctx, P ctx -> P (f ctx)) ->
  sessions_satisfy P cm -> sessions_satisfy P (mutate k f cm).
Proof.
  intros Hf [Hc Hs]. split; [|exact Hs].
  intros k' c. cbn. destruct (decide (k = k')) as [->|Hne].
  - rewrite lookup_alter_eq. destruct (cache cm !! k') eqn:E; cbn; [|done].
    intros [= <-]. eauto.
  - rewrite lookup_alter_ne by done. eauto.
Qed.

End Invariants.

Section Preservation.

Context {S : Type} `{ContextStorageLaws S}.

Local Abbreviation CM := (ContextManager S).

Variable good : Time -> Prop.
Variables P Q : PlayerContext.t -> Prop.
Hypothesis HC : closed good P Q.

Local Ltac open_context sid now cm :=
  let ctx := fresh "ctx" in
  let cm1 := fresh "cm1" in
  let E := fresh "E" in
  let Hk := fresh "Hk" in
  let HP := fresh "HP" in
  let Hs := fresh "Hs" in
  destruct (GetContext_spec P sid now cm (cl_skeleton _ _ _ HC))
    as (ctx & cm1 & E & Hk & HP & Hs & _); [assumption|];
  rewrite E; cbn.

Lemma UpdateLocation_satisfy sid loc now (cm : CM) :
  good now -> sessions_satisfy P cm ->
  sessions_satisfy P (UpdateLocation sid loc now cm).2.
Proof.
  intros Hg Hcm. unfold UpdateLocation. open_context sid now cm.
  apply cache_Store_satisfy; [|done].
  by apply (cl_stamp _ _ _ HC), (cl_move _ _ _ HC).
Qed.

Lemma UpdateNPCRelationship_satisfy sid id name d facts now (cm : CM) :
  sessions_satisfy P cm ->
  sessions_satisfy P (UpdateNPCRelationship sid id name d facts now cm).2.
Proof.
  intros Hcm. unfold UpdateNPCRelationship. open_context sid now cm.
  apply cache_Store_satisfy; [|done].
  by apply (cl_stamp _ _ _ HC), (cl_touch _ _ _ HC).
Qed.

Lemma UpdateCharacterHealth_satisfy sid d now (cm : CM) :
  sessions_satisfy P cm ->
  sessions_satisfy P (UpdateCharacterHealth sid d now cm).2.
Proof.
  intros Hcm. unfold UpdateCharacterHealth. open_context sid now cm.
  apply cache_Store_satisfy; [|done].
  by apply (cl_stamp _ _ _ HC), (cl_health _ _ _ HC).
Qed.

Lemma UpdateReputation_satisfy sid d now (cm : CM) :
  sessions_satisfy P cm ->
  sessions_satisfy P (UpdateReputation sid d now cm).2.
Proof.
  intros Hcm. unfold UpdateReputation. open_context sid now cm.
  apply cache_Store_satisfy; [|done].
  by apply (cl_stamp _ _ _ HC), (cl_reputation _ _ _ HC).
Qed.

Lemma GetContext_satisfy sid now (cm : CM) :
  sessions_satisfy P cm -> sessions_satisfy P (GetContext sid now cm).2.
Proof. intros Hcm. open_context sid now cm. done. Qed.

Lemma RecordAction_satisfy sid cmd ty tgt loc out cs id now (cm : CM) :
  sessions_satisfy P cm ->
  sessions_satisfy P (RecordAction sid cmd ty tgt loc out cs id now cm).2.
Proof. intros Hcm. unfold RecordAction. by case_match. Qed.

Lemma save_satisfy (st : S) ctx (cm : CM) :
  P ctx ->
  (forall k c, LoadContext st k = inl c -> P c) ->
  forall k c, LoadContext (SaveContext st ctx).1 k = inl c -> P c.
Proof.
  intros HP Hst k c Hl.
  destruct (load_after_save _ _ _ _ Hl) as [->|Hold]; eauto.
Qed.

Lemma CreateSession_satisfy pid name id now (cm : CM) :
  sessions_satisfy P cm ->
  sessions_satisfy P (CreateSession pid name id now cm).2.
Proof.
  intros Hcm. unfold CreateSession.
  pose proof (cl_session _ _ _ HC pid name id now) as Hnew.
  pose proof (cache_Store_satisfy P id _ cm Hnew Hcm) as [Hc Hs].
  pose proof (save_satisfy _ _ cm Hnew Hs) as Hsave.
  destruct (SaveContext _ _) as [st [err|]] eqn:E; cbn in *; by split.
Qed.

Lemma FlushContext_satisfy sid (cm : CM) :
  sessions_satisfy P cm -> sessions_satisfy P (FlushContext sid cm).2.
Proof.
  intros [Hc Hs]. unfold FlushContext.
  destruct (cache cm !! sid) as [ctx|] eqn:E; [|by split].
  pose proof (save_satisfy (storage cm) ctx cm (Hc _ _ E) Hs) as Hsave.
  destruct (SaveContext _ _) as [st err]; cbn in *. by split.
Qed.

Lemma saveAllCachedContexts_satisfy (cm : CM) :
  sessions_satisfy P cm -> sessions_satisfy P (saveAllCachedContexts cm).
Proof.
  intros [Hc Hs]. unfold saveAllCachedContexts. split; [exact Hc|]. cbn.
  assert (Forall (fun kv => P kv.2) (map_to_list (cache cm))) as Hall.
  { apply Forall_forall. intros [k c] Hin. apply elem_of_map_to_list in Hin. eauto. }
  revert Hs. generalize (storage cm). induction Hall as [|kv l Hkv _ IH]; intros st Hst.
  - exact Hst.
  - cbn. apply IH. by apply (save_satisfy st kv.2 cm).
Qed.

Lemma satisfy_but k (cm : CM) :
  sessions_satisfy P cm -> sessions_satisfy_but k P Q cm.
Proof.
  intros [Hc Hs]. split; [|exact Hs].
  intros k' ctx Hk'. split; [apply (cl_weaken _ _ _ HC)|]; eauto.
Qed.

Lemma cache_Store_but k sid c (cm : CM) :
  Q c -> (sid <> k -> P c) ->
  sessions_satisfy_but k P Q cm -> sessions_satisfy_but k P Q (cache_Store sid c cm).
Proof.
  intros HQ HP [Hc Hs]. split; [|exact Hs].
  intros k' ctx. cbn. destruct (decide (sid = k')) as [->|Hne].
  - rewrite lookup_insert_eq. intros [= <-]. by split.
  - rewrite lookup_insert_ne by done. eauto.
Qed.

Lemma mutate_but k f (cm : CM) :
  (forall ctx, Q ctx -> Q (f ctx)) ->
  sessions_satisfy_but k P Q cm -> sessions_satisfy_but k P Q (mutate k f cm).
Proof.
  intros Hf [Hc Hs]. split; [|exact Hs].
  intros k' ctx. cbn. destruct (decide (k = k')) as [->|Hne].
  - rewrite lookup_alter_eq. destruct (cache cm !! k') as [c|] eqn:E; cbn; [|done].
    intros [= <-]. split; [|done]. apply Hf. by apply (Hc _ _ E).
  - rewrite lookup_alter_ne by done. eauto.
Qed.

Lemma UpdateNPCRelationship_but k sid id name d facts now (cm : CM) :
  sessions_satisfy_but k P Q cm ->
  sessions_satisfy_but k P Q (UpdateNPCRelationship sid id name d facts now cm).2.
Proof.
  intros Hcm. pose proof Hcm as [Hc Hs].
  unfold UpdateNPCRelationship, GetContext.
  destruct (cache cm !! sid) as [c|] eqn:E; cbn.
  - destruct (Hc _ _ E) as [HQ HP].
    apply cache_Store_but; [| |done].
    + by apply (cl_stamp_mid _ _ _ HC), (cl_touch_mid _ _ _ HC).
    + intros Hne. by apply (cl_stamp _ _ _ HC), (cl_touch _ _ _ HC), HP.
  - set (ctx := match LoadContext (storage cm) sid with
                | inl c => c | inr _ => createNewContext sid now end).
    assert (P ctx) as HP.
    { subst ctx. destruct (LoadContext (storage cm) sid) eqn:EL; eauto.
      apply (cl_skeleton _ _ _ HC). }
    apply cache_Store_but.
    + by apply (cl_stamp_mid _ _ _ HC), (cl_touch_mid _ _ _ HC), (cl_weaken _ _ _ HC).
    + intros _. by apply (cl_stamp _ _ _ HC), (cl_touch _ _ _ HC).
    + apply cache_Store_but; [by apply (cl_weaken _ _ _ HC)|done|done].
Qed.

Lemma applyConsequence_but k action now c (cm cm' : CM) :
  sessions_satisfy_but k P Q cm ->
  applyConsequence k action now c cm = Some cm' ->
  sessions_satisfy_but k P Q cm'.
Proof.
  intros Hcm. unfold applyConsequence.
  repeat case_match; intros Happ; simplify_option_eq;
    try done;
    try (apply mutate_but; [|done]; intros ctx' HQ;
         first [ by apply (cl_addrep _ _ _ HC)
               | by apply (cl_damage _ _ _ HC)
               | by apply (cl_heal _ _ _ HC)
               | by apply (cl_gain _ _ _ HC)
               | by apply (cl_lose _ _ _ HC) ]).
  by apply UpdateNPCRelationship_but.
Qed.

Lemma applyConsequences_but k action now cs (cm cm' : CM) :
  sessions_satisfy_but k P Q cm ->
  applyConsequences k action now cs cm = Some cm' ->
  sessions_satisfy_but k P Q cm'.
Proof.
  revert cm. induction cs as [|c cs IH]; intros cm Hcm; cbn.
  - by intros [= <-].
  - destruct (applyConsequence k action now c cm) as [cm1|] eqn:E; cbn; [|done].
    apply IH. by eapply applyConsequence_but.
Qed.

Lemma clampReputation_restores k (cm : CM) :
  sessions_satisfy_but k P Q cm -> sessions_satisfy P (mutate k clampReputation cm).
Proof.
  intros [Hc Hs]. split; [|exact Hs].
  intros k' ctx. cbn. destruct (decide (k = k')) as [->|Hne].
  - rewrite lookup_alter_eq. destruct (cache cm !! k') as [c|] eqn:E; cbn; [|done].
    intros [= <-]. apply (cl_clamp _ _ _ HC). by apply (Hc _ _ E).
  - rewrite lookup_alter_ne by done. intros Hk'. by apply (Hc _ _ Hk').
Qed.

Lemma processContextEvent_satisfy event now (cm cm' : CM) :
  sessions_satisfy P cm ->
  processContextEvent event now cm = Some cm' ->
  sessions_satisfy P cm'.
Proof.
  intros Hcm. unfold processContextEvent. open_context (ContextEvent.SessionID event) now cm.
  intros Hrun. simplify_option_eq.
  unfold processActionConsequences in *. simplify_option_eq.
  apply mutate_satisfy; [apply (cl_stamp _ _ _ HC)|].
  apply mutate_satisfy; [apply (cl_stats _ _ _ HC)|].
  apply clampReputation_restores.
  eapply applyConsequences_but; [|eassumption].
  apply mutate_but; [apply (cl_actions _ _ _ HC)|].
  by apply satisfy_but.
Qed.

Lemma step_satisfy now op (cm cm' : CM) :
  good now -> sessions_satisfy P cm -> step now op cm = Some cm' ->
  sessions_satisfy P cm'.
Proof.
  intros Hg Hcm. destruct op; cbn; try (intros [= <-]).
  - by apply CreateSession_satisfy.
  - by apply GetContext_satisfy.
  - by apply RecordAction_satisfy.
  - by apply UpdateLocation_satisfy.
  - by apply UpdateNPCRelationship_satisfy.
  - by apply UpdateCharacterHealth_satisfy.
  - by apply UpdateReputation_satisfy.
  - unfold processEvents_step. destruct (eventQueue cm) as [|ev q]; [by intros [= <-]|].
    apply processContextEvent_satisfy. exact Hcm.
  - by apply processContextEvent_satisfy.
  - by apply FlushContext_satisfy.
  - by apply saveAllCachedContexts_satisfy.
Qed.

Lemma run_satisfy trace (cm cm' : CM) :
  Forall (fun s => good s.1) trace ->
  sessions_satisfy P cm -> run trace cm = Some cm' ->
  sessions_satisfy P cm'.
Proof.
  intros Hg. revert cm. induction Hg as [|[now op] trace Hn _ IH]; intros cm Hcm; cbn.
  - by intros [= <-].
  - destruct (step now op cm) as [cm1|] eqn:E; cbn; [|done].
    apply IH. by eapply step_satisfy.
Qed.

End Preservation.

(** ** Reputation and disposition stay within [-100, 100] *)

Lemma touchNPC_dispositions id name d facts now ctx :
  dispositions_bounded ctx -> dispositions_bounded (touchNPC id name d facts now ctx).
Proof.
  intros Hd id' r. unfold touchNPC. cbn.
  destruct (decide (id = id')) as [->|Hne].
  - rewrite lookup_insert_eq. intros [= <-]. cbn. apply clamp100_range.
  - rewrite lookup_insert_ne by done. apply Hd.
Qed.

Lemma within_bounds_closed : closed (fun _ => True) within_bounds dispositions_bounded.
Proof.
  constructor; unfold within_bounds, in_range100.
  - by intros ctx [_ Hd].
  - intros sid now. split; [cbn; lia|]. intros id r. cbn. by rewrite lookup_empty.
  - intros pid name sid now. split; [cbn; lia|]. intros id r. cbn. by rewrite lookup_empty.
  - intros loc now ctx _ [Hr Hd]. unfold moveTo. by case_match.
  - intros id name d facts now ctx [Hr Hd]. split; [exact Hr|].
    by apply touchNPC_dispositions.
  - intros. by apply touchNPC_dispositions.
  - by intros d ctx [Hr Hd].
  - intros d ctx [Hr Hd]. split; [cbn; apply clamp100_range|exact Hd].
  - by intros now ctx [Hr Hd].
  - by intros now ctx Hd.
  - by intros a ctx Hd.
  - by intros d ctx Hd.
  - by intros d ctx Hd.
  - by intros d ctx Hd.
  - by intros item ctx Hd.
  - by intros id ctx Hd.
  - intros ctx Hd. split; [cbn; apply clamp100_range|exact Hd].
  - by intros action now ctx [Hr Hd].
Qed.

(** ** Frame properties: what processing leaves alone *)

Lemma lastN_drop {A : Type} (m : Z) (l : list A) :
  0 <= m -> lastN m l = Some (drop (length l - Z.to_nat m) l).
Proof.
  intros Hm. unfold lastN.
  destruct (m <? Z.of_nat (length l)) eqn:E1.
  - destruct (m <? 0) eqn:E2; [lia|].
    do 2 f_equal. lia.
  - replace (length l - Z.to_nat m)%nat with 0%nat by lia. done.
Qed.

Lemma payload_ok_empty action : ActionEvent.Metadata action = ∅ -> payload_ok action.
Proof. intros E. unfold payload_ok. by rewrite E, lookup_empty. Qed.

Section Frames.

Context {S : Type} `{ContextStorage S}.

Local Abbreviation CM := (ContextManager S).

Lemma sessionLog_GetContext sid now (cm : CM) :
  PlayerContext.Actions (GetContext sid now cm).1.1 = sessionLog sid cm.
Proof.
  unfold GetContext, sessionLog.
  destruct (cache cm !! sid); [done|]. cbn.
  by destruct (LoadContext (storage cm) sid).
Qed.

Lemma logs_kept_refl (cm : CM) : logs_kept cm cm.
Proof. split; [by destruct cm|done]. Qed.

Lemma logs_kept_trans (cm1 cm2 cm3 : CM) :
  logs_kept cm1 cm2 -> logs_kept cm2 cm3 -> logs_kept cm1 cm3.
Proof.
  intros [E1 L1] [E2 L2]. split.
  - rewrite E2 at 1. rewrite E1 at 1. done.
  - intros sid. by rewrite L2, L1.
Qed.

Lemma mutate_logs_kept k f (cm : CM) :
  (forall ctx, PlayerContext.Actions (f ctx) = PlayerContext.Actions ctx) ->
  logs_kept cm (mutate k f cm).
Proof.
  intros Hf. split; [done|]. intros sid. unfold sessionLog. cbn.
  destruct (decide (k = sid)) as [->|Hne].
  - rewrite lookup_alter_eq. destruct (cache cm !! sid); cbn; [apply Hf|done].
  - by rewrite lookup_alter_ne.
Qed.

Lemma cache_Store_logs_kept k c (cm : CM) :
  PlayerContext.Actions c = sessionLog k cm -> logs_kept cm (cache_Store k c cm).
Proof.
  intros Hc. split; [done|]. intros sid. unfold sessionLog at 1. cbn.
  destruct (decide (k = sid)) as [->|Hne].
  - by rewrite lookup_insert_eq.
  - by rewrite lookup_insert_ne.
Qed.

Lemma GetContext_logs_kept sid now (cm : CM) : logs_kept cm (GetContext sid now cm).2.
Proof.
  pose proof (sessionLog_GetContext sid now cm) as HL. revert HL.
  unfold GetContext. destruct (cache cm !! sid) eqn:E; cbn.
  - intros _. apply logs_kept_refl.
  - intros HL. by apply cache_Store_logs_kept.
Qed.

Lemma GetContext_cached sid now (cm : CM) :
  cache (GetContext sid now cm).2 !! sid = Some (GetContext sid now cm).1.1.
Proof.
  unfold GetContext. destruct (cache cm !! sid) eqn:E; cbn; [done|].
  apply lookup_insert_eq.
Qed.

Lemma GetContext_no_error sid now (cm : CM) : (GetContext sid now cm).1.2 = None.
Proof. unfold GetContext. by destruct (cache cm !! sid). Qed.

Lemma UpdateNPCRelationship_logs_kept sid id name d facts now (cm : CM) :
  logs_kept cm (UpdateNPCRelationship sid id name d facts now cm).2.
Proof.
  unfold UpdateNPCRelationship.
  pose proof (GetContext_logs_kept sid now cm) as Hk.
  pose proof (sessionLog_GetContext sid now cm) as HL.
  pose proof (GetContext_no_error sid now cm) as He.
  destruct (GetContext sid now cm) as [[ctx err] cm1]. cbn in *. subst err.
  cbn. eapply logs_kept_trans; [exact Hk|].
  apply cache_Store_logs_kept. cbn. destruct Hk as [_ Hk]. by rewrite Hk.
Qed.

Lemma applyConsequence_logs_kept k action now c (cm cm' : CM) :
  applyConsequence k action now c cm = Some cm' -> logs_kept cm cm'.
Proof.
  unfold applyConsequence.
  repeat case_match; intros Happ; simplify_option_eq;
    try apply logs_kept_refl;
    try (by apply mutate_logs_kept).
  apply UpdateNPCRelationship_logs_kept.
Qed.

Lemma applyConsequences_logs_kept k action now cs (cm cm' : CM) :
  applyConsequences k action now cs cm = Some cm' -> logs_kept cm cm'.
Proof.
  revert cm. induction cs as [|c cs IH]; intros cm; cbn.
  - intros [= <-]. apply logs_kept_refl.
  - destruct (applyConsequence k action now c cm) as [cm1|] eqn:E; cbn; [|done].
    intros Hrest. eapply logs_kept_trans; [by eapply applyConsequence_logs_kept|eauto].
Qed.

Lemma applyConsequence_total k action now c (cm : CM) :
  payload_ok action -> is_Some (applyConsequence k action now c cm).
Proof.
  unfold payload_ok, applyConsequence. intros Hok.
  repeat case_match; try done. by destruct Hok as [item ->].
Qed.

Lemma applyConsequences_total k action now cs (cm : CM) :
  payload_ok action -> is_Some (applyConsequences k action now cs cm).
Proof.
  intros Hok. revert cm. induction cs as [|c cs IH]; intros cm; cbn; [done|].
  destruct (applyConsequence_total k action now c cm Hok) as [cm1 ->]. cbn. apply IH.
Qed.

(** What one call of the worker does to the logs: the event is appended
    to its own session's log, which is then trimmed; nothing else moves. *)
Lemma processContextEvent_log event now (cm cm' : CM) :
  processContextEvent event now cm = Some cm' ->
  cm' = set_cache (cache cm') cm /\
  lastN (maxActions cm)
    (sessionLog (ContextEvent.SessionID event) cm ++ [ContextEvent.Event event])
    = Some (sessionLog (ContextEvent.SessionID event) cm') /\
  forall sid, sid <> ContextEvent.SessionID event ->
              sessionLog sid cm' = sessionLog sid cm.
Proof.
  unfold processContextEvent.
  set (k := ContextEvent.SessionID event).
  pose proof (GetContext_logs_kept k now cm) as [E1 K1].
  pose proof (sessionLog_GetContext k now cm) as HL.
  pose proof (GetContext_no_error k now cm) as He.
  pose proof (GetContext_cached k now cm) as Hc.
  destruct (GetContext k now cm) as [[ctx err] cm1]. cbn in *. subst err.
  assert (maxActions cm1 = maxActions cm) as -> by (by rewrite E1).
  rewrite HL.
  destruct (lastN _ _) as [actions|] eqn:EN; cbn; [|done].
  unfold processActionConsequences.
  destruct (applyConsequences _ _ _ _ _) as [cm2|] eqn:EA; cbn; [|done].
  intros [= <-].
  apply applyConsequences_logs_kept in EA.
  assert (logs_kept (mutate k (set_Actions actions) cm1)
            (mutate k (set_LastUpdate now)
               (mutate k (updateSessionStats (ContextEvent.Event event) now)
                  (mutate k clampReputation cm2)))) as [E3 K3].
  { eapply logs_kept_trans; [exact EA|].
    eapply logs_kept_trans; [by apply (mutate_logs_kept k clampReputation)|].
    eapply logs_kept_trans;
      [by apply (mutate_logs_kept k (updateSessionStats (ContextEvent.Event event) now))|].
    by apply (mutate_logs_kept k (set_LastUpdate now)). }
  split; [|split].
  - rewrite E3 at 1. cbn. rewrite E1 at 1. done.
  - f_equal. rewrite K3. unfold sessionLog. cbn.
    rewrite lookup_alter_eq, Hc. done.
  - intros sid Hne. rewrite K3. unfold sessionLog at 1. cbn.
    rewrite lookup_alter_ne by done.
    rewrite <- K1. unfold sessionLog. by rewrite E1.
Qed.

Lemma processContextEvent_total event now (cm : CM) :
  0 <= maxActions cm -> payload_ok (ContextEvent.Event event) ->
  is_Some (processContextEvent event now cm).
Proof.
  intros Hm Hok. unfold processContextEvent.
  pose proof (GetContext_logs_kept (ContextEvent.SessionID event) now cm) as [E1 _].
  pose proof (GetContext_no_error (ContextEvent.SessionID event) now cm) as He.
  destruct (GetContext _ now cm) as [[ctx err] cm1]. cbn in *. subst err.
  assert (maxActions cm1 = maxActions cm) as -> by (by rewrite E1).
  rewrite lastN_drop by done. cbn.
  unfold processActionConsequences.
  destruct (applyConsequences_total (ContextEvent.SessionID event)
              (ContextEvent.Event event) now
              (ActionEvent.Consequences (ContextEvent.Event event))
              (mutate (ContextEvent.SessionID event)
                 (set_Actions
                    (drop (length (PlayerContext.Actions ctx ++ [ContextEvent.Event event])
                           - Z.to_nat (maxActions cm))
                       (PlayerContext.Actions ctx ++ [ContextEvent.Event event])))
                 cm1) Hok) as [cm2 ->].
  done.
Qed.

End Frames.

(** ** The action log keeps the last [maxActions] events *)

Section ActionLog.

Context {S : Type} `{ContextStorage S}.

Local Abbreviation CM := (ContextManager S).

Lemma eventsFor_cons_mine sid now event rest :
  ContextEvent.SessionID event = sid ->
  eventsFor sid ((now, event) :: rest) = ContextEvent.Event event :: eventsFor sid rest.
Proof. intros E. unfold eventsFor. by rewrite filter_cons_True. Qed.

Lemma eventsFor_cons_other sid now event rest :
  ContextEvent.SessionID event <> sid ->
  eventsFor sid ((now, event) :: rest) = eventsFor sid rest.
Proof. intros E. unfold eventsFor. by rewrite filter_cons_False. Qed.

Lemma processAll_log sid timed : forall (cm : CM) (bound : nat),
  maxActions cm = Z.of_nat bound ->
  (length (sessionLog sid cm) <= bound)%nat ->
  Forall (fun te => payload_ok (ContextEvent.Event te.2)) timed ->
  exists cm',
    processAll timed cm = Some cm' /\
    maxActions cm' = maxActions cm /\
    sessionLog sid cm' =
      drop (length (sessionLog sid cm ++ eventsFor sid timed) - bound)
        (sessionLog sid cm ++ eventsFor sid timed).
Proof.
  induction timed as [|[now event] rest IH]; intros cm bound Hm Hlen Hok.
  - exists cm. cbn. split; [done|]. split; [done|].
    unfold eventsFor. cbn. rewrite app_nil_r.
    replace (length (sessionLog sid cm) - bound)%nat with 0%nat by lia. done.
  - apply Forall_cons in Hok as [Hok1 Hok].
    destruct (processContextEvent_total event now cm ltac:(lia) Hok1) as [cm1 E1].
    destruct (processContextEvent_log event now cm cm1 E1) as (Ecm & Hmine & Hothers).
    assert (maxActions cm1 = maxActions cm) as Hm1 by (by rewrite Ecm).
    assert (forall cm', processAll rest cm1 = Some cm' ->
                        processAll ((now, event) :: rest) cm = Some cm') as Hstep.
    { intros cm' Erun. cbn [processAll]. by rewrite E1. }
    destruct (decide (ContextEvent.SessionID event = sid)) as [Heq|Hne].
    + rewrite Heq in Hmine. rewrite lastN_drop in Hmine by lia.
      injection Hmine as Hmine. rewrite Hm, Nat2Z.id in Hmine.
      assert (length (sessionLog sid cm1) <= bound)%nat as Hlen1.
      { rewrite <- Hmine, length_drop, length_app. cbn. lia. }
      destruct (IH cm1 bound ltac:(lia) Hlen1 Hok) as (cm' & Erun & Hm' & Hlog).
      exists cm'. split; [by apply Hstep|]. split; [lia|].
      rewrite Hlog, (eventsFor_cons_mine sid now event rest Heq).
      rewrite <- Hmine.
      set (X := sessionLog sid cm ++ [ContextEvent.Event event]).
      set (rest' := eventsFor sid rest).
      replace (sessionLog sid cm ++ ContextEvent.Event event :: rest')
        with (X ++ rest') by (subst X; by rewrite <- app_assoc).
      rewrite <- (drop_app_le X rest') by lia.
      rewrite drop_drop. f_equal.
      rewrite length_drop, !length_app. lia.
    + rewrite <- (Hothers sid) in * by done.
      destruct (IH cm1 bound ltac:(lia) Hlen Hok) as (cm' & Erun & Hm' & Hlog).
      exists cm'. split; [by apply Hstep|]. split; [lia|].
      by rewrite Hlog, (eventsFor_cons_other sid now event rest Hne).
Qed.

End ActionLog.

(** ** Location history: open visits *)

Lemma filter_all_closed (l : list LocationVisit.t) :
  Forall (fun w => isOpen w = false) l -> filter (fun v => isOpen v = true) l = [].
Proof.
  induction 1 as [|w l Hw _ IH]; [done|].
  rewrite filter_cons_False; [done|]. by rewrite Hw.
Qed.

Lemma history_ok_open ctx :
  history_ok ctx ->
  match LocationState.LocationHistory (PlayerContext.Location ctx) with
  | [] => openVisits ctx = []
  | _ :: _ => exactly_one_open ctx
  end.
Proof.
  intros Hok. unfold openVisits, exactly_one_open, openVisits.
  destruct (LocationState.LocationHistory (PlayerContext.Location ctx)) as [|w l] eqn:E.
  - done.
  - destruct (exists_last (l := w :: l) ltac:(done)) as (init & v & Hsplit).
    unfold history_ok in Hok. rewrite E in Hok.
    destruct (Hok init v Hsplit) as (Hinit & Hv & Hloc).
    exists v. split; [|done].
    rewrite Hsplit, filter_app, (filter_all_closed init Hinit).
    by rewrite filter_cons_True.
Qed.




(** ** Known facts: no duplicates *)

Lemma contains_true slice item : contains slice item = true <-> item ∈ slice.
Proof.
  induction slice as [|s rest IH]; cbn.
  - split; [done|]. by intros ?%elem_of_nil.
  - destruct (String.eqb s item) eqn:E.
    + apply String.eqb_eq in E as ->. split; [intros _; left|done].
    + apply String.eqb_neq in E. rewrite IH, elem_of_cons. intuition congruence.
Qed.

Lemma contains_false slice item : contains slice item = false <-> item ∉ slice.
Proof.
  rewrite <- contains_true. by destruct (contains slice item).
Qed.

Lemma addFacts_known known facts :
  (forall f, f ∈ facts -> f ∈ known) -> addFacts known facts = known.
Proof.
  unfold addFacts. revert known. induction facts as [|f facts IH]; intros known Hall; [done|].
  cbn. assert (contains known f = true) as ->.
  { apply contains_true, Hall. left. }
  apply IH. intros g Hg. apply Hall. by right.
Qed.

Lemma addFacts_NoDup known facts : NoDup known -> NoDup (addFacts known facts).
Proof.
  unfold addFacts. revert known. induction facts as [|f facts IH]; intros known Hnd; [done|].
  cbn. destruct (contains known f) eqn:E; apply IH; [done|].
  apply contains_false in E.
  apply NoDup_app. split; [done|]. split.
  - intros x Hx Hin. apply list_elem_of_singleton in Hin as ->. done.
  - apply NoDup_singleton.
Qed.

Lemma addFacts_elem known facts x :
  x ∈ addFacts known facts <-> x ∈ known \/ x ∈ facts.
Proof.
  unfold addFacts. revert known. induction facts as [|f facts IH]; intros known; cbn.
  - split; [by left|]. intros [?|Hx]; [done|]. by apply elem_of_nil in Hx.
  - rewrite IH. destruct (contains known f) eqn:E.
    + apply contains_true in E. rewrite elem_of_cons. intuition congruence.
    + rewrite elem_of_app, list_elem_of_singleton, elem_of_cons. tauto.
Qed.

Lemma touchNPC_facts_nodup id name d facts now ctx :
  facts_nodup ctx -> facts_nodup (touchNPC id name d facts now ctx).
Proof.
  intros Hnd id' r. unfold touchNPC. cbn.
  destruct (decide (id = id')) as [->|Hne].
  - rewrite lookup_insert_eq. intros [= <-]. cbn.
    apply addFacts_NoDup.
    destruct (PlayerContext.NPCStates ctx !! id') as [r0|] eqn:E; cbn.
    + by apply (Hnd id').
    + constructor.
  - rewrite lookup_insert_ne by done. apply Hnd.
Qed.

Lemma facts_nodup_closed : closed (fun _ => True) facts_nodup facts_nodup.
Proof.
  constructor; try done; intros.
  - unfold moveTo. by case_match.
  - by apply touchNPC_facts_nodup.
  - by apply touchNPC_facts_nodup.
Qed.

(** ** The bounded queue *)

Section Queue.

Context {S : Type} `{ContextStorage S}.

Local Abbreviation CM := (ContextManager S).

Lemma submit_free (s : Submission) (cm : CM) :
  (length (eventQueue cm) < queueCap cm)%nat ->
  submit s cm = (None, set_eventQueue (eventQueue cm ++ [eventOf s]) cm).
Proof.
  intros Hfree. unfold submit, RecordAction.
  by apply Nat.ltb_lt in Hfree as ->.
Qed.

Lemma submit_full (s : Submission) (cm : CM) :
  (queueCap cm <= length (eventQueue cm))%nat ->
  submit s cm = (Some ErrQueueFull, cm).
Proof.
  intros Hfull. unfold submit, RecordAction.
  by apply Nat.ltb_ge in Hfull as ->.
Qed.

Lemma submitAll_fit (subs : list Submission) : forall cm : CM,
  (length (eventQueue cm) + length subs <= queueCap cm)%nat ->
  submitAll subs cm =
    (replicate (length subs) None,
     set_eventQueue (eventQueue cm ++ (eventOf <$> subs)) cm).
Proof.
  induction subs as [|s subs IH]; intros cm Hfit; cbn [submitAll].
  - cbn. rewrite app_nil_r. by destruct cm.
  - cbn in Hfit. rewrite submit_free by lia.
    rewrite IH by (cbn; rewrite length_app; cbn; lia).
    cbn. by rewrite <- app_assoc.
Qed.

Lemma submitAll_app (subs1 subs2 : list Submission) (cm : CM) :
  submitAll (subs1 ++ subs2) cm =
    let '(errs1, cm1) := submitAll subs1 cm in
    let '(errs2, cm2) := submitAll subs2 cm1 in
    (errs1 ++ errs2, cm2).
Proof.
  revert cm. induction subs1 as [|s subs1 IH]; intros cm; cbn [submitAll app].
  - by destruct (submitAll subs2 cm).
  - destruct (submit s cm) as [err cm1]. rewrite IH.
    destruct (submitAll subs1 cm1) as [errs1 cm2].
    by destruct (submitAll subs2 cm2).
Qed.

Lemma lastN_elem {A : Type} (m : Z) (l l' : list A) (x : A) :
  lastN m l = Some l' -> x ∈ l' -> x ∈ l.
Proof.
  unfold lastN. repeat case_match; intros [= <-]; [|done].
  intros Hx. eapply subseteq_drop, Hx.
Qed.

(** Draining the queue puts into the logs only actions that were queued
    or already logged. *)
Lemma drainQueue_log tick (q : list ContextEvent.t) : forall i (cm cm' : CM),
  drainQueue tick i q cm = Some cm' ->
  forall sid a, a ∈ sessionLog sid cm' ->
                a ∈ sessionLog sid cm \/ a ∈ (ContextEvent.Event <$> q).
Proof.
  induction q as [|event rest IH]; intros i cm cm'; cbn [drainQueue].
  - intros [= <-] sid a Ha. by left.
  - destruct (processContextEvent event (tick i) (set_eventQueue rest cm)) as [cm1|] eqn:E;
      cbn; [|done].
    intros Hrest sid a Ha.
    destruct (processContextEvent_log _ _ _ _ E) as (_ & Hmine & Hothers).
    destruct (IH _ _ _ Hrest sid a Ha) as [Hin|Hin]; [|right; cbn; by right].
    destruct (decide (sid = ContextEvent.SessionID event)) as [->|Hne].
    + apply (lastN_elem _ _ _ a Hmine) in Hin.
      apply elem_of_app in Hin as [Hin|Hin]; [by left|].
      right. cbn. apply list_elem_of_singleton in Hin as ->. left.
    + rewrite (Hothers sid Hne) in Hin. by left.
Qed.

End Queue.

(** ** Runs that do not panic *)

Section Totality.

Context {S : Type} `{ContextStorage S}.

Local Abbreviation CM := (ContextManager S).

Local Ltac after_GetContext sid now cm :=
  let E := fresh "E" in
  let He := fresh "He" in
  pose proof (GetContext_logs_kept sid now cm) as [E _];
  pose proof (GetContext_no_error sid now cm) as He;
  destruct (GetContext sid now cm) as [[? ?] ?]; cbn in *; subst; cbn;
  rewrite E; cbn.

Lemma step_total now op (cm : CM) :
  queue_safe cm -> op_safe op ->
  exists cm', step now op cm = Some cm' /\ queue_safe cm'.
Proof.
  intros [Hm Hq] Hop. destruct op; cbn [step].
  - eexists. split; [done|]. unfold CreateSession.
    destruct (SaveContext _ _) as [st [err|]]; by split.
  - eexists. split; [done|]. after_GetContext sessionID now cm. by split.
  - eexists. split; [done|]. unfold RecordAction. case_match; [|by split].
    split; [done|]. cbn. apply Forall_app. split; [done|].
    constructor; [|done]. by apply payload_ok_empty.
  - eexists. split; [done|]. unfold UpdateLocation.
    after_GetContext sessionID now cm. by split.
  - eexists. split; [done|]. unfold UpdateNPCRelationship.
    after_GetContext sessionID now cm. by split.
  - eexists. split; [done|]. unfold UpdateCharacterHealth.
    after_GetContext sessionID now cm. by split.
  - eexists. split; [done|]. unfold UpdateReputation.
    after_GetContext sessionID now cm. by split.
  - unfold processEvents_step. destruct (eventQueue cm) as [|event q] eqn:Eq.
    + eexists. split; [done|]. split; [done|]. by rewrite Eq.
    + apply Forall_cons in Hq as [Hev Hq].
      destruct (processContextEvent_total event now (set_eventQueue q cm) Hm Hev)
        as [cm' E].
      exists cm'. split; [done|].
      destruct (processContextEvent_log _ _ _ _ E) as (-> & _). by split.
  - destruct (processContextEvent_total event now cm Hm Hop) as [cm' E].
    exists cm'. split; [done|].
    destruct (processContextEvent_log _ _ _ _ E) as (-> & _). by split.
  - eexists. split; [done|]. unfold FlushContext.
    destruct (cache cm !! sessionID); [|by split].
    destruct (SaveContext _ _) as [st err]; by split.
  - eexists. split; [done|]. by split.
Qed.

Lemma run_total trace : forall cm : CM,
  queue_safe cm -> Forall (fun s => op_safe s.2) trace ->
  exists cm', run trace cm = Some cm' /\ queue_safe cm'.
Proof.
  induction trace as [|[now op] trace IH]; intros cm Hcm Hops.
  - by exists cm.
  - apply Forall_cons in Hops as [Hop Hops].
    destruct (step_total now op cm Hcm Hop) as (cm1 & E & Hcm1).
    destruct (IH cm1 Hcm1 Hops) as (cm' & Erun & Hcm').
    exists cm'. split; [|done]. cbn [run]. by rewrite E.
Qed.

End Totality.

(** * The claims *)

Lemma NewContextManager_satisfy {S : Type} `{ContextStorage S}
  (P : PlayerContext.t -> Prop) (st : S) :
  (forall k ctx, LoadContext st k = inl ctx -> P ctx) ->
  sessions_satisfy P (NewContextManager st).
Proof. intros Hst. split; [|exact Hst]. intros k ctx. cbn. by rewrite lookup_empty. Qed.

Lemma NewMemoryStorage_satisfy (P : PlayerContext.t -> Prop) :
  sessions_satisfy P (NewContextManager NewMemoryStorage).
Proof. apply NewContextManager_satisfy. intros k ctx. cbn. done. Qed.

Lemma freshManager_queue_safe : queue_safe freshManager.
Proof. split; [cbn; lia|constructor]. Qed.

(** C1. If every session a manager holds (cached or stored) has its
    reputation and all its NPC dispositions within [-100, 100], then so has
    every session after any sequence of engine calls: [UpdateReputation]
    and [UpdateNPCRelationship] with arbitrary (also huge, wrapping)
    deltas, and [processContextEvent] on actions with arbitrary consequence
    tags and metadata values.  Such a sequence runs to completion unless
    the worker panics on a malformed item payload. *)
Theorem C1_reputation_and_dispositions_stay_bounded
  {S : Type} `{ContextStorageLaws S}
  (cm : ContextManager S) (trace : list (Time * Op)) :
  sessions_satisfy within_bounds cm ->
  (forall cm', run trace cm = Some cm' ->
     sessions_satisfy within_bounds cm' /\
     forall k ctx, cache cm' !! k = Some ctx ->
       -100 <= CharacterState.Reputation (PlayerContext.Character ctx) <= 100 /\
       forall id r, PlayerContext.NPCStates ctx !! id = Some r ->
                    -100 <= NPCRelationship.Disposition r <= 100) /\
  (queue_safe cm -> Forall (fun s => op_safe s.2) trace ->
   exists cm', run trace cm = Some cm').
Proof.
  intros Hcm. split.
  - intros cm' Hrun.
    assert (sessions_satisfy within_bounds cm') as Hcm'.
    { eapply (run_satisfy _ _ _ within_bounds_closed); [|exact Hcm|exact Hrun].
      by apply Forall_true. }
    split; [exact Hcm'|].
    intros k ctx Hk. destruct Hcm' as [Hc _]. exact (Hc k ctx Hk).
  - intros Hq Hops. destruct (run_total trace cm Hq Hops) as (cm' & Hrun & _).
    by exists cm'.
Qed.

Lemma C1_witness :
  (forall cm', run C1_trace freshManager = Some cm' ->
     sessions_satisfy within_bounds cm' /\
     forall k ctx, cache cm' !! k = Some ctx ->
       -100 <= CharacterState.Reputation (PlayerContext.Character ctx) <= 100 /\
       forall id r, PlayerContext.NPCStates ctx !! id = Some r ->
                    -100 <= NPCRelationship.Disposition r <= 100) /\
  (queue_safe freshManager -> Forall (fun s => op_safe s.2) C1_trace ->
   exists cm', run C1_trace freshManager = Some cm').
Proof.
  apply (C1_reputation_and_dispositions_stay_bounded freshManager C1_trace).
  apply NewMemoryStorage_satisfy.
Defined.

(** The same run, evaluated: the reputation wraps, and is clamped. *)
Example C1_trace_result :
  (cm ← run C1_trace freshManager;
   ctx ← cache cm !! "sid-1";
   r ← PlayerContext.NPCStates ctx !! "npc1";
   Some (CharacterState.Reputation (PlayerContext.Character ctx),
         NPCRelationship.Disposition r, NPCRelationship.Mood r))
  = Some (100, 100, "friendly").
Proof. vm_compute. reflexivity. Qed.

(** C2. Starting from an empty action log for the session, once the
    worker has processed N events for it (interleaved with events of other
    sessions), the log has length min(N, 50) and is the last min(N, 50) of
    them in processing order.  The events are those [RecordAction] builds
    (no metadata), or any whose item payload is well formed; processing
    then never panics. *)
Theorem C2_action_log_keeps_last_50
  {S : Type} `{ContextStorage S}
  (cm : ContextManager S) (sid : string) (timed : list (Time * ContextEvent.t)) :
  maxActions cm = 50 ->
  sessionLog sid cm = [] ->
  Forall (fun te => payload_ok (ContextEvent.Event te.2)) timed ->
  exists cm',
    processAll timed cm = Some cm' /\
    length (sessionLog sid cm') = (length (eventsFor sid timed) `min` 50)%nat /\
    sessionLog sid cm' = drop (length (eventsFor sid timed) - 50) (eventsFor sid timed).
Proof.
  intros Hm Hlog Hok.
  destruct (processAll_log sid timed cm 50 Hm ltac:(rewrite Hlog; cbn; lia) Hok)
    as (cm' & Hrun & _ & Hlog').
  rewrite Hlog in Hlog'. cbn [app] in Hlog'.
  exists cm'. split; [done|]. split; [|done].
  rewrite Hlog', length_drop. lia.
Qed.

Lemma C2_witness :
  maxActions freshManager = 50 /\
  sessionLog "s1" freshManager = [] /\
  exists cm',
    processAll C2_events freshManager = Some cm' /\
    length (sessionLog "s1" cm') = (length (eventsFor "s1" C2_events) `min` 50)%nat /\
    sessionLog "s1" cm' =
      drop (length (eventsFor "s1" C2_events) - 50) (eventsFor "s1" C2_events).
Proof.
  split; [reflexivity|]. split; [reflexivity|].
  apply (C2_action_log_keeps_last_50 freshManager "s1" C2_events);
    [reflexivity|reflexivity|].
  apply Forall_fmap, Forall_forall. intros i _. apply payload_ok_empty. reflexivity.
Defined.

(** Evaluated: sixty events reached "s1"; the log holds fifty, the
    oldest being the eleventh ("15" is the eleventh index not congruent to
    2 modulo 3), the newest the last. *)
Example C2_events_result :
  (cm ← processAll C2_events freshManager;
   let log := sessionLog "s1" cm in
   Some (length (eventsFor "s1" C2_events), length log,
         ActionEvent.ID <$> head log, ActionEvent.ID <$> last log))
  = Some (60%nat, 50%nat, Some "15", Some "88").
Proof. vm_compute. reflexivity. Qed.

(** ** Health *)

(** The direct mutator clamps on both sides and keeps the invariant. *)
Lemma changeHealth_health_ok d ctx : health_ok ctx -> health_ok (changeHealth d ctx).
Proof.
  unfold health_ok, changeHealth. cbn. intros Hok.
  apply clampHealth_range. lia.
Qed.











Section BoundedAmounts.

Context {S : Type} `{ContextStorageLaws S}.

Local Abbreviation CM := (ContextManager S).








End BoundedAmounts.





(** The same run, step by step: the health after each call. *)
Example C3_trace_result :
  (fun n => cm ← run (take n C3_trace) freshManager;
            ctx ← cache cm !! "sid-1";
            Some (HealthStatus.Current
                    (CharacterState.Health (PlayerContext.Character ctx))))
    <$> seq 1 8
  = Some <$> [20; 15; 20; 0; 7; 4; 20; 0].
Proof. vm_compute. reflexivity. Qed.

(** ** Capacity of the queue *)

(** C4. [RecordAction] on a queue with free space returns no error and
    appends the event; on a full queue it returns the capacity error and
    leaves the manager exactly as it was, so the action is dropped: when
    the queue is later drained, the action is in no session's log unless
    an identical action was queued or logged before the call.  On a fresh
    manager (capacity 1000) with the worker paused, 1000 submissions
    succeed and fill the queue, and the 1001st returns the capacity
    error. *)
Theorem C4_record_action_respects_capacity
  {S : Type} `{ContextStorage S} (cm : ContextManager S) (s : Submission) :
  ((length (eventQueue cm) < queueCap cm)%nat ->
   submit s cm = (None, set_eventQueue (eventQueue cm ++ [eventOf s]) cm)) /\
  ((queueCap cm <= length (eventQueue cm))%nat ->
   submit s cm = (Some ErrQueueFull, cm) /\
   forall tick cm',
     processEvents_shutdown tick (submit s cm).2 = Some cm' ->
     actionOf s ∉ (ContextEvent.Event <$> eventQueue cm) ->
     (forall sid, actionOf s ∉ sessionLog sid cm) ->
     forall sid, actionOf s ∉ sessionLog sid cm') /\
  (forall (st : S) (subs : list Submission) (extra : Submission),
     length subs = 1000%nat ->
     submitAll (subs ++ [extra]) (NewContextManager st) =
       (replicate 1000 None ++ [Some ErrQueueFull],
        set_eventQueue (eventOf <$> subs) (NewContextManager st))).
Proof.
  split; [apply submit_free|]. split.
  - intros Hfull. rewrite (submit_full s cm Hfull). split; [done|].
    cbn [snd]. intros tick cm' Hdrain Hq Hlogs sid Hin.
    destruct (drainQueue_log tick _ _ _ _ Hdrain sid _ Hin) as [Hold|Hold].
    + by apply (Hlogs sid).
    + by apply Hq.
  - intros st subs extra Hlen.
    rewrite submitAll_app, submitAll_fit by (cbn; lia).
    cbn [eventQueue NewContextManager app]. rewrite Hlen.
    cbn [submitAll]. rewrite submit_full; [done|].
    cbn. rewrite length_fmap. lia.
Qed.

Lemma C4_witness :
  (queueCap C4_full <= length (eventQueue C4_full))%nat /\
  submit (C4_submission 1000) C4_full = (Some ErrQueueFull, C4_full) /\
  submitAll ((C4_submission <$> seq 0 1000) ++ [C4_submission 1000]) freshManager =
    (replicate 1000 None ++ [Some ErrQueueFull],
     set_eventQueue (eventOf <$> (C4_submission <$> seq 0 1000)) freshManager).
Proof.
  assert (queueCap C4_full <= length (eventQueue C4_full))%nat as Hfull.
  { vm_compute. reflexivity. }
  pose proof (C4_record_action_respects_capacity C4_full (C4_submission 1000))
    as (_ & Hdrop & Hscenario).
  split; [exact Hfull|]. split.
  - exact (proj1 (Hdrop Hfull)).
  - apply (Hscenario NewMemoryStorage (C4_submission <$> seq 0 1000)).
    vm_compute. reflexivity.
Defined.

(** Evaluated with the worker resumed at shutdown: the log of "sid-1"
    holds the last fifty of the thousand queued actions and not the
    dropped one (id "1000"). *)
Example C4_drained_log :
  (cm ← processEvents_shutdown (fun i => Z.of_nat (5000 + i))
          (submit (C4_submission 1000) C4_full).2;
   let ids := ActionEvent.ID <$> sessionLog "sid-1" cm in
   Some (length ids, head ids, last ids, bool_decide ("1000" ∈ ids)))
  = Some (50%nat, Some "950", Some "999", false).
Proof. vm_compute. reflexivity. Qed.

(** ** Lookup of a session *)


(** A cache and store miss on a fresh manager, and a stored session
    found on a cache miss. *)
Example C5_miss_then_hit :
  let '(ctx, err, cm) := GetContext "typo" 1000 freshManager in
  err = None /\ ctx = createNewContext "typo" 1000 /\
  IsSessionActive "typo" cm = true /\
  Memory_LoadContext (storage cm) "typo" = inr (ErrNotFound "typo") /\
  GetContext "typo" 2000 cm = (ctx, None, cm).
Proof. vm_compute. repeat split; reflexivity. Qed.

(** C10. On a cache and store miss [GetContext] returns and caches the
    skeleton: location "unknown", health 20/20, reputation 0, empty action
    log, NPC map and attribute map, visit count 0.  A session made by
    [CreateSession] is cached at "starting_village" with visit count 1 and
    the four attributes strength, dexterity, intelligence and charisma at
    10. *)
Theorem C10_skeleton_differs_from_created_session
  {S : Type} `{ContextStorage S} (cm : ContextManager S) (sid : string) (now : Time)
  (e : error) (playerID playerName newID : string) :
  cache cm !! sid = None ->
  LoadContext (storage cm) sid = inr e ->
  (exists ctx cm',
     GetContext sid now cm = (ctx, None, cm') /\
     cache cm' !! sid = Some ctx /\
     LocationState.Current (PlayerContext.Location ctx) = "unknown" /\
     CharacterState.Health (PlayerContext.Character ctx) = HealthStatus.mk 20 20 /\
     CharacterState.Reputation (PlayerContext.Character ctx) = 0 /\
     PlayerContext.Actions ctx = [] /\
     PlayerContext.NPCStates ctx = ∅ /\
     CharacterState.Attributes (PlayerContext.Character ctx) = ∅ /\
     LocationState.VisitCount (PlayerContext.Location ctx) = 0) /\
  (exists ctx,
     cache (CreateSession playerID playerName newID now cm).2 !! newID = Some ctx /\
     LocationState.Current (PlayerContext.Location ctx) = "starting_village" /\
     LocationState.VisitCount (PlayerContext.Location ctx) = 1 /\
     CharacterState.Health (PlayerContext.Character ctx) = HealthStatus.mk 20 20 /\
     CharacterState.Reputation (PlayerContext.Character ctx) = 0 /\
     size (CharacterState.Attributes (PlayerContext.Character ctx)) = 4%nat /\
     forall a, a ∈ ["strength"; "dexterity"; "intelligence"; "charisma"] ->
               CharacterState.Attributes (PlayerContext.Character ctx) !! a = Some 10).
Proof.
  intros Hmiss Hload. split.
  - exists (createNewContext sid now), (cache_Store sid (createNewContext sid now) cm).
    split_and!; try done.
    + unfold GetContext. by rewrite Hmiss, Hload.
    + cbn. apply lookup_insert_eq.
  - exists (newSessionContext playerID playerName newID now).
    split_and!; try done.
    + unfold CreateSession. destruct (SaveContext _ _) as [st [err|]]; cbn;
        apply lookup_insert_eq.
    + intros a Ha. cbn.
      repeat (apply elem_of_cons in Ha as [->|Ha]; [by vm_compute|]).
      by apply elem_of_nil in Ha.
Qed.

Lemma C10_witness :
  cache freshManager !! "typo" = None /\
  LoadContext (storage freshManager) "typo" = inr (ErrNotFound "typo") /\
  exists ctx cm',
    GetContext "typo" 1000 freshManager = (ctx, None, cm') /\
    cache cm' !! "typo" = Some ctx /\
    LocationState.Current (PlayerContext.Location ctx) = "unknown" /\
    CharacterState.Health (PlayerContext.Character ctx) = HealthStatus.mk 20 20 /\
    CharacterState.Reputation (PlayerContext.Character ctx) = 0 /\
    PlayerContext.Actions ctx = [] /\
    PlayerContext.NPCStates ctx = ∅ /\
    CharacterState.Attributes (PlayerContext.Character ctx) = ∅ /\
    LocationState.VisitCount (PlayerContext.Location ctx) = 0.
Proof.
  split; [reflexivity|]. split; [reflexivity|].
  apply (C10_skeleton_differs_from_created_session freshManager "typo" 1000
           (ErrNotFound "typo") "p1" "Aragorn" "sid-1");
    reflexivity.
Defined.

(** ** Bounded recent-actions output *)

Lemma make_allowed (size n : Z) :
  0 <= n -> size * n <= maxAlloc -> make_panics size n = false.
Proof.
  intros Hn Hsize. unfold make_panics. apply orb_false_iff. split.
  - by apply Z.ltb_ge.
  - by apply Z.ltb_ge.
Qed.

Lemma getActionSummary_bounded (actions : list ActionEvent.t) (count : nat) :
  (1 <= count)%nat ->
  16 * Z.of_nat count <= maxAlloc ->
  exists summaries,
    getActionSummary actions (Z.of_nat count) = Some summaries /\
    (1 <= length summaries <= count)%nat.
Proof.
  intros Hcount Hcap. unfold getActionSummary.
  destruct (length actions =? 0)%nat eqn:E0.
  - eexists. split; [done|]. cbn. lia.
  - apply Nat.eqb_neq in E0.
    rewrite make_allowed by lia.
    eexists. split; [done|].
    rewrite length_map, length_drop.
    destruct (Z.ltb_spec (Z.of_nat (length actions) - Z.of_nat count) 0); lia.
Qed.

Lemma lastN_bounded {A : Type} (l : list A) (count : nat) :
  exists l', lastN (Z.of_nat count) l = Some l' /\ (length l' <= count)%nat.
Proof.
  rewrite lastN_drop by lia. eexists. split; [done|].
  rewrite length_drop. lia.
Qed.

Lemma formatRecentActions_entries_length actions now :
  length (formatRecentActions_entries actions now) = (length actions `max` 1)%nat.
Proof.
  destruct actions as [|a l]; [done|].
  unfold formatRecentActions_entries. rewrite length_map. cbn. lia.
Qed.

(** C9. Whatever the length of the action log, [GetContextSummary]
    succeeds with between one and five recent-action strings, and the
    RECENT PLAYER ACTIONS section of the prompt is built from at most
    three actions and has between one and three entries. *)
Theorem C9_recent_actions_are_bounded
  {S : Type} `{ContextStorage S} (cm : ContextManager S) (sid : string) (now : Time) :
  (exists summary cm',
     GetContextSummary sid now cm = Some (Some summary, None, cm') /\
     (1 <= length (ContextSummary.RecentActions summary) <= 5)%nat) /\
  (exists actions cm',
     GetRecentActions sid 3 now cm = Some (actions, None, cm') /\
     (length actions <= 3)%nat) /\
  (exists entries cm',
     GenerateAIPrompt_recentActions sid now cm = Some (entries, cm') /\
     (1 <= length entries <= 3)%nat).
Proof.
  assert (forall (c : ContextManager S), exists actions c',
            GetRecentActions sid 3 now c = Some (actions, None, c') /\
            (length actions <= 3)%nat) as Hrecent.
  { intros c. unfold GetRecentActions.
    pose proof (GetContext_no_error sid now c) as He.
    destruct (GetContext sid now c) as [[ctx err] c1]. cbn in He. subst err.
    destruct (lastN_bounded (PlayerContext.Actions ctx) 3) as (l' & E & Hl').
    change (Z.of_nat 3) with 3 in E. cbn. rewrite E.
    by exists l', c1. }
  assert (exists summary cm',
            GetContextSummary sid now cm = Some (Some summary, None, cm') /\
            (1 <= length (ContextSummary.RecentActions summary) <= 5)%nat) as Hsummary.
  { unfold GetContextSummary.
    pose proof (GetContext_no_error sid now cm) as He.
    destruct (GetContext sid now cm) as [[ctx err] cm1]. cbn in He. subst err.
    destruct (getActionSummary_bounded (PlayerContext.Actions ctx) 5 ltac:(lia) ltac:(done))
      as (l & E & Hl).
    change (Z.of_nat 5) with 5 in E. rewrite E. cbn.
    eexists _, _. split; [reflexivity|]. exact Hl. }
  split; [exact Hsummary|]. split; [apply Hrecent|].
  destruct Hsummary as (summary & cm1 & Es & _).
  destruct (Hrecent cm1) as (actions & cm2 & Er & Hlen).
  unfold GenerateAIPrompt_recentActions. rewrite Es. cbn. rewrite Er. cbn.
  eexists _, _. split; [reflexivity|].
  rewrite formatRecentActions_entries_length. lia.
Qed.

(** Evaluated on the session whose log holds fifty actions. *)
Example C9_on_a_full_log :
  match processAll C2_events freshManager with
  | Some cm =>
      match GetContextSummary "s1" 9000 cm,
            GenerateAIPrompt_recentActions "s1" 9000 cm with
      | Some (Some summary, _, _), Some (entries, _) =>
          Some (length (sessionLog "s1" cm),
                length (ContextSummary.RecentActions summary),
                length entries, head entries)
      | _, _ => None
      end
  | None => None
  end
  = Some (50%nat, 5%nat, 3%nat, Some "- moments ago: /look (examine) -> trees").
Proof. vm_compute. reflexivity. Qed.

(** ** Location history *)





(** Evaluated: two moves leave two visits, the first closed. *)
Example C6_trace_result :
  (ctx ← cache C6_final !! "sid-1";
   let h := LocationState.LocationHistory (PlayerContext.Location ctx) in
   Some (LocationVisit.Location <$> h, isOpen <$> h,
         LocationState.Current (PlayerContext.Location ctx)))
  = Some (["new_forest"; "cave"], [false; true], "cave").
Proof. vm_compute. reflexivity. Qed.

(** ** Creation against a failing store *)

Lemma CreateSession_save_failure
  {S : Type} `{ContextStorage S} (cm : ContextManager S)
  (playerID playerName newID : string) (now : Time) (st : S) (e : error) :
  SaveContext (storage cm) (newSessionContext playerID playerName newID now)
    = (st, Some e) ->
  exists cm',
    CreateSession playerID playerName newID now cm
      = ("", Some (ErrWrap "failed to save new context" e), cm') /\
    cache cm' !! newID = Some (newSessionContext playerID playerName newID now) /\
    IsSessionActive newID cm' = true /\
    GetContext newID (now + 1) cm'
      = (newSessionContext playerID playerName newID now, None, cm').
Proof.
  intros Hsave. unfold CreateSession. cbn. rewrite Hsave.
  eexists. split; [reflexivity|].
  assert (forall c : gmap string PlayerContext.t,
            <[newID := newSessionContext playerID playerName newID now]> c !! newID
            = Some (newSessionContext playerID playerName newID now)) as Hl
    by (intros; apply lookup_insert_eq).
  split; [apply Hl|]. split.
  - unfold IsSessionActive. cbn. rewrite Hl. by apply bool_decide_eq_true.
  - unfold GetContext. cbn. by rewrite Hl.
Qed.

(** C7 (fails on the code).  With a store whose save fails,
    [CreateSession] returns the empty id and the wrapped error, but the
    session it cached before saving stays in the cache: it is reported
    active, listed among the active sessions, and served by [GetContext]. *)
Theorem C7_failed_creation_leaves_live_session :
  let '(sessionID, err, cm) :=
    CreateSession "p1" "Aragorn" "sid-1" 1000
      (NewContextManager (tt : UnreachableStorage)) in
  sessionID = "" /\
  err = Some (ErrWrap "failed to save new context"
                (ErrWrap "failed to save context" (ErrStorage "connection refused"))) /\
  IsSessionActive "sid-1" cm = true /\
  GetActiveSessions cm = ["sid-1"] /\
  (GetContext "sid-1" 2000 cm).1
    = (newSessionContext "p1" "Aragorn" "sid-1" 1000, None).
Proof. vm_compute. repeat split; reflexivity. Qed.

(** ** Known facts *)

Lemma UpdateNPCRelationship_cached
  {S : Type} `{ContextStorage S} (cm : ContextManager S)
  (sid npcID npcName : string) (d : Z) (facts : list string) (now : Time) :
  cache (UpdateNPCRelationship sid npcID npcName d facts now cm).2 !! sid
  = Some (set_LastUpdate now
            (touchNPC npcID npcName d facts now (GetContext sid now cm).1.1)).
Proof.
  unfold UpdateNPCRelationship.
  pose proof (GetContext_no_error sid now cm) as He.
  destruct (GetContext sid now cm) as [[ctx err] cm1]. cbn in *. subst err.
  cbn. apply lookup_insert_eq.
Qed.

(** C8. An NPC update adds to the known facts exactly the given facts
    that are not yet known, each once: facts already known leave the list
    as it is, and if no NPC of any session has a duplicate among its known
    facts, none has after any sequence of engine calls. *)
Theorem C8_known_facts_behave_as_a_set
  {S : Type} `{ContextStorageLaws S} (cm : ContextManager S) :
  (forall sid npcID npcName d facts now r,
     PlayerContext.NPCStates (GetContext sid now cm).1.1 !! npcID = Some r ->
     exists ctx' r',
       cache (UpdateNPCRelationship sid npcID npcName d facts now cm).2 !! sid
         = Some ctx' /\
       PlayerContext.NPCStates ctx' !! npcID = Some r' /\
       (forall x, x ∈ NPCRelationship.KnownFacts r' <->
                  x ∈ NPCRelationship.KnownFacts r \/ x ∈ facts) /\
       ((forall f, f ∈ facts -> f ∈ NPCRelationship.KnownFacts r) ->
        NPCRelationship.KnownFacts r' = NPCRelationship.KnownFacts r)) /\
  (sessions_satisfy facts_nodup cm ->
   forall trace cm', run trace cm = Some cm' ->
     sessions_satisfy facts_nodup cm' /\
     forall k ctx id r,
       cache cm' !! k = Some ctx -> PlayerContext.NPCStates ctx !! id = Some r ->
       NoDup (NPCRelationship.KnownFacts r)).
Proof.
  split.
  - intros sid npcID npcName d facts now r Hr.
    eexists _, _. split; [apply UpdateNPCRelationship_cached|].
    cbn. rewrite Hr. split; [apply lookup_insert_eq|]. cbn.
    split; [apply addFacts_elem|apply addFacts_known].
  - intros Hcm trace cm' Hrun.
    assert (sessions_satisfy facts_nodup cm') as Hcm'.
    { eapply (run_satisfy _ _ _ facts_nodup_closed); [|exact Hcm|exact Hrun].
      by apply Forall_true. }
    split; [exact Hcm'|].
    intros k ctx id r Hk Hr. destruct Hcm' as [Hc _]. exact (Hc k ctx Hk id r Hr).
Qed.

Lemma C8_witness :
  sessions_satisfy facts_nodup freshManager /\
  forall cm', run C8_trace freshManager = Some cm' ->
    sessions_satisfy facts_nodup cm' /\
    forall k ctx id r,
      cache cm' !! k = Some ctx -> PlayerContext.NPCStates ctx !! id = Some r ->
      NoDup (NPCRelationship.KnownFacts r).
Proof.
  split; [apply NewMemoryStorage_satisfy|].
  apply (proj2 (C8_known_facts_behave_as_a_set freshManager)
           (NewMemoryStorage_satisfy facts_nodup) C8_trace).
Defined.

(** Evaluated: the scenario of the specification (delta 150 clamps to
    100, mood "friendly"), then repeated facts. *)
Example C8_trace_result :
  (cm ← run C8_trace freshManager;
   ctx ← cache cm !! "sid-1";
   r ← PlayerContext.NPCStates ctx !! "npc1";
   Some (NPCRelationship.KnownFacts r, NPCRelationship.Disposition r,
         NPCRelationship.Mood r, NPCRelationship.InteractionCount r))
  = Some (["a"; "b"], 100, "friendly", 3).
Proof. vm_compute. reflexivity. Qed.

(** * Further properties *)

(** ** The in-memory store *)

Section MemoryStore.

Implicit Types (s : MemoryContextStorage) (ctx : PlayerContext.t).

Lemma Memory_load_after_save s ctx k :
  Memory_LoadContext (Memory_SaveContext s ctx).1 k =
    if decide (k = PlayerContext.SessionID ctx) then inl ctx
    else Memory_LoadContext s k.
Proof.
  unfold Memory_LoadContext, Memory_SaveContext. cbn.
  destruct (decide (k = PlayerContext.SessionID ctx)) as [->|Hne].
  - by rewrite lookup_insert_eq.
  - by rewrite lookup_insert_ne.
Qed.

(** X1. Saving then loading gives back the snapshot, under the session's
    own id; other ids are not affected; a save never fails and a later
    save of the same session replaces the earlier one. *)
Theorem Memory_save_load_round_trip s ctx :
  (Memory_SaveContext s ctx).2 = None /\
  Memory_LoadContext (Memory_SaveContext s ctx).1 (PlayerContext.SessionID ctx) = inl ctx /\
  (forall k, k <> PlayerContext.SessionID ctx ->
     Memory_LoadContext (Memory_SaveContext s ctx).1 k = Memory_LoadContext s k) /\
  (forall ctx', PlayerContext.SessionID ctx' = PlayerContext.SessionID ctx ->
     (Memory_SaveContext (Memory_SaveContext s ctx).1 ctx').1
     = (Memory_SaveContext s ctx').1).
Proof.
  split; [done|]. split; [|split].
  - rewrite Memory_load_after_save. by rewrite decide_True.
  - intros k Hk. rewrite Memory_load_after_save. by rewrite decide_False.
  - intros ctx' Hid. unfold Memory_SaveContext. cbn. rewrite Hid.
    by rewrite insert_insert_eq.
Qed.

(** X2. Deleting makes the id report NotFound, whether or not it was stored;
    it never fails, leaves other ids alone, and is idempotent. *)
Theorem Memory_delete_then_load_not_found s k :
  (Memory_DeleteContext s k).2 = None /\
  Memory_LoadContext (Memory_DeleteContext s k).1 k = inr (ErrNotFound k) /\
  (forall k', k' <> k ->
     Memory_LoadContext (Memory_DeleteContext s k).1 k' = Memory_LoadContext s k') /\
  (Memory_DeleteContext (Memory_DeleteContext s k).1 k).1 = (Memory_DeleteContext s k).1.
Proof.
  unfold Memory_DeleteContext, Memory_LoadContext. cbn.
  split; [done|]. split; [|split].
  - by rewrite lookup_delete_eq.
  - intros k' Hk'. by rewrite lookup_delete_ne.
  - by rewrite delete_delete_eq.
Qed.

(** X3. [ListActiveSessions] never fails and lists, each once, exactly the
    ids [LoadContext] finds; there are [GetStats] many. *)
Theorem Memory_list_matches_load s :
  exists ids,
    Memory_ListActiveSessions s = inl ids /\
    NoDup ids /\
    Memory_GetStats s !! "total_contexts" = Some (VInt (Z.of_nat (length ids))) /\
    forall k, k ∈ ids <-> exists ctx, Memory_LoadContext s k = inl ctx.
Proof.
  unfold Memory_ListActiveSessions, Memory_GetStats, Memory_LoadContext.
  eexists. split; [reflexivity|]. split; [|split].
  - apply NoDup_fst_map_to_list.
  - by rewrite lookup_insert_eq, length_map, length_map_to_list.
  - intros k. rewrite list_elem_of_fmap. split.
    + intros ([k' c] & -> & Hin). apply elem_of_map_to_list in Hin.
      exists c. cbn. by rewrite Hin.
    + intros [c Hc]. destruct (contexts s !! k) as [c'|] eqn:E; [|done].
      exists (k, c'). split; [done|]. by apply elem_of_map_to_list.
Qed.

End MemoryStore.

(** ** Mood and relationship tiers *)

(** X4. The relationship tier refines the mood: both cut the disposition at
    50, 25, 0, -25 and -50, and the tier splits "friendly" once more at
    75. *)
Theorem mood_and_relationship_tiers_agree (d : Z) :
  match calculateMood d with
  | "friendly" => determineRelationshipLevel d = (if 75 <=? d then "close_friend" else "friend")
                  /\ 50 <= d
  | "helpful" => determineRelationshipLevel d = "ally" /\ 25 <= d < 50
  | "neutral" => determineRelationshipLevel d = "acquaintance" /\ 0 <= d < 25
  | "suspicious" => determineRelationshipLevel d = "stranger" /\ -25 <= d < 0
  | "unfriendly" => determineRelationshipLevel d = "rival" /\ -50 <= d < -25
  | "hostile" => determineRelationshipLevel d = "enemy" /\ d < -50
  | _ => False
  end.
Proof.
  unfold calculateMood, determineRelationshipLevel.
  destruct (Z.leb_spec 75 d), (Z.leb_spec 50 d), (Z.leb_spec 25 d),
    (Z.leb_spec 0 d), (Z.leb_spec (-25) d), (Z.leb_spec (-50) d);
    try lia; cbn; split; try done; lia.
Qed.

(** ** NPC records *)

Lemma wrap64_add_l (a b : Z) : wrap64 (wrap64 a + b) = wrap64 (a + b).
Proof.
  unfold wrap64.
  replace ((a + 2 ^ 63) mod 2 ^ 64 - 2 ^ 63 + b + 2 ^ 63)
    with ((a + 2 ^ 63) mod 2 ^ 64 + b) by lia.
  rewrite Zplus_mod_idemp_l. f_equal. f_equal. lia.
Qed.

Lemma touchNPC_records_consistent id name d facts now ctx :
  npc_records_consistent ctx ->
  npc_records_consistent (touchNPC id name d facts now ctx).
Proof.
  intros Hok id' r. unfold touchNPC. cbn.
  destruct (decide (id = id')) as [->|Hne].
  - rewrite lookup_insert_eq. intros [= <-]. cbn. split; [|done].
    destruct (PlayerContext.NPCStates ctx !! id') as [r0|] eqn:E; cbn; [|done].
    by destruct (Hok id' r0 E).
  - rewrite lookup_insert_ne by done. apply Hok.
Qed.

Lemma npc_records_consistent_closed :
  closed (fun _ => True) npc_records_consistent npc_records_consistent.
Proof.
  constructor; try done; intros.
  - unfold moveTo. by case_match.
  - by apply touchNPC_records_consistent.
  - by apply touchNPC_records_consistent.
Qed.

Lemma touchNPC_npcs_counted id name d facts now ctx :
  npcs_counted ctx -> npcs_counted (touchNPC id name d facts now ctx).
Proof.
  unfold npcs_counted, touchNPC. cbn. intros Hc.
  destruct (PlayerContext.NPCStates ctx !! id) as [r0|] eqn:E; cbn.
  - rewrite Hc. f_equal. f_equal. symmetry. by eapply map_size_insert_Some.
  - rewrite map_size_insert_None by done. rewrite Hc.
    unfold int_add. rewrite wrap64_add_l. f_equal. lia.
Qed.

Lemma npcs_counted_closed : closed (fun _ => True) npcs_counted npcs_counted.
Proof.
  constructor; try done; intros.
  - unfold moveTo. by case_match.
  - by apply touchNPC_npcs_counted.
  - by apply touchNPC_npcs_counted.
Qed.

(** X5. In every state reached by engine calls from one whose sessions have
    consistent NPC records, each NPC record of each cached session is
    stored under its own id and its mood is the label [calculateMood]
    gives its disposition. *)
Theorem npc_mood_follows_disposition
  {S : Type} `{ContextStorageLaws S}
  (cm cm' : ContextManager S) (trace : list (Time * Op)) :
  sessions_satisfy npc_records_consistent cm ->
  run trace cm = Some cm' ->
  forall k ctx id r,
    cache cm' !! k = Some ctx -> PlayerContext.NPCStates ctx !! id = Some r ->
    NPCRelationship.NPCID r = id /\
    NPCRelationship.Mood r = calculateMood (NPCRelationship.Disposition r).
Proof.
  intros Hcm Hrun k ctx id r Hk Hr.
  assert (sessions_satisfy npc_records_consistent cm') as [Hc _].
  { eapply (run_satisfy _ _ _ npc_records_consistent_closed); [|exact Hcm|exact Hrun].
    by apply Forall_true. }
  exact (Hc k ctx Hk id r Hr).
Qed.

(** X6. In every state reached by engine calls from one whose sessions count
    their NPCs, the [NPCsInteracted] counter of each cached session is the
    number of its NPC records: it goes up on first contact only. *)
Theorem npcs_interacted_counts_records
  {S : Type} `{ContextStorageLaws S}
  (cm cm' : ContextManager S) (trace : list (Time * Op)) :
  sessions_satisfy npcs_counted cm ->
  run trace cm = Some cm' ->
  forall k ctx, cache cm' !! k = Some ctx ->
    SessionMetrics.NPCsInteracted (PlayerContext.SessionStats ctx)
    = wrap64 (Z.of_nat (size (PlayerContext.NPCStates ctx))).
Proof.
  intros Hcm Hrun k ctx Hk.
  assert (sessions_satisfy npcs_counted cm') as [Hc _].
  { eapply (run_satisfy _ _ _ npcs_counted_closed); [|exact Hcm|exact Hrun].
    by apply Forall_true. }
  exact (Hc k ctx Hk).
Qed.

(** ** Direct mutators touch one session *)

Section Isolation.

Context {S : Type} `{ContextStorage S}.

Local Abbreviation CM := (ContextManager S).

Lemma GetContext_other sid now (cm : CM) k :
  k <> sid -> cache (GetContext sid now cm).2 !! k = cache cm !! k.
Proof.
  intros Hk. unfold GetContext. destruct (cache cm !! sid); cbn; [done|].
  by rewrite lookup_insert_ne.
Qed.

Lemma direct_frame sid now (cm : CM) (f : PlayerContext.t -> PlayerContext.t) :
  let cm' := cache_Store sid (f (GetContext sid now cm).1.1) (GetContext sid now cm).2 in
  storage cm' = storage cm /\ eventQueue cm' = eventQueue cm /\
  cache cm' !! sid = Some (f (GetContext sid now cm).1.1) /\
  forall k, k <> sid -> cache cm' !! k = cache cm !! k.
Proof.
  pose proof (GetContext_logs_kept sid now cm) as [E _].
  cbn. rewrite E. cbn. split; [done|]. split; [done|]. split.
  - apply lookup_insert_eq.
  - intros k Hk. rewrite lookup_insert_ne by done.
    rewrite <- (GetContext_other sid now cm k Hk). by rewrite E.
Qed.

Lemma UpdateLocation_unfold sid loc now (cm : CM) :
  UpdateLocation sid loc now cm =
    (None, cache_Store sid (set_LastUpdate now (moveTo loc now (GetContext sid now cm).1.1))
             (GetContext sid now cm).2).
Proof.
  unfold UpdateLocation. pose proof (GetContext_no_error sid now cm) as He.
  destruct (GetContext sid now cm) as [[ctx err] cm1]. cbn in *. by subst.
Qed.

Lemma UpdateNPCRelationship_unfold sid id name d facts now (cm : CM) :
  UpdateNPCRelationship sid id name d facts now cm =
    (None, cache_Store sid
             (set_LastUpdate now (touchNPC id name d facts now (GetContext sid now cm).1.1))
             (GetContext sid now cm).2).
Proof.
  unfold UpdateNPCRelationship. pose proof (GetContext_no_error sid now cm) as He.
  destruct (GetContext sid now cm) as [[ctx err] cm1]. cbn in *. by subst.
Qed.

Lemma UpdateCharacterHealth_unfold sid d now (cm : CM) :
  UpdateCharacterHealth sid d now cm =
    (None, cache_Store sid (set_LastUpdate now (changeHealth d (GetContext sid now cm).1.1))
             (GetContext sid now cm).2).
Proof.
  unfold UpdateCharacterHealth. pose proof (GetContext_no_error sid now cm) as He.
  destruct (GetContext sid now cm) as [[ctx err] cm1]. cbn in *. by subst.
Qed.

Lemma UpdateReputation_unfold sid d now (cm : CM) :
  UpdateReputation sid d now cm =
    (None, cache_Store sid (set_LastUpdate now (changeReputation d (GetContext sid now cm).1.1))
             (GetContext sid now cm).2).
Proof.
  unfold UpdateReputation. pose proof (GetContext_no_error sid now cm) as He.
  destruct (GetContext sid now cm) as [[ctx err] cm1]. cbn in *. by subst.
Qed.

(** X7. The four direct mutators return no error, do not write the queue,
    leave the addressed session cached, and leave every other session's
    cache entry as it was.  [UpdateCharacterHealth] and [UpdateReputation],
    which write plain fields of the context only, also leave the store as
    it was.  Nothing is stated of the store after [UpdateLocation] and
    [UpdateNPCRelationship]: they write into the visit history and the NPC
    map, which a snapshot held by the in-memory store shares with the
    cached context. *)
Theorem direct_mutators_touch_one_session (cm : CM) (sid : string) (now : Time)
  (newLocation npcID npcName : string) (facts : list string) (d : Z) :
  Forall (fun r : option error * CM =>
            r.1 = None /\ eventQueue r.2 = eventQueue cm /\
            is_Some (cache r.2 !! sid) /\
            forall k, k <> sid -> cache r.2 !! k = cache cm !! k)
    [ UpdateLocation sid newLocation now cm;
      UpdateNPCRelationship sid npcID npcName d facts now cm;
      UpdateCharacterHealth sid d now cm;
      UpdateReputation sid d now cm ] /\
  Forall (fun r : option error * CM => storage r.2 = storage cm)
    [ UpdateCharacterHealth sid d now cm;
      UpdateReputation sid d now cm ].
Proof.
  rewrite UpdateLocation_unfold, UpdateNPCRelationship_unfold,
    UpdateCharacterHealth_unfold, UpdateReputation_unfold.
  assert (forall f : PlayerContext.t -> PlayerContext.t,
            let r : option error * CM :=
              (None, cache_Store sid (f (GetContext sid now cm).1.1)
                       (GetContext sid now cm).2) in
            r.1 = None /\ eventQueue r.2 = eventQueue cm /\
            is_Some (cache r.2 !! sid) /\
            forall k, k <> sid -> cache r.2 !! k = cache cm !! k) as Hgen.
  { intros f. destruct (direct_frame sid now cm f) as (Hs & Hq & Hc & Ho).
    cbn [fst snd]. by rewrite Hc. }
  split.
  - constructor; [apply (Hgen (fun x => set_LastUpdate now (moveTo _ now x)))|].
    constructor; [apply (Hgen (fun x => set_LastUpdate now (touchNPC _ _ _ _ now x)))|].
    constructor; [apply (Hgen (fun x => set_LastUpdate now (changeHealth _ x)))|].
    constructor; [apply (Hgen (fun x => set_LastUpdate now (changeReputation _ x)))|].
    constructor.
  - constructor;
      [exact (proj1 (direct_frame sid now cm
                       (fun x => set_LastUpdate now (changeHealth d x))))|].
    constructor;
      [exact (proj1 (direct_frame sid now cm
                       (fun x => set_LastUpdate now (changeReputation d x))))|].
    constructor.
Qed.

End Isolation.

(** ** Location bookkeeping *)

Lemma closeLastVisit_places now h :
  LocationVisit.Location <$> closeLastVisit now h = LocationVisit.Location <$> h.
Proof.
  unfold closeLastVisit. destruct (last h) as [v|] eqn:E; [|done].
  destruct (IsZero _); [|done].
  apply last_Some in E as [init ->].
  rewrite length_app. cbn.
  replace (pred (length init + 1)) with (length init + 0)%nat by lia.
  rewrite insert_app_r. cbn. by rewrite !fmap_app.
Qed.

Lemma moveTo_places loc now ctx :
  LocationState.Current (PlayerContext.Location ctx) <> loc ->
  visitedPlaces (moveTo loc now ctx) = visitedPlaces ctx ++ [loc] /\
  LocationState.Current (PlayerContext.Location (moveTo loc now ctx)) = loc /\
  LocationState.Previous (PlayerContext.Location (moveTo loc now ctx))
    = LocationState.Current (PlayerContext.Location ctx).
Proof.
  intros Hne. unfold moveTo, visitedPlaces.
  apply String.eqb_neq in Hne. rewrite Hne. cbn.
  by rewrite fmap_app, closeLastVisit_places.
Qed.

Lemma moveTo_same loc now ctx :
  LocationState.Current (PlayerContext.Location ctx) = loc -> moveTo loc now ctx = ctx.
Proof. intros <-. unfold moveTo. by rewrite String.eqb_refl. Qed.

Lemma moveTo_places_ok loc now ctx : places_ok ctx -> places_ok (moveTo loc now ctx).
Proof.
  intros (Hpc & Hlast & Hprev & Hadj).
  destruct (decide (LocationState.Current (PlayerContext.Location ctx) = loc)) as [E|Hne].
  { by rewrite moveTo_same. }
  destruct (moveTo_places loc now ctx Hne) as (Hv & Hc & Hp).
  unfold places_ok. rewrite Hv, Hc, Hp. split; [done|]. split; [|split].
  - intros init a Ha. by apply app_inj_tail in Ha as [_ <-].
  - intros init a b Ha.
    change (init ++ [a; b]) with (init ++ [a] ++ [b]) in Ha.
    rewrite app_assoc in Ha. apply app_inj_tail in Ha as [Ha _].
    exact (Hlast init a Ha).
  - intros l1 a b l2 Ha.
    destruct l2 as [|x l2 _] using rev_ind.
    + change (l1 ++ [a; b]) with (l1 ++ [a] ++ [b]) in Ha.
      rewrite app_assoc in Ha. apply app_inj_tail in Ha as [Ha <-].
      by rewrite (Hlast l1 a Ha).
    + change (l1 ++ a :: b :: l2 ++ [x]) with (l1 ++ (a :: b :: l2) ++ [x]) in Ha.
      rewrite app_assoc in Ha. apply app_inj_tail in Ha as [Ha _].
      by apply (Hadj l1 a b l2).
Qed.

Lemma places_ok_no_history ctx :
  visitedPlaces ctx = [] ->
  LocationState.Previous (PlayerContext.Location ctx)
    <> LocationState.Current (PlayerContext.Location ctx) ->
  places_ok ctx.
Proof.
  intros E Hpc. unfold places_ok. rewrite E. split; [done|].
  split; [|split].
  - intros init a Ha. by destruct init.
  - intros init a b Ha. by destruct init.
  - intros l1 a b l2 Ha. by destruct l1.
Qed.

Lemma places_ok_closed : closed (fun _ => True) places_ok places_ok.
Proof.
  constructor; try done; intros.
  - by apply places_ok_no_history.
  - by apply places_ok_no_history.
  - by apply moveTo_places_ok.
Qed.

Section Places.

Context {S : Type} `{ContextStorageLaws S}.

(** X8. In every state reached by engine calls from one whose sessions keep
    their location books, each cached session has a previous location
    different from the current one, its last recorded visit at the current
    location, the visit before that at the previous location, and no two
    consecutive visits at the same location. *)
Theorem location_history_tracks_moves
  (cm cm' : ContextManager S) (trace : list (Time * Op)) :
  sessions_satisfy places_ok cm ->
  run trace cm = Some cm' ->
  forall k ctx, cache cm' !! k = Some ctx -> places_ok ctx.
Proof.
  intros Hcm Hrun k ctx Hk.
  assert (sessions_satisfy places_ok cm') as [Hc _].
  { eapply (run_satisfy _ _ _ places_ok_closed); [|exact Hcm|exact Hrun].
    by apply Forall_true. }
  exact (Hc k ctx Hk).
Qed.

End Places.

Section LocationUpdates.

Context {S : Type} `{ContextStorage S}.

(** X9. [UpdateLocation] to a place leaves the session there; repeating the
    call changes nothing but the [LastUpdate] stamp: no visit is added and
    the counter of visited locations stays. *)
Theorem UpdateLocation_is_idempotent
  (cm : ContextManager S) (sid loc : string) (t1 t2 : Time) :
  let cm1 := (UpdateLocation sid loc t1 cm).2 in
  let cm2 := (UpdateLocation sid loc t2 cm1).2 in
  exists ctx1,
    cache cm1 !! sid = Some ctx1 /\
    LocationState.Current (PlayerContext.Location ctx1) = loc /\
    cm2 = cache_Store sid (set_LastUpdate t2 ctx1) cm1.
Proof.
  cbn zeta. rewrite (UpdateLocation_unfold sid loc t1 cm). cbn [snd].
  set (ctx0 := (GetContext sid t1 cm).1.1).
  set (cm0 := (GetContext sid t1 cm).2).
  exists (set_LastUpdate t1 (moveTo loc t1 ctx0)).
  assert (LocationState.Current (PlayerContext.Location (moveTo loc t1 ctx0)) = loc) as Hcur.
  { destruct (decide (LocationState.Current (PlayerContext.Location ctx0) = loc)) as [E|Hne].
    - by rewrite moveTo_same.
    - by destruct (moveTo_places loc t1 ctx0 Hne) as (_ & ? & _). }
  split; [cbn; apply lookup_insert_eq|]. split; [exact Hcur|].
  rewrite UpdateLocation_unfold. cbn [snd].
  unfold GetContext. cbn [cache cache_Store set_cache].
  rewrite lookup_insert_eq. cbn [fst snd].
  by rewrite moveTo_same.
Qed.

End LocationUpdates.

(** ** Actions recorded through [RecordAction] *)

Lemma overReputation_id ctx : overReputation (fun r => r) ctx = ctx.
Proof. by destruct ctx as [? ? ? ? [] ? ? ? ?]. Qed.

Section Recorded.

Context {S : Type} `{ContextStorage S}.

Local Abbreviation CM := (ContextManager S).

Lemma mutate_id k (cm : CM) : mutate k (overReputation (fun r => r)) cm = cm.
Proof.
  unfold mutate. rewrite alter_id; [by destruct cm|].
  intros ctx _. apply overReputation_id.
Qed.

Lemma mutate_mutate k f g (cm : CM) :
  mutate k f (mutate k g cm) = mutate k (fun ctx => f (g ctx)) cm.
Proof. unfold mutate. cbn. by rewrite alter_alter_eq. Qed.

Lemma mutate_present k f (cm : CM) ctx :
  cache cm !! k = Some ctx -> mutate k f cm = cache_Store k (f ctx) cm.
Proof.
  intros Hk. unfold mutate, cache_Store. f_equal.
  apply map_eq. intros j. destruct (decide (k = j)) as [->|Hne].
  - by rewrite lookup_alter_eq, lookup_insert_eq, Hk.
  - by rewrite lookup_alter_ne, lookup_insert_ne.
Qed.

Lemma applyConsequence_plain k action now c (cm : CM) :
  ActionEvent.Metadata action = ∅ ->
  applyConsequence k action now c cm = Some (mutate k (overReputation (tagNudge c)) cm).
Proof.
  intros Hmd. unfold applyConsequence, tagNudge. rewrite Hmd, !lookup_empty. cbn.
  destruct (String.eqb c "reputation_increase") eqn:E1; [done|].
  destruct (String.eqb c "reputation_decrease") eqn:E2; [done|].
  destruct (String.eqb c "health_damage") eqn:E3.
  { apply String.eqb_eq in E3 as ->. cbn. by rewrite mutate_id. }
  destruct (String.eqb c "health_heal") eqn:E4.
  { apply String.eqb_eq in E4 as ->. cbn. by rewrite mutate_id. }
  destruct (String.eqb c "npc_noticed") eqn:E5.
  { apply String.eqb_eq in E5 as ->. cbn. by rewrite mutate_id. }
  destruct (String.eqb c "combat_victory") eqn:E6; [done|].
  destruct (String.eqb c "combat_defeat") eqn:E7; [done|].
  rewrite mutate_id. by repeat case_match.
Qed.

Lemma applyConsequences_plain k action now cs : forall cm : CM,
  ActionEvent.Metadata action = ∅ ->
  applyConsequences k action now cs cm
  = Some (mutate k (overReputation (nudgeReputation cs)) cm).
Proof.
  induction cs as [|c cs IH]; intros cm Hmd; cbn [applyConsequences].
  - unfold nudgeReputation. cbn. by rewrite mutate_id.
  - rewrite applyConsequence_plain by done. cbn. rewrite IH by done.
    by rewrite mutate_mutate.
Qed.

(** The worker on a metadata-free action, as one update of the session. *)
Lemma processContextEvent_plain sid action stamp now (cm : CM) :
  0 <= maxActions cm ->
  ActionEvent.Metadata action = ∅ ->
  processContextEvent (ContextEvent.mk sid action stamp) now cm
  = Some (cache_Store sid
            (recordedOutcome (maxActions cm) action now (GetContext sid now cm).1.1)
            (GetContext sid now cm).2).
Proof.
  intros Hm Hmd. unfold processContextEvent. cbn [ContextEvent.SessionID ContextEvent.Event].
  pose proof (GetContext_logs_kept sid now cm) as [E1 _].
  pose proof (GetContext_no_error sid now cm) as He.
  pose proof (GetContext_cached sid now cm) as Hc.
  destruct (GetContext sid now cm) as [[ctx err] cm1]. cbn in *. subst err.
  assert (maxActions cm1 = maxActions cm) as -> by (by rewrite E1).
  rewrite lastN_drop by done. cbn.
  unfold processActionConsequences. rewrite applyConsequences_plain by done. cbn.
  rewrite !mutate_mutate. f_equal.
  rewrite (mutate_present sid _ cm1 ctx Hc). f_equal.
Qed.

End Recorded.

Lemma tagNudge_delta tag r :
  - 2 ^ 62 <= r <= 2 ^ 62 ->
  tagNudge tag r = r + tagDelta tag /\ -10 <= tagDelta tag <= 10.
Proof.
  intros Hr. unfold tagNudge, tagDelta, int_add.
  repeat case_match; rewrite ?wrap64_small by lia; lia.
Qed.

Lemma nudgeReputation_sum tags : forall r,
  - 2 ^ 62 <= r - 10 * Z.of_nat (length tags) ->
  r + 10 * Z.of_nat (length tags) <= 2 ^ 62 ->
  nudgeReputation tags r = r + foldr Z.add 0 (tagDelta <$> tags) /\
  - 10 * Z.of_nat (length tags) <= foldr Z.add 0 (tagDelta <$> tags)
    <= 10 * Z.of_nat (length tags).
Proof.
  unfold nudgeReputation.
  induction tags as [|t tags IH]; intros r Hlo Hhi; cbn [foldl foldr fmap list_fmap length] in *.
  - lia.
  - destruct (tagNudge_delta t r ltac:(lia)) as [-> Hd].
    destruct (IH (r + tagDelta t) ltac:(lia) ltac:(lia)) as [-> Hs]. lia.
Qed.

Section RecordedTheorems.

Context {S : Type} `{ContextStorage S}.

Local Abbreviation CM := (ContextManager S).

(** X10. When the worker processes an action without metadata (as every
    action queued by [RecordAction] is), it succeeds and changes, in that
    action's session only, the log, the reputation, the statistics and the
    stamp: health, inventory, equipment, attributes, location state and NPC
    records stay as they were, as do the store, the queue and every other
    session.  The reputation is the old one with the tags' defaults
    applied in order, then clamped. *)
Theorem recorded_action_effects
  (cm : CM) (sid : string) (action : ActionEvent.t) (stamp now : Time) :
  0 <= maxActions cm ->
  ActionEvent.Metadata action = ∅ ->
  exists cm' ctx',
    processContextEvent (ContextEvent.mk sid action stamp) now cm = Some cm' /\
    cache cm' !! sid = Some ctx' /\
    let ctx := (GetContext sid now cm).1.1 in
    let c := PlayerContext.Character ctx in
    let c' := PlayerContext.Character ctx' in
    CharacterState.Health c' = CharacterState.Health c /\
    CharacterState.Inventory c' = CharacterState.Inventory c /\
    CharacterState.Equipment c' = CharacterState.Equipment c /\
    CharacterState.Attributes c' = CharacterState.Attributes c /\
    CharacterState.Name c' = CharacterState.Name c /\
    PlayerContext.Location ctx' = PlayerContext.Location ctx /\
    PlayerContext.NPCStates ctx' = PlayerContext.NPCStates ctx /\
    PlayerContext.SessionID ctx' = PlayerContext.SessionID ctx /\
    PlayerContext.LastUpdate ctx' = now /\
    CharacterState.Reputation c'
      = clamp100 (nudgeReputation (ActionEvent.Consequences action)
                    (CharacterState.Reputation c)) /\
    storage cm' = storage cm /\ eventQueue cm' = eventQueue cm /\
    forall k, k <> sid -> cache cm' !! k = cache cm !! k.
Proof.
  intros Hm Hmd. rewrite processContextEvent_plain by done.
  destruct (direct_frame sid now cm (recordedOutcome (maxActions cm) action now))
    as (Hs & Hq & Hc & Ho).
  eexists _, _. split; [reflexivity|]. split; [exact Hc|].
  cbn zeta. by repeat split.
Qed.

(** X11. For a reputation within [-100, 100] the tags add up: the new
    reputation is the old one plus 5 for each "reputation_increase", minus
    10 for each "reputation_decrease", plus 2 for each "combat_victory",
    minus 1 for each "combat_defeat", clamped to [-100, 100] once at the
    end. *)
Theorem recorded_action_reputation
  (cm : CM) (sid : string) (action : ActionEvent.t) (stamp now : Time) :
  0 <= maxActions cm ->
  ActionEvent.Metadata action = ∅ ->
  Z.of_nat (length (ActionEvent.Consequences action)) <= 2 ^ 58 ->
  let rep := CharacterState.Reputation
               (PlayerContext.Character (GetContext sid now cm).1.1) in
  -100 <= rep <= 100 ->
  exists cm' ctx',
    processContextEvent (ContextEvent.mk sid action stamp) now cm = Some cm' /\
    cache cm' !! sid = Some ctx' /\
    CharacterState.Reputation (PlayerContext.Character ctx')
      = clamp100 (rep + foldr Z.add 0 (tagDelta <$> ActionEvent.Consequences action)).
Proof.
  intros Hm Hmd Hlen rep Hrep. rewrite processContextEvent_plain by done.
  destruct (direct_frame sid now cm (recordedOutcome (maxActions cm) action now))
    as (_ & _ & Hc & _).
  eexists _, _. split; [reflexivity|]. split; [exact Hc|].
  cbn. fold rep.
  by destruct (nudgeReputation_sum (ActionEvent.Consequences action) rep
                 ltac:(lia) ltac:(lia)) as [-> _].
Qed.

End RecordedTheorems.

(** ** Health through the exported calls *)

Section PublicHealth.

Context {S : Type} `{ContextStorageLaws S}.

Local Abbreviation CM := (ContextManager S).

Lemma recordedOutcome_health_ok m a now ctx :
  health_ok ctx -> health_ok (recordedOutcome m a now ctx).
Proof. done. Qed.

Lemma health_ok_skeleton sid now : health_ok (createNewContext sid now).
Proof. unfold health_ok. cbn. lia. Qed.

Lemma health_ok_session pid name sid now : health_ok (newSessionContext pid name sid now).
Proof. unfold health_ok. cbn. lia. Qed.

Lemma moveTo_health_ok loc now ctx : health_ok ctx -> health_ok (moveTo loc now ctx).
Proof. unfold moveTo. by case_match. Qed.

Local Ltac direct_health sid now cm Hs :=
  destruct (GetContext_spec health_ok sid now cm health_ok_skeleton Hs)
    as (ctx & cm1 & E & Hk & HP & Hs1 & _ & Hq1 & Hm1 & _);
  rewrite E; cbn [fst snd];
  split; [apply cache_Store_satisfy; [|exact Hs1]|split; [cbn; by rewrite Hq1|cbn; by rewrite Hm1]].

Lemma public_step_health_kept now op (cm : CM) :
  public_op op -> health_kept cm ->
  exists cm', step now op cm = Some cm' /\ health_kept cm'.
Proof.
  intros Hop (Hs & Hq & Hm). destruct op; cbn [step]; try done.
  - eexists. split; [reflexivity|]. unfold CreateSession.
    pose proof (cache_Store_satisfy health_ok newID _ cm
                  (health_ok_session playerID playerName newID now) Hs) as [Hc1 Hs1].
    pose proof (save_satisfy health_ok _ _ cm
                  (health_ok_session playerID playerName newID now) Hs1) as Hsave.
    destruct (SaveContext _ _) as [st [err|]] eqn:E; cbn in *;
      (split; [split; [exact Hc1|exact Hsave]|split; [exact Hq|exact Hm]]).
  - eexists. split; [reflexivity|].
    destruct (GetContext_spec health_ok sessionID now cm health_ok_skeleton Hs)
      as (ctx & cm1 & E & Hk & HP & Hs1 & _ & Hq1 & Hm1 & _).
    rewrite E. cbn [snd]. unfold health_kept, queue_plain. by rewrite Hq1, Hm1.
  - eexists. split; [reflexivity|]. unfold RecordAction. case_match; [|done].
    split; [done|]. split; [|done]. unfold queue_plain. cbn.
    apply Forall_app. split; [done|]. by constructor.
  - eexists. split; [reflexivity|]. rewrite UpdateLocation_unfold. cbn [snd].
    unfold health_kept, queue_plain. direct_health sessionID now cm Hs.
    by apply moveTo_health_ok.
  - eexists. split; [reflexivity|]. rewrite UpdateNPCRelationship_unfold. cbn [snd].
    unfold health_kept, queue_plain. direct_health sessionID now cm Hs. done.
  - eexists. split; [reflexivity|]. rewrite UpdateCharacterHealth_unfold. cbn [snd].
    unfold health_kept, queue_plain. direct_health sessionID now cm Hs.
    by apply changeHealth_health_ok.
  - eexists. split; [reflexivity|]. rewrite UpdateReputation_unfold. cbn [snd].
    unfold health_kept, queue_plain. direct_health sessionID now cm Hs. exact HP.
  - unfold processEvents_step. destruct (eventQueue cm) as [|[sid a stamp] q] eqn:Eq.
    + eexists. split; [reflexivity|]. split; [done|]. split; [|done].
      unfold queue_plain. by rewrite Eq.
    + unfold queue_plain in Hq. rewrite Eq in Hq. apply Forall_cons in Hq as [Ha Hq].
      rewrite processContextEvent_plain by done.
      eexists. split; [reflexivity|].
      assert (sessions_satisfy health_ok (set_eventQueue q cm)) as Hs' by exact Hs.
      unfold health_kept, queue_plain.
      destruct (GetContext_spec health_ok sid now (set_eventQueue q cm)
                  health_ok_skeleton Hs')
        as (ctx & cm1 & E & Hk & HP & Hs1 & _ & Hq1 & Hm1 & _).
      rewrite E. cbn [fst snd].
      split; [apply cache_Store_satisfy; [|exact Hs1]|split].
      * by apply recordedOutcome_health_ok.
      * cbn. by rewrite Hq1.
      * cbn. by rewrite Hm1.
  - eexists. split; [reflexivity|]. split; [by apply FlushContext_satisfy|].
    unfold FlushContext. destruct (cache cm !! sessionID); [|done].
    by destruct (SaveContext _ _).
  - eexists. split; [reflexivity|]. split; [by apply saveAllCachedContexts_satisfy|done].
Qed.

(** X12. Through the exported calls and the worker, health never leaves
    [0, max]: from a state whose sessions have health in range and whose
    queue holds only actions queued by [RecordAction], every sequence of
    such calls runs to completion and leaves every session, cached or
    stored, with 0 <= current <= max.  The one-sided clamps of the
    [health_damage] and [health_heal] arms are never reached, because
    [RecordAction] attaches no metadata. *)
Theorem health_in_range_through_public_calls
  (cm : CM) (trace : list (Time * Op)) :
  sessions_satisfy health_ok cm ->
  queue_plain cm ->
  0 <= maxActions cm ->
  Forall (fun s => public_op s.2) trace ->
  exists cm',
    run trace cm = Some cm' /\
    sessions_satisfy health_ok cm' /\
    forall k ctx, cache cm' !! k = Some ctx ->
      let h := CharacterState.Health (PlayerContext.Character ctx) in
      0 <= HealthStatus.Current h <= HealthStatus.Max h.
Proof.
  intros Hs Hq Hm Hops.
  assert (health_kept cm) as Hkept by done. clear Hs Hq Hm.
  revert cm Hkept. induction Hops as [|[now op] trace Hop _ IH]; intros cm Hkept.
  - exists cm. destruct Hkept as ([Hc Hst] & _). split; [done|]. split; [done|]. exact Hc.
  - destruct (public_step_health_kept now op cm Hop Hkept) as (cm1 & E & Hkept1).
    destruct (IH cm1 Hkept1) as (cm' & Erun & Hres).
    exists cm'. split; [|exact Hres]. cbn [run]. by rewrite E.
Qed.

End PublicHealth.

(** ** Statistics count every processed action *)

Section Statistics.

Context {S : Type} `{ContextStorage S}.

Local Abbreviation CM := (ContextManager S).

Lemma sessionStats_GetContext sid now (cm : CM) :
  PlayerContext.SessionStats (GetContext sid now cm).1.1 = sessionStats sid cm.
Proof.
  unfold GetContext, sessionStats. destruct (cache cm !! sid); [done|]. cbn.
  by destruct (LoadContext (storage cm) sid).
Qed.

Lemma sessionStats_cache_Store sid k c (cm : CM) :
  sessionStats sid (cache_Store k c cm) =
    if decide (k = sid) then PlayerContext.SessionStats c else sessionStats sid cm.
Proof.
  unfold sessionStats at 1. cbn. destruct (decide (k = sid)) as [->|Hne].
  - by rewrite lookup_insert_eq.
  - by rewrite lookup_insert_ne.
Qed.

Lemma sessionStats_after_GetContext sid k now (cm : CM) :
  sessionStats sid (GetContext k now cm).2 = sessionStats sid cm.
Proof.
  pose proof (sessionStats_GetContext k now cm) as Hk. revert Hk.
  unfold GetContext. destruct (cache cm !! k) eqn:E; cbn; [done|].
  intros Hk. rewrite sessionStats_cache_Store. case_decide; [by subst|done].
Qed.

(** A counter [f] of the statistics that [updateSessionStats] steps by
    one on the actions [hit] selects: after the worker has processed
    metadata-free events, the counter of a session has grown by the number
    of selected actions among that session's events. *)
Lemma processAll_plain_counter (f : SessionMetrics.t -> Z) (hit : ActionEvent.t -> bool)
  (sid : string) (timed : list (Time * ContextEvent.t)) :
  (forall a now ctx,
     f (PlayerContext.SessionStats (updateSessionStats a now ctx))
     = if hit a then int_add (f (PlayerContext.SessionStats ctx)) 1
       else f (PlayerContext.SessionStats ctx)) ->
  forall cm : CM,
  0 <= maxActions cm ->
  Forall (fun te => ActionEvent.Metadata (ContextEvent.Event te.2) = ∅) timed ->
  0 <= f (sessionStats sid cm) ->
  f (sessionStats sid cm) + countIf hit (eventsFor sid timed) < 2 ^ 63 ->
  exists cm',
    processAll timed cm = Some cm' /\
    f (sessionStats sid cm') = f (sessionStats sid cm) + countIf hit (eventsFor sid timed).
Proof.
  intros Hf. induction timed as [|[now [k a stamp]] rest IH]; intros cm Hm Hplain H0 Hmax.
  - exists cm. split; [done|]. unfold countIf, eventsFor. cbn. lia.
  - apply Forall_cons in Hplain as [Ha Hplain]. cbn in Ha.
    cbn [processAll]. rewrite processContextEvent_plain by done. cbn [mbind option_bind].
    set (cm1 := cache_Store k _ _).
    assert (maxActions cm1 = maxActions cm) as Hm1.
    { subst cm1. pose proof (GetContext_logs_kept k now cm) as [E _].
      cbn. by rewrite E. }
    assert (sessionStats sid cm1 =
              if decide (k = sid)
              then PlayerContext.SessionStats
                     (updateSessionStats a now (GetContext k now cm).1.1)
              else sessionStats sid cm) as Hstats.
    { subst cm1. rewrite sessionStats_cache_Store. case_decide; [done|].
      apply sessionStats_after_GetContext. }
    assert (countIf hit (eventsFor sid ((now, ContextEvent.mk k a stamp) :: rest))
            = (if decide (k = sid) then (if hit a then 1 else 0) else 0)
              + countIf hit (eventsFor sid rest)) as Hcount.
    { unfold countIf. case_decide as Hk.
      - rewrite (eventsFor_cons_mine sid now (ContextEvent.mk k a stamp) rest Hk).
        cbn [ContextEvent.Event].
        destruct (hit a) eqn:Eh.
        + rewrite filter_cons_True by done. cbn. lia.
        + rewrite filter_cons_False; [lia|]. by rewrite Eh.
      - rewrite (eventsFor_cons_other sid now (ContextEvent.mk k a stamp) rest Hk). lia. }
    rewrite Hcount in Hmax. rewrite Hcount.
    assert (0 <= countIf hit (eventsFor sid rest)) as Hpos by (unfold countIf; lia).
    assert (f (sessionStats sid cm1)
            = f (sessionStats sid cm)
              + (if decide (k = sid) then (if hit a then 1 else 0) else 0)) as Hstep.
    { rewrite Hstats. case_decide as Hk; [|lia]. subst k.
      rewrite Hf, sessionStats_GetContext. destruct (hit a); [|lia].
      unfold int_add. rewrite wrap64_small; lia. }
    destruct (IH cm1 ltac:(lia)  Hplain) as (cm' & Erun & Hres).
    + rewrite Hstep. repeat case_match; lia.
    + rewrite Hstep. lia.
    + exists cm'. split; [done|]. rewrite Hres, Hstep. lia.
Qed.

Lemma countIf_bound hit sid (timed : list (Time * ContextEvent.t)) :
  0 <= countIf hit (eventsFor sid timed) <= Z.of_nat (length timed).
Proof.
  unfold countIf, eventsFor.
  pose proof (length_filter (fun a => hit a = true)
                ((fun te : Time * ContextEvent.t => ContextEvent.Event te.2)
                   <$> filter (fun te => ContextEvent.SessionID te.2 = sid) timed)) as H1.
  rewrite length_fmap in H1.
  pose proof (length_filter (fun te : Time * ContextEvent.t =>
                               ContextEvent.SessionID te.2 = sid) timed) as H2.
  lia.
Qed.

Lemma countIf_all (l : list ActionEvent.t) :
  countIf (fun _ => true) l = Z.of_nat (length l).
Proof.
  unfold countIf. induction l as [|a l IH]; [done|].
  rewrite filter_cons_True by done. cbn [length]. lia.
Qed.

(** X13. The session's [TotalActions] counts every metadata-free action the
    worker processes for it, also those the log bound has since evicted,
    and the three activity counters count the actions of their types
    (counters that start non-negative and do not overflow). *)
Theorem statistics_count_processed_actions
  (cm : CM) (sid : string) (timed : list (Time * ContextEvent.t)) :
  0 <= maxActions cm ->
  Forall (fun te => ActionEvent.Metadata (ContextEvent.Event te.2) = ∅) timed ->
  Forall (fun c => 0 <= c /\ c + Z.of_nat (length timed) < 2 ^ 63)
    [ SessionMetrics.TotalActions (sessionStats sid cm);
      SessionMetrics.CombatActions (sessionStats sid cm);
      SessionMetrics.SocialActions (sessionStats sid cm);
      SessionMetrics.ExploreActions (sessionStats sid cm) ] ->
  exists cm',
    processAll timed cm = Some cm' /\
    let s0 := sessionStats sid cm in
    let s := sessionStats sid cm' in
    let mine := eventsFor sid timed in
    SessionMetrics.TotalActions s
      = SessionMetrics.TotalActions s0 + Z.of_nat (length mine) /\
    SessionMetrics.CombatActions s
      = SessionMetrics.CombatActions s0 + countIf isCombat mine /\
    SessionMetrics.SocialActions s
      = SessionMetrics.SocialActions s0 + countIf isSocial mine /\
    SessionMetrics.ExploreActions s
      = SessionMetrics.ExploreActions s0 + countIf isExplore mine.
Proof.
  intros Hm Hplain Hroom.
  apply Forall_cons in Hroom as [[Ht0 Ht] Hroom].
  apply Forall_cons in Hroom as [[Hc0 Hc] Hroom].
  apply Forall_cons in Hroom as [[Hs0 Hs] Hroom].
  apply Forall_cons in Hroom as [[He0 He] _].
  pose proof (fun hit => countIf_bound hit sid timed) as Hb.
  destruct (processAll_plain_counter SessionMetrics.TotalActions (fun _ => true)
              sid timed ltac:(done) cm Hm Hplain Ht0
              ltac:(specialize (Hb (fun _ => true)); lia)) as (cm' & Erun & Htotal).
  destruct (processAll_plain_counter SessionMetrics.CombatActions isCombat
              sid timed ltac:(done) cm Hm Hplain Hc0
              ltac:(specialize (Hb isCombat); lia)) as (cm2 & Erun2 & Hcombat).
  destruct (processAll_plain_counter SessionMetrics.SocialActions isSocial
              sid timed ltac:(done) cm Hm Hplain Hs0
              ltac:(specialize (Hb isSocial); lia)) as (cm3 & Erun3 & Hsocial).
  destruct (processAll_plain_counter SessionMetrics.ExploreActions isExplore
              sid timed ltac:(done) cm Hm Hplain He0
              ltac:(specialize (Hb isExplore); lia)) as (cm4 & Erun4 & Hexplore).
  assert (cm2 = cm') as -> by congruence.
  assert (cm3 = cm') as -> by congruence.
  assert (cm4 = cm') as -> by congruence.
  exists cm'. split; [done|]. cbn zeta.
  rewrite Htotal, countIf_all. done.
Qed.

End Statistics.

(** ** Inventory *)

Lemma removeItemFromInventory_absent (inv : list InventoryItem.t) (id : string) :
  Forall (fun item => InventoryItem.ID item <> id) inv ->
  removeItemFromInventory inv id = inv.
Proof.
  induction 1 as [|item inv Hne _ IH]; [done|]. cbn.
  apply String.eqb_neq in Hne. by rewrite Hne, IH.
Qed.

Lemma removeItemFromInventory_present (before after : list InventoryItem.t)
  (item : InventoryItem.t) (id : string) :
  InventoryItem.ID item = id ->
  Forall (fun other => InventoryItem.ID other <> id) before ->
  removeItemFromInventory (before ++ item :: after) id = before ++ after.
Proof.
  intros Hid Hbefore. induction Hbefore as [|other before Hne _ IH]; cbn.
  - apply String.eqb_eq in Hid. by rewrite Hid.
  - apply String.eqb_neq in Hne. by rewrite Hne, IH.
Qed.

(** X14. [removeItemFromInventory] removes the first item with the given id
    and nothing else: the items before and after it keep their order, a
    later item with the same id stays, and an id that no item has leaves
    the inventory as it is. *)
Theorem removeItemFromInventory_removes_first (inv : list InventoryItem.t) (id : string) :
  (Forall (fun item => InventoryItem.ID item <> id) inv ->
   removeItemFromInventory inv id = inv) /\
  (forall before item after,
     inv = before ++ item :: after ->
     InventoryItem.ID item = id ->
     Forall (fun other => InventoryItem.ID other <> id) before ->
     removeItemFromInventory inv id = before ++ after).
Proof.
  split; [apply removeItemFromInventory_absent|].
  intros before item after -> Hid Hbefore.
  by apply removeItemFromInventory_present.
Qed.

(** X15. An item appended by the [item_gained] arm is removed again by the
    [item_lost] arm with its id, provided no item already held has that id;
    otherwise the older item goes and the new one stays. *)
Theorem gained_item_can_be_lost_again (item : InventoryItem.t) (ctx : PlayerContext.t) :
  let inv := CharacterState.Inventory (PlayerContext.Character ctx) in
  let inv' := CharacterState.Inventory
                (PlayerContext.Character (loseItem (InventoryItem.ID item) (gainItem item ctx))) in
  (Forall (fun other => InventoryItem.ID other <> InventoryItem.ID item) inv -> inv' = inv) /\
  (forall before old after,
     inv = before ++ old :: after ->
     InventoryItem.ID old = InventoryItem.ID item ->
     Forall (fun other => InventoryItem.ID other <> InventoryItem.ID item) before ->
     inv' = before ++ after ++ [item]).
Proof.
  cbn. split.
  - intros Hfresh.
    rewrite (removeItemFromInventory_present _ [] item) by done.
    by rewrite app_nil_r.
  - intros before old after E Hid Hbefore. rewrite E, <- app_assoc. cbn.
    by rewrite (removeItemFromInventory_present before (after ++ [item]) old).
Qed.

(** ** When the worker panics *)

Section Panics.

Context {S : Type} `{ContextStorage S}.

Local Abbreviation CM := (ContextManager S).

Lemma applyConsequence_None k action now c (cm : CM) :
  applyConsequence k action now c cm = None <->
  c = "item_gained" /\ ~ payload_ok action.
Proof.
  unfold applyConsequence, payload_ok.
  destruct (String.eqb c "item_gained") eqn:E.
  - apply String.eqb_eq in E as ->. cbn.
    destruct (as_map _) as [d|]; cbn.
    + destruct (itemOfPayload d) as [item|]; cbn.
      * split; [done|]. intros [_ Hno]. destruct Hno. by eexists.
      * split; [|done]. intros _. split; [done|]. by intros [? ?].
    + split; [done|]. by intros [_ []].
  - apply String.eqb_neq in E. split; [|by intros [? _]].
    repeat case_match; done.
Qed.

Lemma applyConsequences_None k action now cs : forall cm : CM,
  applyConsequences k action now cs cm = None <->
  "item_gained" ∈ cs /\ ~ payload_ok action.
Proof.
  induction cs as [|c cs IH]; intros cm; cbn [applyConsequences].
  - split; [done|]. by intros [?%elem_of_nil _].
  - destruct (applyConsequence k action now c cm) as [cm1|] eqn:E; cbn.
    + rewrite IH. rewrite elem_of_cons. split; [tauto|].
      intros [[<-|Hin] Hno]; [|tauto].
      assert (applyConsequence k action now "item_gained" cm = None) as E'
        by (by apply applyConsequence_None).
      congruence.
    + apply applyConsequence_None in E as [-> Hno].
      split; [|done]. intros _. split; [left|done].
Qed.

(** X16. With a non-negative log bound, [processContextEvent] panics exactly
    when the action carries the tag "item_gained" together with an "item"
    metadata map whose "id", "name" or "type" is not a string; no other
    tag or metadata value makes it panic. *)
Theorem worker_panics_only_on_malformed_item
  (cm : CM) (event : ContextEvent.t) (now : Time) :
  0 <= maxActions cm ->
  (processContextEvent event now cm = None <->
   "item_gained" ∈ ActionEvent.Consequences (ContextEvent.Event event) /\
   exists itemData,
     ActionEvent.Metadata (ContextEvent.Event event) !! "item" = Some (VMap itemData) /\
     (as_string (itemData !! "id") = None \/
      as_string (itemData !! "name") = None \/
      as_string (itemData !! "type") = None)).
Proof.
  intros Hm.
  assert (~ payload_ok (ContextEvent.Event event) <->
          exists itemData,
            ActionEvent.Metadata (ContextEvent.Event event) !! "item" = Some (VMap itemData) /\
            (as_string (itemData !! "id") = None \/
             as_string (itemData !! "name") = None \/
             as_string (itemData !! "type") = None)) as Hbad.
  { unfold payload_ok.
    destruct (ActionEvent.Metadata (ContextEvent.Event event) !! "item") as [[| | |d|]|];
      cbn; try (split; [tauto|by intros (? & ? & _)]).
    unfold itemOfPayload.
    destruct (as_string (d !! "id")) as [i|] eqn:Ei; cbn;
      [destruct (as_string (d !! "name")) as [n|] eqn:En; cbn;
       [destruct (as_string (d !! "type")) as [t|] eqn:Et; cbn|]|].
    - split; [intros Hno; destruct Hno; by eexists|].
      intros (d' & [= <-] & [?|[?|?]]); congruence.
    - split; [|by intros _ [? ?]]. intros _. exists d. tauto.
    - split; [|by intros _ [? ?]]. intros _. exists d. tauto.
    - split; [|by intros _ [? ?]]. intros _. exists d. tauto. }
  rewrite <- Hbad. clear Hbad.
  unfold processContextEvent.
  pose proof (GetContext_logs_kept (ContextEvent.SessionID event) now cm) as [E1 _].
  pose proof (GetContext_no_error (ContextEvent.SessionID event) now cm) as He.
  destruct (GetContext _ now cm) as [[ctx err] cm1]. cbn in *. subst err.
  assert (maxActions cm1 = maxActions cm) as -> by (by rewrite E1).
  rewrite lastN_drop by done. cbn.
  unfold processActionConsequences.
  set (cmx := mutate _ _ cm1).
  pose proof (applyConsequences_None (ContextEvent.SessionID event)
                (ContextEvent.Event event) now
                (ActionEvent.Consequences (ContextEvent.Event event)) cmx) as Hiff.
  destruct (applyConsequences _ _ _ _ cmx) as [cm2|]; cbn; rewrite <- Hiff; done.
Qed.

End Panics.

(** ** Recent actions and the summary *)

Section Recent.

Context {S : Type} `{ContextStorage S}.

Local Abbreviation CM := (ContextManager S).

(** X17. [GetRecentActions] returns the last [count] actions of the log
    (all of them when the log is shorter, none for a count of zero) and no
    error, and does nothing to the manager beyond the caching of
    [GetContext]; a negative count makes the slice expression panic,
    whatever the log. *)
Theorem GetRecentActions_returns_log_suffix
  (cm : CM) (sid : string) (count : Z) (now : Time) :
  (0 <= count ->
   GetRecentActions sid count now cm
   = Some (drop (length (sessionLog sid cm) - Z.to_nat count) (sessionLog sid cm),
           None, (GetContext sid now cm).2)) /\
  (count < 0 -> GetRecentActions sid count now cm = None).
Proof.
  unfold GetRecentActions.
  pose proof (sessionLog_GetContext sid now cm) as HL.
  pose proof (GetContext_no_error sid now cm) as He.
  destruct (GetContext sid now cm) as [[ctx err] cm1]. cbn in *. subst err.
  rewrite HL. split.
  - intros Hc. by rewrite lastN_drop.
  - intros Hc. unfold lastN.
    destruct (Z.ltb_spec count (Z.of_nat (length (sessionLog sid cm)))); [|lia].
    by destruct (Z.ltb_spec count 0); [|lia].
Qed.

(** X18. The recent actions of the summary are the last five entries of the
    session's log, oldest first, each rendered as "type: command ->
    outcome"; an empty log gives the single line "No recent actions".
    The summary reports the session's current reputation and location. *)
Theorem summary_shows_last_five_actions (cm : CM) (sid : string) (now : Time) :
  exists summary,
    GetContextSummary sid now cm = Some (Some summary, None, (GetContext sid now cm).2) /\
    ContextSummary.RecentActions summary =
      match sessionLog sid cm with
      | [] => ["No recent actions"]
      | log =>
          (fun a => (ActionEvent.Type_ a ++ ": " ++ ActionEvent.Command a
                     ++ " -> " ++ ActionEvent.Outcome a)%string)
            <$> drop (length log - 5) log
      end /\
    ContextSummary.PlayerReputation summary
      = CharacterState.Reputation (PlayerContext.Character (GetContext sid now cm).1.1) /\
    ContextSummary.CurrentLocation summary
      = LocationState.Current (PlayerContext.Location (GetContext sid now cm).1.1).
Proof.
  unfold GetContextSummary.
  pose proof (sessionLog_GetContext sid now cm) as HL.
  pose proof (GetContext_no_error sid now cm) as He.
  destruct (GetContext sid now cm) as [[ctx err] cm1]. cbn in *. subst err.
  rewrite HL. unfold getActionSummary.
  destruct (sessionLog sid cm) as [|a log] eqn:E; cbn [length Nat.eqb].
  - eexists. split; [reflexivity|]. done.
  - cbn [mbind option_bind]. change (make_panics 16 5) with false.
    cbn [mbind option_bind].
    eexists. split; [reflexivity|]. cbn. split; [|done].
    f_equal.
    destruct (Z.ltb_spec (Z.of_nat (Datatypes.S (length log)) - 5) 0) as [Hlt|Hge].
    + replace (length log - 4)%nat with 0%nat by lia. done.
    + f_equal. lia.
Qed.

End Recent.

(** ** Prompt helpers *)

Lemma getRelevantNPCs_elem ctx now info :
  info ∈ getRelevantNPCs ctx now <->
  exists id r,
    PlayerContext.NPCStates ctx !! id = Some r /\
    now - NPCRelationship.LastInteraction r < 24 * Hour /\
    info = NPCContextInfo.mk (NPCRelationship.NPCID r) (NPCRelationship.Name r)
             (NPCRelationship.Disposition r) (NPCRelationship.Mood r)
             (NPCRelationship.KnownFacts r)
             (formatTimeSince (NPCRelationship.LastInteraction r) now)
             (NPCRelationship.Location r)
             (determineRelationshipLevel (NPCRelationship.Disposition r)).
Proof.
  unfold getRelevantNPCs. rewrite list_elem_of_omap. split.
  - intros ([id r] & Hin & Hsome). apply elem_of_map_to_list in Hin. cbn in Hsome.
    destruct (Z.ltb_spec (now - NPCRelationship.LastInteraction r) (24 * Hour)); [|done].
    injection Hsome as <-. by exists id, r.
  - intros (id & r & Hr & Hrecent & ->). exists (id, r).
    split; [by apply elem_of_map_to_list|]. cbn.
    by destruct (Z.ltb_spec (now - NPCRelationship.LastInteraction r) (24 * Hour)); [|lia].
Qed.

(** X19. The NPC list of the summary holds exactly the NPCs last met less than
    24 hours ago, and never more entries than there are NPC records.  When
    the session's NPC records are consistent (as the engine keeps them),
    each entry carries its NPC's id, and its mood and relationship labels
    agree: "hostile" goes with "enemy", "unfriendly" with "rival",
    "suspicious" with "stranger", "neutral" with "acquaintance", "helpful"
    with "ally" and "friendly" with "friend" or "close_friend". *)
Theorem active_npcs_are_recent_and_coherent (ctx : PlayerContext.t) (now : Time) :
  (length (getRelevantNPCs ctx now) <= size (PlayerContext.NPCStates ctx))%nat /\
  (forall id r, PlayerContext.NPCStates ctx !! id = Some r ->
     now - NPCRelationship.LastInteraction r < 24 * Hour ->
     exists info, info ∈ getRelevantNPCs ctx now /\
                  NPCContextInfo.Name info = NPCRelationship.Name r /\
                  NPCContextInfo.Disposition info = NPCRelationship.Disposition r) /\
  (npc_records_consistent ctx ->
   forall info, info ∈ getRelevantNPCs ctx now ->
     (exists r, PlayerContext.NPCStates ctx !! NPCContextInfo.ID info = Some r /\
                now - NPCRelationship.LastInteraction r < 24 * Hour) /\
     NPCContextInfo.Mood info = calculateMood (NPCContextInfo.Disposition info) /\
     NPCContextInfo.Relationship info
       = determineRelationshipLevel (NPCContextInfo.Disposition info) /\
     (NPCContextInfo.Mood info, NPCContextInfo.Relationship info)
       ∈ [ ("hostile", "enemy"); ("unfriendly", "rival"); ("suspicious", "stranger");
           ("neutral", "acquaintance"); ("helpful", "ally"); ("friendly", "friend");
           ("friendly", "close_friend") ]).
Proof.
  split; [|split].
  - unfold getRelevantNPCs. rewrite <- length_map_to_list.
    induction (map_to_list (PlayerContext.NPCStates ctx)) as [|kv l IH]; [done|].
    cbn. destruct (_ <? _); cbn; lia.
  - intros id r Hr Hrecent. eexists. split.
    + apply getRelevantNPCs_elem. by exists id, r.
    + done.
  - intros Hok info Hin. apply getRelevantNPCs_elem in Hin as (id & r & Hr & Hrecent & ->).
    destruct (Hok id r Hr) as [Hid Hmood]. cbn.
    split; [exists r; by rewrite Hid|]. split; [done|]. split; [done|].
    rewrite Hmood. unfold calculateMood, determineRelationshipLevel.
    destruct (Z.leb_spec 75 (NPCRelationship.Disposition r)),
      (Z.leb_spec 50 (NPCRelationship.Disposition r)),
      (Z.leb_spec 25 (NPCRelationship.Disposition r)),
      (Z.leb_spec 0 (NPCRelationship.Disposition r)),
      (Z.leb_spec (-25) (NPCRelationship.Disposition r)),
      (Z.leb_spec (-50) (NPCRelationship.Disposition r));
      try lia; set_solver.
Qed.

(** X20. [getKnownLocations] lists each known location once: the current
    location, the previous one unless it is empty, the location of every
    visit of the history, and the non-empty locations of the logged
    actions, and nothing else. *)
Theorem getKnownLocations_lists_each_place_once (ctx : PlayerContext.t) :
  NoDup (getKnownLocations ctx) /\
  forall x, x ∈ getKnownLocations ctx <->
    x = LocationState.Current (PlayerContext.Location ctx) \/
    (x = LocationState.Previous (PlayerContext.Location ctx) /\ x <> "") \/
    x ∈ visitedPlaces ctx \/
    (x <> "" /\ exists a, a ∈ PlayerContext.Actions ctx /\ ActionEvent.Location a = x).
Proof.
  unfold getKnownLocations. split; [apply NoDup_elements|].
  intros x. rewrite elem_of_elements.
  assert (forall (l : list ActionEvent.t) (s : gset string),
            x ∈ foldl (fun s action =>
                         if String.eqb (ActionEvent.Location action) "" then s
                         else s ∪ {[ ActionEvent.Location action ]}) s l
            <-> x ∈ s \/ (x <> "" /\ exists a, a ∈ l /\ ActionEvent.Location a = x)) as Hacts.
  { induction l as [|a l IH]; intros s; cbn.
    - split; [tauto|]. intros [?|(_ & a & Ha%elem_of_nil & _)]; done.
    - rewrite IH. destruct (String.eqb (ActionEvent.Location a) "") eqn:E.
      + apply String.eqb_eq in E.
        split; [intros [?|(Hx & b & Hb & Hloc)]; [tauto|right; split; [done|]; exists b; split; [apply elem_of_cons; by right|done]]|].
        intros [?|(Hx & b & Hb & Hloc)]; [tauto|].
        apply elem_of_cons in Hb as [ -> |Hb]; [congruence|]. right. eauto.
      + apply String.eqb_neq in E.
        rewrite elem_of_union, elem_of_singleton.
        split.
        * intros [[?| ->]|(Hx & b & Hb & Hloc)]; [tauto| |].
          -- right. split; [done|]. exists a. split; [apply elem_of_cons; by left|done].
          -- right. split; [done|]. exists b. split; [apply elem_of_cons; by right|done].
        * intros [?|(Hx & b & Hb & Hloc)]; [tauto|].
          apply elem_of_cons in Hb as [ -> |Hb]; [left; right; done|]. right. eauto. }
  assert (forall (l : list LocationVisit.t) (s : gset string),
            x ∈ foldl (fun s visit => s ∪ {[ LocationVisit.Location visit ]}) s l
            <-> x ∈ s \/ x ∈ LocationVisit.Location <$> l) as Hvisits.
  { induction l as [|v l IH]; intros s; cbn.
    - split; [tauto|]. intros [?|?%elem_of_nil]; done.
    - rewrite IH, elem_of_union, elem_of_singleton, elem_of_cons. tauto. }
  rewrite Hacts, Hvisits. unfold visitedPlaces.
  destruct (String.eqb (LocationState.Previous (PlayerContext.Location ctx)) "") eqn:E.
  - apply String.eqb_eq in E. rewrite elem_of_singleton. split; [tauto|].
    intros [?|[[-> Hx]|?]]; [tauto|congruence|tauto].
  - apply String.eqb_neq in E. rewrite elem_of_union, !elem_of_singleton. split; [|tauto].
    intros [[[?| ->]|?]|?]; tauto.
Qed.

(** ** Sessions are filed under their own id *)

Section Filing.

Local Abbreviation CM := (ContextManager MemoryContextStorage).

Lemma mutate_filed k f (cm : CM) :
  (forall c, PlayerContext.SessionID (f c) = PlayerContext.SessionID c) ->
  filed cm -> filed (mutate k f cm).
Proof.
  intros Hf [Hc Hs]. split; [|done]. intros j c. cbn.
  destruct (decide (k = j)) as [->|Hne].
  - rewrite lookup_alter_eq. destruct (cache cm !! j) as [c0|] eqn:E; cbn; [|done].
    intros [= <-]. rewrite Hf. eauto.
  - rewrite lookup_alter_ne by done. eauto.
Qed.

Lemma cache_Store_filed k c (cm : CM) :
  PlayerContext.SessionID c = k -> filed cm -> filed (cache_Store k c cm).
Proof.
  intros Hk [Hc Hs]. split; [|done]. intros j c'. cbn.
  destruct (decide (k = j)) as [->|Hne].
  - rewrite lookup_insert_eq. by intros [= <-].
  - rewrite lookup_insert_ne by done. eauto.
Qed.

Lemma GetContext_sessionID sid now (cm : CM) :
  filed cm -> PlayerContext.SessionID (GetContext sid now cm).1.1 = sid.
Proof.
  intros [Hc Hs]. unfold GetContext.
  destruct (cache cm !! sid) as [c|] eqn:E; cbn; [eauto|].
  unfold Memory_LoadContext. destruct (contexts (storage cm) !! sid) eqn:E'; [eauto|done].
Qed.

Lemma GetContext_filed sid now (cm : CM) : filed cm -> filed (GetContext sid now cm).2.
Proof.
  intros Hf. pose proof (GetContext_sessionID sid now cm Hf) as Hid. revert Hid.
  unfold GetContext. destruct (cache cm !! sid) as [c|] eqn:E; [done|].
  intros Hid. by apply cache_Store_filed.
Qed.

Lemma direct_filed sid now f (cm : CM) :
  (forall c, PlayerContext.SessionID (f c) = PlayerContext.SessionID c) ->
  filed cm ->
  filed (cache_Store sid (f (GetContext sid now cm).1.1) (GetContext sid now cm).2).
Proof.
  intros Hf Hc. apply cache_Store_filed; [|by apply GetContext_filed].
  rewrite Hf. by apply GetContext_sessionID.
Qed.

Lemma save_filed c (cm : CM) :
  filed cm -> filed (set_storage (SaveContext (storage cm) c).1 cm).
Proof.
  intros [Hc Hs]. split; [done|]. intros j c'. cbn.
  destruct (decide (PlayerContext.SessionID c = j)) as [<-|Hne].
  - rewrite lookup_insert_eq. by intros [= <-].
  - rewrite lookup_insert_ne by done. eauto.
Qed.

Lemma set_eventQueue_filed q (cm : CM) : filed cm -> filed (set_eventQueue q cm).
Proof. done. Qed.

Lemma saveAll_fold_filed (l : list (string * PlayerContext.t)) : forall cm : CM,
  filed cm ->
  filed (set_storage (foldl (fun st kv => (SaveContext st kv.2).1) (storage cm) l) cm).
Proof.
  induction l as [|kv l IH]; intros cm Hf; cbn [foldl]; [by destruct cm|].
  specialize (IH (set_storage (SaveContext (storage cm) kv.2).1 cm) (save_filed _ _ Hf)).
  exact IH.
Qed.

Lemma saveAllCachedContexts_filed (cm : CM) : filed cm -> filed (saveAllCachedContexts cm).
Proof. intros Hf. by apply saveAll_fold_filed. Qed.

Lemma FlushContext_filed sid (cm : CM) : filed cm -> filed (FlushContext sid cm).2.
Proof.
  intros Hf. unfold FlushContext. destruct (cache cm !! sid) as [c|]; [|done].
  apply (save_filed c cm Hf).
Qed.

Local Ltac sid_kept :=
  let c := fresh "c" in
  intros c;
  unfold set_LastUpdate, moveTo, touchNPC, changeHealth, changeReputation, addReputation,
    damageHealth, healHealth, gainItem, loseItem, clampReputation, updateSessionStats,
    set_Actions, set_Character, set_Location, set_NPCStates, set_SessionStats;
  repeat case_match; reflexivity.

Lemma UpdateNPCRelationship_filed sid id name d facts now (cm : CM) :
  filed cm -> filed (UpdateNPCRelationship sid id name d facts now cm).2.
Proof.
  intros Hf. rewrite UpdateNPCRelationship_unfold. cbn [snd].
  apply (direct_filed sid now (fun c => set_LastUpdate now (touchNPC id name d facts now c)));
    [sid_kept|done].
Qed.

Lemma applyConsequence_filed k action now c (cm cm' : CM) :
  applyConsequence k action now c cm = Some cm' -> filed cm -> filed cm'.
Proof.
  unfold applyConsequence.
  repeat case_match; intros Happ Hf; simplify_option_eq;
    try done;
    try (apply mutate_filed; [sid_kept|done]).
  by apply UpdateNPCRelationship_filed.
Qed.

Lemma applyConsequences_filed k action now cs : forall cm cm' : CM,
  applyConsequences k action now cs cm = Some cm' -> filed cm -> filed cm'.
Proof.
  induction cs as [|c cs IH]; intros cm cm'; cbn.
  - by intros [= <-].
  - destruct (applyConsequence k action now c cm) as [cm1|] eqn:E; cbn; [|done].
    intros Hrest Hf. eapply IH; [exact Hrest|]. by eapply applyConsequence_filed.
Qed.

Lemma processContextEvent_filed event now (cm cm' : CM) :
  processContextEvent event now cm = Some cm' -> filed cm -> filed cm'.
Proof.
  unfold processContextEvent. intros Hrun Hf.
  pose proof (GetContext_filed (ContextEvent.SessionID event) now cm Hf) as Hf1.
  pose proof (GetContext_no_error (ContextEvent.SessionID event) now cm) as He.
  destruct (GetContext _ now cm) as [[ctx err] cm1]. cbn in *. subst err.
  destruct (lastN _ _) as [actions|]; cbn in Hrun; [|done].
  unfold processActionConsequences in Hrun.
  destruct (applyConsequences _ _ _ _ _) as [cm2|] eqn:EA; cbn in Hrun; [|done].
  injection Hrun as <-.
  apply applyConsequences_filed in EA; [|apply mutate_filed; [sid_kept|done]].
  repeat (apply mutate_filed; [sid_kept|]). done.
Qed.

Lemma step_filed now op (cm cm' : CM) : step now op cm = Some cm' -> filed cm -> filed cm'.
Proof.
  destruct op; cbn [step]; intros Hstep Hf; try (injection Hstep as <-).
  - unfold CreateSession. cbn.
    apply (save_filed (newSessionContext playerID playerName newID now)
             (cache_Store newID (newSessionContext playerID playerName newID now) cm)).
    by apply cache_Store_filed.
  - by apply GetContext_filed.
  - unfold RecordAction. by destruct (_ <? _)%nat.
  - rewrite UpdateLocation_unfold. cbn [snd].
    apply (direct_filed _ now (fun c => set_LastUpdate now (moveTo newLocation now c)));
      [sid_kept|done].
  - by apply UpdateNPCRelationship_filed.
  - rewrite UpdateCharacterHealth_unfold. cbn [snd].
    apply (direct_filed _ now (fun c => set_LastUpdate now (changeHealth healthChange c)));
      [sid_kept|done].
  - rewrite UpdateReputation_unfold. cbn [snd].
    apply (direct_filed _ now (fun c => set_LastUpdate now (changeReputation reputationChange c)));
      [sid_kept|done].
  - unfold processEvents_step in Hstep. destruct (eventQueue cm) as [|e q].
    + by injection Hstep as <-.
    + by eapply processContextEvent_filed.
  - by eapply processContextEvent_filed.
  - by apply FlushContext_filed.
  - by apply saveAllCachedContexts_filed.
Qed.

Lemma run_filed trace : forall cm cm' : CM,
  run trace cm = Some cm' -> filed cm -> filed cm'.
Proof.
  induction trace as [|[now op] trace IH]; intros cm cm'; cbn.
  - by intros [= <-].
  - destruct (step now op cm) as [cm1|] eqn:E; cbn; [|done].
    intros Hrun Hf. eapply IH; [exact Hrun|]. by eapply step_filed.
Qed.

End Filing.

(** ** Saving and evicting *)

Section Eviction.

Context {S : Type} `{ContextStorage S}.

Local Abbreviation CM := (ContextManager S).

Lemma cleanup_fold_cache cutoff (l : list (string * PlayerContext.t)) :
  NoDup l.*1 -> forall (cm : CM) k,
  cache (foldl (fun (cm : CM) (kv : string * PlayerContext.t) =>
                  if PlayerContext.LastUpdate kv.2 <? cutoff then
                    set_cache (delete kv.1 (cache cm))
                      (set_storage (SaveContext (storage cm) kv.2).1 cm)
                  else cm) cm l) !! k
  = match (list_to_map l : gmap string PlayerContext.t) !! k with
    | Some c => if PlayerContext.LastUpdate c <? cutoff then None else cache cm !! k
    | None => cache cm !! k
    end.
Proof.
  induction l as [|[j c] l IH]; intros Hnd cm k; cbn [foldl]; [done|].
  apply NoDup_cons in Hnd as [Hj Hnd]. rewrite IH by done.
  rewrite list_to_map_cons.
  destruct (decide (j = k)) as [->|Hne].
  - rewrite lookup_insert_eq. cbn [fst snd].
    rewrite (not_elem_of_list_to_map_1 _ _ Hj).
    destruct (_ <? _); cbn; [apply lookup_delete_eq|done].
  - rewrite lookup_insert_ne by done. cbn [fst snd].
    assert (cache (if PlayerContext.LastUpdate c <? cutoff
              then set_cache (delete j (cache cm))
                     (set_storage (SaveContext (storage cm) c).1 cm) else cm) !! k
            = cache cm !! k) as ->; [|done].
    destruct (_ <? _); cbn; [|done]. by rewrite lookup_delete_ne.
Qed.

Lemma cleanup_cache now (cm : CM) k :
  cache (cleanupOldContexts now cm) !! k
  = match cache cm !! k with
    | Some c => if expired now cm c then None else Some c
    | None => None
    end.
Proof.
  unfold cleanupOldContexts, expired.
  rewrite cleanup_fold_cache by apply NoDup_fst_map_to_list.
  rewrite list_to_map_to_list. by destruct (cache cm !! k).
Qed.

Lemma cleanup_fold_queue cutoff (l : list (string * PlayerContext.t)) : forall cm : CM,
  let cm' := foldl (fun (cm : CM) (kv : string * PlayerContext.t) =>
                  if PlayerContext.LastUpdate kv.2 <? cutoff then
                    set_cache (delete kv.1 (cache cm))
                      (set_storage (SaveContext (storage cm) kv.2).1 cm)
                  else cm) cm l in
  eventQueue cm' = eventQueue cm /\ queueCap cm' = queueCap cm /\
  maxActions cm' = maxActions cm /\ cacheTimeout cm' = cacheTimeout cm /\
  persistInterval cm' = persistInterval cm.
Proof.
  induction l as [|[j c] l IH]; intros cm; cbn [foldl]; [done|].
  cbn zeta in IH. destruct (IH (if PlayerContext.LastUpdate (j, c).2 <? cutoff
     then set_cache (delete (j, c).1 (cache cm))
            (set_storage (SaveContext (storage cm) (j, c).2).1 cm) else cm))
    as (-> & -> & -> & -> & ->).
  by destruct (_ <? _).
Qed.

End Eviction.

Section Durability.

Local Abbreviation CM := (ContextManager MemoryContextStorage).

Lemma cleanup_fold_store cutoff (l : list (string * PlayerContext.t)) :
  NoDup l.*1 -> Forall (fun kv => PlayerContext.SessionID kv.2 = kv.1) l ->
  forall (cm : CM) k,
  contexts (storage (foldl (fun (cm : CM) (kv : string * PlayerContext.t) =>
                  if PlayerContext.LastUpdate kv.2 <? cutoff then
                    set_cache (delete kv.1 (cache cm))
                      (set_storage (SaveContext (storage cm) kv.2).1 cm)
                  else cm) cm l)) !! k
  = match (list_to_map l : gmap string PlayerContext.t) !! k with
    | Some c => if PlayerContext.LastUpdate c <? cutoff then Some c
                else contexts (storage cm) !! k
    | None => contexts (storage cm) !! k
    end.
Proof.
  induction l as [|[j c] l IH]; intros Hnd Hkeys cm k; cbn [foldl]; [done|].
  apply NoDup_cons in Hnd as [Hj Hnd]. apply Forall_cons in Hkeys as [Hjc Hkeys].
  cbn in Hjc. rewrite IH by done. rewrite list_to_map_cons. cbn [fst snd].
  destruct (decide (j = k)) as [->|Hne].
  - rewrite lookup_insert_eq. rewrite (not_elem_of_list_to_map_1 _ _ Hj).
    destruct (_ <? _); cbn; [|done]. rewrite Hjc. apply lookup_insert_eq.
  - rewrite lookup_insert_ne by done.
    assert (contexts (storage (if PlayerContext.LastUpdate c <? cutoff
              then set_cache (delete j (cache cm))
                     (set_storage (SaveContext (storage cm) c).1 cm) else cm)) !! k
            = contexts (storage cm) !! k) as ->; [|done].
    destruct (_ <? _); cbn; [|done]. rewrite Hjc. by rewrite lookup_insert_ne.
Qed.

Lemma saveAll_fold_store (l : list (string * PlayerContext.t)) :
  NoDup l.*1 -> Forall (fun kv => PlayerContext.SessionID kv.2 = kv.1) l ->
  forall (st : MemoryContextStorage) k,
  contexts (foldl (fun st kv => (SaveContext st kv.2).1) st l) !! k
  = match (list_to_map l : gmap string PlayerContext.t) !! k with
    | Some c => Some c
    | None => contexts st !! k
    end.
Proof.
  induction l as [|[j c] l IH]; intros Hnd Hkeys st k; cbn [foldl]; [done|].
  apply NoDup_cons in Hnd as [Hj Hnd]. apply Forall_cons in Hkeys as [Hjc Hkeys].
  cbn in Hjc. rewrite IH by done. rewrite list_to_map_cons. cbn [fst snd].
  destruct (decide (j = k)) as [->|Hne].
  - rewrite lookup_insert_eq. rewrite (not_elem_of_list_to_map_1 _ _ Hj).
    cbn. rewrite Hjc. apply lookup_insert_eq.
  - rewrite lookup_insert_ne by done. destruct (list_to_map l !! k); [done|].
    cbn. rewrite Hjc. by rewrite lookup_insert_ne.
Qed.

Lemma filed_entries (cm : CM) :
  filed cm ->
  Forall (fun kv => PlayerContext.SessionID kv.2 = kv.1) (map_to_list (cache cm)).
Proof.
  intros [Hc _]. apply Forall_forall. intros [k c] Hin.
  apply elem_of_map_to_list in Hin. cbn. eauto.
Qed.

Lemma saveAll_store (cm : CM) k :
  filed cm ->
  contexts (storage (saveAllCachedContexts cm)) !! k
  = match cache cm !! k with
    | Some c => Some c
    | None => contexts (storage cm) !! k
    end.
Proof.
  intros Hf. unfold saveAllCachedContexts. cbn.
  rewrite saveAll_fold_store;
    [|apply NoDup_fst_map_to_list|by apply filed_entries].
  by rewrite list_to_map_to_list.
Qed.

Lemma cleanup_store now (cm : CM) k :
  filed cm ->
  contexts (storage (cleanupOldContexts now cm)) !! k
  = match cache cm !! k with
    | Some c => if expired now cm c then Some c else contexts (storage cm) !! k
    | None => contexts (storage cm) !! k
    end.
Proof.
  intros Hf. unfold cleanupOldContexts, expired.
  rewrite cleanup_fold_store;
    [|apply NoDup_fst_map_to_list|by apply filed_entries].
  by rewrite list_to_map_to_list.
Qed.

End Durability.

Section Persistence.

Local Abbreviation CM := (ContextManager MemoryContextStorage).

Lemma Memory_load_iff (st : MemoryContextStorage) k c :
  LoadContext st k = inl c <-> contexts st !! k = Some c.
Proof.
  cbn. unfold Memory_LoadContext. destruct (contexts st !! k); split; congruence.
Qed.

Lemma ContextManager_eq (cm1 cm2 : CM) :
  storage cm1 = storage cm2 -> cache cm1 = cache cm2 ->
  eventQueue cm1 = eventQueue cm2 -> queueCap cm1 = queueCap cm2 ->
  maxActions cm1 = maxActions cm2 -> cacheTimeout cm1 = cacheTimeout cm2 ->
  persistInterval cm1 = persistInterval cm2 -> cm1 = cm2.
Proof. destruct cm1, cm2; cbn; congruence. Qed.

Lemma Memory_load_lookup (st : MemoryContextStorage) k :
  LoadContext st k = match contexts st !! k with
                     | Some c => inl c
                     | None => inr (ErrNotFound k)
                     end.
Proof. done. Qed.

Lemma NewContextManager_filed : filed (NewContextManager NewMemoryStorage).
Proof. split; intros k c; cbn; by rewrite lookup_empty. Qed.

(** X21. With the in-memory store, every session is filed under its own id:
    a fresh manager has the property, every engine call keeps it, and so
    after any run each cache entry and each stored session carries the id
    it is filed under, [GetContext sid] returns a session whose id is
    [sid], and [GetActiveSessions] lists the ids of the cached sessions,
    each once. *)
Theorem sessions_are_filed_under_their_own_id
  (trace : list (Time * Op)) (cm cm' : CM) :
  filed cm -> run trace cm = Some cm' ->
  (forall k c, cache cm' !! k = Some c -> PlayerContext.SessionID c = k) /\
  (forall k c, LoadContext (storage cm') k = inl c -> PlayerContext.SessionID c = k) /\
  (forall sid now, PlayerContext.SessionID (GetContext sid now cm').1.1 = sid) /\
  GetActiveSessions cm' = PlayerContext.SessionID <$> (map_to_list (cache cm')).*2 /\
  NoDup (GetActiveSessions cm') /\
  (forall sid, sid ∈ GetActiveSessions cm' <-> IsSessionActive sid cm' = true).
Proof.
  intros Hf Hrun. pose proof (run_filed trace cm cm' Hrun Hf) as Hf'.
  split; [apply Hf'|]. split.
  { intros k c Hk%Memory_load_iff. by apply Hf'. }
  split; [intros sid now; by apply GetContext_sessionID|].
  unfold GetActiveSessions, IsSessionActive. split; [|split].
  - pose proof (filed_entries cm' Hf') as Hall.
    induction Hall as [|[k c] l Hkc _ IH]; [done|]. cbn in *. by rewrite IH, Hkc.
  - apply NoDup_fst_map_to_list.
  - intros sid. rewrite bool_decide_eq_true. unfold is_Some.
    rewrite list_elem_of_fmap. split.
    + intros ([k c] & -> & Hin). exists c. by apply elem_of_map_to_list.
    + intros [c Hc]. exists (sid, c). split; [done|]. by apply elem_of_map_to_list.
Qed.

(** X22. [saveAllCachedContexts] over the in-memory store: the cache and the
    queue are as before, every cached session can then be loaded from the
    store exactly as it is cached, stored sessions that are not cached
    stay as they were, and a second pass changes nothing. *)
Theorem saveAllCachedContexts_persists_the_cache (cm : CM) :
  filed cm ->
  cache (saveAllCachedContexts cm) = cache cm /\
  eventQueue (saveAllCachedContexts cm) = eventQueue cm /\
  (forall k c, cache cm !! k = Some c ->
     LoadContext (storage (saveAllCachedContexts cm)) k = inl c) /\
  (forall k, cache cm !! k = None ->
     LoadContext (storage (saveAllCachedContexts cm)) k = LoadContext (storage cm) k) /\
  saveAllCachedContexts (saveAllCachedContexts cm) = saveAllCachedContexts cm.
Proof.
  intros Hf. split; [done|]. split; [done|]. split; [|split].
  - intros k c Hk. apply Memory_load_iff. by rewrite saveAll_store, Hk.
  - intros k Hk. by rewrite !Memory_load_lookup, saveAll_store, Hk.
  - pose proof (saveAllCachedContexts_filed cm Hf) as Hf1.
    assert (storage (saveAllCachedContexts (saveAllCachedContexts cm))
            = storage (saveAllCachedContexts cm)) as Hst.
    { destruct (storage (saveAllCachedContexts (saveAllCachedContexts cm))) as [m2] eqn:E2.
      destruct (storage (saveAllCachedContexts cm)) as [m1] eqn:E1. f_equal.
      apply map_eq. intros k.
      change m2 with (contexts (mkMemoryContextStorage m2)). rewrite <- E2.
      rewrite saveAll_store by done.
      change (cache (saveAllCachedContexts cm)) with (cache cm).
      change m1 with (contexts (mkMemoryContextStorage m1)). rewrite <- E1.
      rewrite saveAll_store by done. by destruct (cache cm !! k). }
    by apply ContextManager_eq.
Qed.

(** X23. [cleanupOldContexts] with the in-memory store loses nothing: it
    keeps in the cache exactly the sessions updated at or after
    [now - cacheTimeout], every evicted session can be loaded from the
    store as it was cached, the queue is untouched, and [GetContext]
    returns for every id the same session as it would have before. *)
Theorem cleanupOldContexts_evicts_without_loss (now : Time) (cm : CM) :
  filed cm ->
  (forall k, cache (cleanupOldContexts now cm) !! k
             = c ← cache cm !! k; if expired now cm c then None else Some c) /\
  (forall k c, cache cm !! k = Some c -> expired now cm c = true ->
     LoadContext (storage (cleanupOldContexts now cm)) k = inl c) /\
  eventQueue (cleanupOldContexts now cm) = eventQueue cm /\
  (forall sid now', (GetContext sid now' (cleanupOldContexts now cm)).1.1
                    = (GetContext sid now' cm).1.1) /\
  filed (cleanupOldContexts now cm).
Proof.
  intros Hf.
  assert (forall k c, cache cm !! k = Some c -> expired now cm c = true ->
     LoadContext (storage (cleanupOldContexts now cm)) k = inl c) as Hload.
  { intros k c Hk Hold. apply Memory_load_iff. by rewrite cleanup_store, Hk, Hold. }
  split; [|split; [exact Hload|split; [|split]]].
  - intros k. rewrite cleanup_cache. by destruct (cache cm !! k).
  - apply (cleanup_fold_queue (now - cacheTimeout cm) (map_to_list (cache cm)) cm).
  - intros sid now'. unfold GetContext at 1. rewrite cleanup_cache.
    unfold GetContext. destruct (cache cm !! sid) as [c|] eqn:Hk.
    + destruct (expired now cm c) eqn:Hold; [|done]. cbn [fst].
      by rewrite (Hload sid c Hk Hold).
    + cbn [fst]. by rewrite !Memory_load_lookup, cleanup_store, Hk.
  - destruct Hf as [Hc Hs]. split.
    + intros k c. rewrite cleanup_cache. destruct (cache cm !! k) as [c0|] eqn:Hk; [|done].
      destruct (expired now cm c0); [done|]. intros [= <-]. eauto.
    + intros k c. rewrite cleanup_store by done.
      destruct (cache cm !! k) as [c0|] eqn:Hk; [|eauto].
      destruct (expired now cm c0); [|eauto]. intros [= <-]. eauto.
Qed.

End Persistence.

Section EvictionLoss.

Context {S : Type} `{ContextStorage S}.

Local Abbreviation CM := (ContextManager S).

(** X24. [cleanupOldContexts] over any store: a session stays cached exactly
    when it was updated at or after [now - cacheTimeout]; the queue and the
    settings are untouched.  The entry is deleted whether or not its save
    succeeded: over a store that accepts no save and holds nothing, the
    next [GetContext] for an evicted session returns the skeleton. *)
Theorem cleanupOldContexts_evicts_expired_sessions (now : Time) (cm : CM) :
  (forall k, cache (cleanupOldContexts now cm) !! k
             = c ← cache cm !! k; if expired now cm c then None else Some c) /\
  eventQueue (cleanupOldContexts now cm) = eventQueue cm /\
  maxActions (cleanupOldContexts now cm) = maxActions cm /\
  cacheTimeout (cleanupOldContexts now cm) = cacheTimeout cm /\
  (forall sid, IsSessionActive sid (cleanupOldContexts now cm) = true ->
               IsSessionActive sid cm = true) /\
  (forall sid c now',
     cache cm !! sid = Some c -> expired now cm c = true ->
     (forall ctx, LoadContext (storage (cleanupOldContexts now cm)) sid <> inl ctx) ->
     (GetContext sid now' (cleanupOldContexts now cm)).1.1 = createNewContext sid now').
Proof.
  pose proof (cleanup_fold_queue (now - cacheTimeout cm) (map_to_list (cache cm)) cm)
    as (Hq & _ & Hm & Ht & _).
  split; [|split; [exact Hq|split; [exact Hm|split; [exact Ht|split]]]].
  - intros k. rewrite cleanup_cache. by destruct (cache cm !! k).
  - intros sid. unfold IsSessionActive. rewrite !bool_decide_eq_true, cleanup_cache.
    destruct (cache cm !! sid); [eauto|]. by intros [? ?].
  - intros sid c now' Hk Hold Hfail. unfold GetContext.
    rewrite cleanup_cache, Hk, Hold. cbn.
    destruct (LoadContext _ sid) as [ctx|e] eqn:E; [by destruct (Hfail ctx)|done].
Qed.

End EvictionLoss.

(** ** Shutdown *)

Section Drain.

Context {S : Type} `{ContextStorage S}.

Local Abbreviation CM := (ContextManager S).

Lemma queuedFor_cons_mine sid event rest :
  ContextEvent.SessionID event = sid ->
  queuedFor sid (event :: rest) = ContextEvent.Event event :: queuedFor sid rest.
Proof. intros E. unfold queuedFor. by rewrite filter_cons_True. Qed.

Lemma queuedFor_cons_other sid event rest :
  ContextEvent.SessionID event <> sid ->
  queuedFor sid (event :: rest) = queuedFor sid rest.
Proof. intros E. unfold queuedFor. by rewrite filter_cons_False. Qed.

(** The drain of the shutdown arm, on the logs: every queued action is
    appended to its session's log, which keeps its last [bound] entries. *)
Lemma drainQueue_exact_log sid tick q : forall i (cm : CM) (bound : nat),
  maxActions cm = Z.of_nat bound ->
  (length (sessionLog sid cm) <= bound)%nat ->
  Forall (fun event => payload_ok (ContextEvent.Event event)) q ->
  exists cm',
    drainQueue tick i q cm = Some cm' /\
    maxActions cm' = maxActions cm /\
    sessionLog sid cm' =
      drop (length (sessionLog sid cm ++ queuedFor sid q) - bound)
        (sessionLog sid cm ++ queuedFor sid q).
Proof.
  induction q as [|event rest IH]; intros i cm bound Hm Hlen Hok.
  - exists cm. cbn. split; [done|]. split; [done|].
    unfold queuedFor. cbn. rewrite app_nil_r.
    replace (length (sessionLog sid cm) - bound)%nat with 0%nat by lia. done.
  - apply Forall_cons in Hok as [Hok1 Hok].
    destruct (processContextEvent_total event (tick i) (set_eventQueue rest cm)
                ltac:(cbn; lia) Hok1) as [cm1 E1].
    destruct (processContextEvent_log event (tick i) _ cm1 E1) as (Ecm & Hmine & Hothers).
    assert (maxActions cm1 = maxActions cm) as Hm1 by (by rewrite Ecm).
    change (sessionLog (ContextEvent.SessionID event) (set_eventQueue rest cm))
      with (sessionLog (ContextEvent.SessionID event) cm) in Hmine.
    change (maxActions (set_eventQueue rest cm)) with (maxActions cm) in Hmine.
    assert (forall cm', drainQueue tick (Datatypes.S i) rest cm1 = Some cm' ->
                        drainQueue tick i (event :: rest) cm = Some cm') as Hstep.
    { intros cm' Erun. cbn [drainQueue]. by rewrite E1. }
    destruct (decide (ContextEvent.SessionID event = sid)) as [Heq|Hne].
    + rewrite Heq in Hmine. rewrite lastN_drop in Hmine by lia.
      injection Hmine as Hmine. rewrite Hm, Nat2Z.id in Hmine.
      assert (length (sessionLog sid cm1) <= bound)%nat as Hlen1.
      { rewrite <- Hmine, length_drop, length_app. cbn. lia. }
      destruct (IH (Datatypes.S i) cm1 bound ltac:(lia) Hlen1 Hok)
        as (cm' & Erun & Hm' & Hlog).
      exists cm'. split; [by apply Hstep|]. split; [lia|].
      rewrite Hlog, (queuedFor_cons_mine sid event rest Heq).
      rewrite <- Hmine.
      set (X := sessionLog sid cm ++ [ContextEvent.Event event]).
      set (rest' := queuedFor sid rest).
      replace (sessionLog sid cm ++ ContextEvent.Event event :: rest')
        with (X ++ rest') by (subst X; by rewrite <- app_assoc).
      rewrite <- (drop_app_le X rest') by lia.
      rewrite drop_drop. f_equal.
      rewrite length_drop, !length_app. lia.
    + assert (sessionLog sid cm1 = sessionLog sid cm) as Hsame
        by (by rewrite (Hothers sid)).
      rewrite <- Hsame in *.
      destruct (IH (Datatypes.S i) cm1 bound ltac:(lia) Hlen Hok)
        as (cm' & Erun & Hm' & Hlog).
      exists cm'. split; [by apply Hstep|]. split; [lia|].
      by rewrite Hlog, (queuedFor_cons_other sid event rest Hne).
Qed.

End Drain.

Section CacheGrowth.

Context {S : Type} `{ContextStorage S}.

Local Abbreviation CM := (ContextManager S).

Lemma cached_kept_trans (cm1 cm2 cm3 : CM) :
  cached_kept cm1 cm2 -> cached_kept cm2 cm3 -> cached_kept cm1 cm3.
Proof. intros H12 H23 k Hk. eauto. Qed.

Lemma mutate_cached_kept k f (cm : CM) : cached_kept cm (mutate k f cm).
Proof.
  intros j [c Hj]. cbn. destruct (decide (k = j)) as [->|Hne].
  - rewrite lookup_alter_eq, Hj. by eexists.
  - rewrite lookup_alter_ne by done. by eexists.
Qed.

Lemma cache_Store_cached_kept k c (cm : CM) : cached_kept cm (cache_Store k c cm).
Proof.
  intros j Hj. cbn. destruct (decide (k = j)) as [->|Hne].
  - rewrite lookup_insert_eq. by eexists.
  - by rewrite lookup_insert_ne.
Qed.

Lemma GetContext_cached_kept sid now (cm : CM) : cached_kept cm (GetContext sid now cm).2.
Proof.
  unfold GetContext. destruct (cache cm !! sid) eqn:E; cbn; [by intros k|].
  apply cache_Store_cached_kept.
Qed.

Lemma UpdateNPCRelationship_cached_kept sid id name d facts now (cm : CM) :
  cached_kept cm (UpdateNPCRelationship sid id name d facts now cm).2.
Proof.
  rewrite UpdateNPCRelationship_unfold. cbn [snd].
  eapply cached_kept_trans; [apply GetContext_cached_kept|apply cache_Store_cached_kept].
Qed.

Lemma applyConsequence_cached_kept k action now c (cm cm' : CM) :
  applyConsequence k action now c cm = Some cm' -> cached_kept cm cm'.
Proof.
  unfold applyConsequence.
  repeat case_match; intros Happ; simplify_option_eq;
    try (by intros j);
    try apply mutate_cached_kept.
  apply UpdateNPCRelationship_cached_kept.
Qed.

Lemma applyConsequences_cached_kept k action now cs : forall cm cm' : CM,
  applyConsequences k action now cs cm = Some cm' -> cached_kept cm cm'.
Proof.
  induction cs as [|c cs IH]; intros cm cm'; cbn.
  - intros [= <-]. by intros j.
  - destruct (applyConsequence k action now c cm) as [cm1|] eqn:E; cbn; [|done].
    intros Hrest. eapply cached_kept_trans; [by eapply applyConsequence_cached_kept|eauto].
Qed.

Lemma processContextEvent_cached_kept event now (cm cm' : CM) :
  processContextEvent event now cm = Some cm' ->
  cached_kept cm cm' /\ is_Some (cache cm' !! ContextEvent.SessionID event).
Proof.
  unfold processContextEvent. intros Hrun.
  pose proof (GetContext_cached_kept (ContextEvent.SessionID event) now cm) as Hk1.
  pose proof (GetContext_cached (ContextEvent.SessionID event) now cm) as Hc.
  pose proof (GetContext_no_error (ContextEvent.SessionID event) now cm) as He.
  destruct (GetContext _ now cm) as [[ctx err] cm1]. cbn in *. subst err.
  destruct (lastN _ _) as [actions|]; cbn in Hrun; [|done].
  unfold processActionConsequences in Hrun.
  destruct (applyConsequences _ _ _ _ _) as [cm2|] eqn:EA; cbn in Hrun; [|done].
  injection Hrun as <-.
  apply applyConsequences_cached_kept in EA.
  assert (cached_kept cm1
            (mutate (ContextEvent.SessionID event) (set_LastUpdate now)
               (mutate (ContextEvent.SessionID event)
                  (updateSessionStats (ContextEvent.Event event) now)
                  (mutate (ContextEvent.SessionID event) clampReputation cm2)))) as Hk2.
  { eapply cached_kept_trans; [apply mutate_cached_kept|].
    eapply cached_kept_trans; [exact EA|].
    eapply cached_kept_trans; [apply mutate_cached_kept|].
    eapply cached_kept_trans; apply mutate_cached_kept. }
  split.
  - eapply cached_kept_trans; [exact Hk1|exact Hk2].
  - apply Hk2. by eexists.
Qed.

(** The drain as a whole: it completes on well-formed payloads, empties
    the queue and evicts nothing. *)
Lemma drainQueue_completes tick q : forall i (cm : CM),
  0 <= maxActions cm ->
  Forall (fun event => payload_ok (ContextEvent.Event event)) q ->
  eventQueue cm = q ->
  exists cm',
    drainQueue tick i q cm = Some cm' /\
    eventQueue cm' = [] /\
    cached_kept cm cm' /\
    forall event, event ∈ q -> is_Some (cache cm' !! ContextEvent.SessionID event).
Proof.
  induction q as [|event rest IH]; intros i cm Hm Hok Hq; cbn [drainQueue].
  - exists cm. split; [done|]. split; [done|]. split; [by intros k|].
    by intros event Hin%elem_of_nil.
  - apply Forall_cons in Hok as [Hok1 Hok].
    destruct (processContextEvent_total event (tick i) (set_eventQueue rest cm)
                ltac:(done) Hok1) as [cm1 E1].
    rewrite E1. cbn.
    destruct (processContextEvent_log _ _ _ _ E1) as (Ecm & _).
    destruct (processContextEvent_cached_kept _ _ _ _ E1) as [Hk1 Hmine].
    destruct (IH (Datatypes.S i) cm1) as (cm' & Erun & Hq' & Hk' & Hall).
    { by rewrite Ecm. } { done. } { by rewrite Ecm. }
    exists cm'. split; [done|]. split; [done|]. split.
    + intros k Hk. apply Hk', Hk1. exact Hk.
    + intros e [->|Hin]%elem_of_cons; [by apply Hk'|by apply Hall].
Qed.

End CacheGrowth.

Section ShutdownDurability.

Local Abbreviation CM := (ContextManager MemoryContextStorage).

Lemma drainQueue_filed tick q : forall i (cm cm' : CM),
  drainQueue tick i q cm = Some cm' -> filed cm -> filed cm'.
Proof.
  induction q as [|event rest IH]; intros i cm cm'; cbn [drainQueue].
  - by intros [= <-].
  - destruct (processContextEvent event (tick i) (set_eventQueue rest cm)) as [cm1|] eqn:E;
      cbn; [|done].
    intros Hrest Hf. eapply IH; [exact Hrest|].
    eapply processContextEvent_filed; [exact E|done].
Qed.

Lemma storedLog_saveAll sid (cm : CM) :
  filed cm -> storedLog sid (saveAllCachedContexts cm) = sessionLog sid cm.
Proof.
  intros Hf. unfold storedLog, sessionLog.
  rewrite !Memory_load_lookup, saveAll_store by done.
  by destruct (cache cm !! sid).
Qed.

Lemma sessionLog_saveAll sid (cm : CM) :
  filed cm -> sessionLog sid (saveAllCachedContexts cm) = sessionLog sid cm.
Proof.
  intros Hf. unfold sessionLog.
  change (cache (saveAllCachedContexts cm)) with (cache cm).
  destruct (cache cm !! sid) eqn:E; [done|].
  by rewrite !Memory_load_lookup, saveAll_store, E.
Qed.

(** X25. [Shutdown] with the in-memory store, no call arriving meanwhile: it
    completes when no queued action has a malformed item payload, leaves
    the queue empty and evicts no session, and every cached session (each
    one cached before, and each one a queued action is addressed to) can
    then be loaded from the store exactly as it is cached.  The stored log
    of each session is its log before the shutdown followed by its queued
    actions, cut to the last [maxActions]: no accepted action is lost. *)
Theorem Shutdown_stores_every_queued_action
  (tick : nat -> Time) (cm : CM) (bound : nat) :
  filed cm -> queue_safe cm -> maxActions cm = Z.of_nat bound ->
  exists cm',
    Shutdown tick cm = Some cm' /\
    eventQueue cm' = [] /\
    (forall k c, cache cm' !! k = Some c -> LoadContext (storage cm') k = inl c) /\
    (forall k, is_Some (cache cm !! k) -> is_Some (cache cm' !! k)) /\
    (forall event, event ∈ eventQueue cm ->
       is_Some (cache cm' !! ContextEvent.SessionID event)) /\
    forall sid, (length (sessionLog sid cm) <= bound)%nat ->
      storedLog sid cm' =
        drop (length (sessionLog sid cm ++ queuedFor sid (eventQueue cm)) - bound)
          (sessionLog sid cm ++ queuedFor sid (eventQueue cm)).
Proof.
  intros Hf [Hm0 Hok] Hm. unfold Shutdown, processEvents_shutdown.
  destruct (drainQueue_completes tick (eventQueue cm) 0%nat cm Hm0 Hok eq_refl)
    as (cm1 & Hdrain & Hq1 & Hkept & Hall).
  rewrite Hdrain. cbn [mbind option_bind].
  pose proof (drainQueue_filed _ _ _ _ _ Hdrain Hf) as Hf1.
  pose proof (saveAllCachedContexts_filed cm1 Hf1) as Hf2.
  eexists. split; [done|]. split; [exact Hq1|]. split; [|split; [|split]].
  - intros k c Hk. change (cache cm1 !! k = Some c) in Hk.
    apply Memory_load_iff. rewrite saveAll_store by done.
    change (cache (saveAllCachedContexts cm1)) with (cache cm1). by rewrite Hk.
  - exact Hkept.
  - exact Hall.
  - intros sid Hlen.
    destruct (drainQueue_exact_log sid tick (eventQueue cm) 0%nat cm bound Hm Hlen Hok)
      as (cm1' & Hdrain' & _ & Hlog).
    assert (cm1' = cm1) as -> by congruence.
    rewrite storedLog_saveAll by done. by rewrite sessionLog_saveAll.
Qed.

End ShutdownDurability.

(** ** The game server *)

Section GameServerLemmas.

Context {S : Type} `{ContextStorage S}.

Local Abbreviation CM := (ContextManager S).

Lemma GetContext_hit sid now (cm : CM) c :
  cache cm !! sid = Some c -> GetContext sid now cm = (c, None, cm).
Proof. intros Hc. unfold GetContext. by rewrite Hc. Qed.

Lemma cache_Store_same sid c (cm : CM) :
  cache cm !! sid = Some c -> cache_Store sid c cm = cm.
Proof.
  intros Hc. unfold cache_Store. rewrite insert_id by done. by destruct cm.
Qed.

Lemma cache_Store_twice sid c c' (cm : CM) :
  cache_Store sid c' (cache_Store sid c cm) = cache_Store sid c' cm.
Proof. unfold cache_Store. cbn. by rewrite insert_insert_eq. Qed.

(** The switch on a manager that has the session cached. *)
Lemma commandSwitch_cached sid command tick (cm : CM) c :
  cache cm !! sid = Some c ->
  (commandSwitch sid command tick cm).2
  = cache_Store sid (directEffect command tick c) cm.
Proof.
  intros Hc. unfold commandSwitch, directEffect.
  destruct (String.eqb command "/look around" || String.eqb command "/look") eqn:E1.
  { assert (String.eqb command "/talk tavern_keeper" = false) as ->.
    { apply orb_true_iff in E1 as [->%String.eqb_eq| ->%String.eqb_eq]; done. }
    assert (String.eqb command "/attack goblin" = false) as ->.
    { apply orb_true_iff in E1 as [->%String.eqb_eq| ->%String.eqb_eq]; done. }
    assert (String.eqb command "/move forest" || String.eqb command "/go forest" = false) as ->.
    { apply orb_true_iff in E1 as [->%String.eqb_eq| ->%String.eqb_eq]; done. }
    cbn [snd]. by rewrite cache_Store_same. }
  destruct (String.eqb command "/talk tavern_keeper") eqn:E2.
  { cbn [snd]. rewrite UpdateNPCRelationship_unfold. cbn [snd].
    by rewrite (GetContext_hit sid _ cm c Hc). }
  destruct (String.eqb command "/attack goblin") eqn:E3.
  { cbn [snd]. rewrite UpdateReputation_unfold. cbn [snd].
    rewrite (GetContext_hit sid _ cm c Hc). cbn [fst snd].
    rewrite UpdateCharacterHealth_unfold. cbn [snd].
    rewrite (GetContext_hit sid _ _ _ (lookup_insert_eq _ _ _)). cbn [fst snd].
    by rewrite cache_Store_twice. }
  destruct (String.eqb command "/move forest" || String.eqb command "/go forest") eqn:E4.
  { cbn [snd]. rewrite UpdateLocation_unfold. cbn [snd].
    by rewrite (GetContext_hit sid _ cm c Hc). }
  repeat case_match; cbn [snd]; by rewrite cache_Store_same.
Qed.

Lemma commandSwitch_plan sid command tick (cm : CM) aiResponse newID here now :
  let '(actionType, target, consequences, _) := commandSwitch sid command tick cm in
  ActionEvent.mk newID now actionType command target here aiResponse consequences ∅
  = commandAction command aiResponse newID here now.
Proof.
  unfold commandSwitch, commandAction. by repeat case_match; simplify_eq.
Qed.

End GameServerLemmas.

Section GameServerSpec.

Context {S : Type} `{ContextStorage S}.

Local Abbreviation CM := (ContextManager S).

Lemma GetContextSummary_hit sid now (cm : CM) c :
  cache cm !! sid = Some c ->
  exists recent,
    GetContextSummary sid now cm
    = Some (Some (ContextSummary.mk
                    (LocationState.Current (PlayerContext.Location c))
                    (LocationState.Previous (PlayerContext.Location c))
                    (fmt_d (HealthStatus.Current
                              (CharacterState.Health (PlayerContext.Character c)))
                     ++ "/" ++
                     fmt_d (HealthStatus.Max
                              (CharacterState.Health (PlayerContext.Character c))))%string
                    (CharacterState.Reputation (PlayerContext.Character c))
                    recent),
            None, cm).
Proof.
  intros Hc. unfold GetContextSummary. rewrite (GetContext_hit sid now cm c Hc).
  destruct (getActionSummary_bounded (PlayerContext.Actions c) 5 ltac:(lia) ltac:(done))
    as (l & E & _).
  change (Z.of_nat 5) with 5 in E. rewrite E. cbn. by exists l.
Qed.

Lemma GenerateAIPrompt_recentActions_hit sid now (cm : CM) c :
  cache cm !! sid = Some c ->
  exists entries, GenerateAIPrompt_recentActions sid now cm = Some (entries, cm).
Proof.
  intros Hc. unfold GenerateAIPrompt_recentActions.
  destruct (GetContextSummary_hit sid now cm c Hc) as [recent ->]. cbn.
  unfold GetRecentActions. rewrite (GetContext_hit sid now cm c Hc).
  destruct (lastN_bounded (PlayerContext.Actions c) 3) as (l' & E & _).
  change (Z.of_nat 3) with 3 in E. rewrite E. cbn. by eexists.
Qed.

(** The handler as one update of the session followed by the send. *)
Lemma processGameCommand_spec sid command aiResponse newID tick (cm : CM) :
  let c1 := directEffect command tick (GetContext sid (tick 0%nat) cm).1.1 in
  let cm2 := cache_Store sid c1 (GetContext sid (tick 0%nat) cm).2 in
  let here := LocationState.Current (PlayerContext.Location c1) in
  let health := CharacterState.Health (PlayerContext.Character c1) in
  processGameCommand sid command aiResponse newID tick cm =
    if (length (eventQueue cm) <? queueCap cm)%nat then
      Some (Some (GameResponse.mk true aiResponse
                    (<["location" := VString here]>
                       (<["health" := VString (fmt_d (HealthStatus.Current health) ++ "/"
                                               ++ fmt_d (HealthStatus.Max health))%string]>
                          (<["reputation" :=
                               VInt (CharacterState.Reputation (PlayerContext.Character c1))]>
                             ∅)))),
            None,
            set_eventQueue
              (eventQueue cm ++
                 [ContextEvent.mk sid
                    (commandAction command aiResponse newID here (tick 4%nat))
                    (tick 4%nat)])
              cm2)
    else Some (None, Some (RecordFailed ErrQueueFull), cm2).
Proof.
  cbn zeta. unfold processGameCommand.
  pose proof (GetContext_cached sid (tick 0%nat) cm) as Hc.
  pose proof (GetContext_no_error sid (tick 0%nat) cm) as He.
  pose proof (GetContext_logs_kept sid (tick 0%nat) cm) as [E1 _].
  destruct (GetContext sid (tick 0%nat) cm) as [[c0 err] cm1]. cbn in Hc, He, E1. subst err.
  cbn [fst snd].
  pose proof (commandSwitch_cached sid command tick cm1 c0 Hc) as Hsw.
  pose proof (commandSwitch_plan sid command tick cm1 aiResponse newID) as Hplan.
  destruct (commandSwitch sid command tick cm1) as [[[actionType target] consequences] cm2].
  cbn [snd] in Hsw. subst cm2.
  set (c1 := directEffect command tick c0) in *.
  set (cm2 := cache_Store sid c1 cm1).
  assert (cache cm2 !! sid = Some c1) as Hc2 by apply lookup_insert_eq.
  destruct (GenerateAIPrompt_recentActions_hit sid (tick 3%nat) cm2 c1 Hc2) as [entries ->].
  cbn [mbind option_bind]. rewrite (GetContext_hit sid _ cm2 c1 Hc2). rewrite Hc2.
  cbn [default from_option id]. unfold RecordAction. rewrite Hplan.
  assert (eventQueue cm2 = eventQueue cm) as -> by (subst cm2; cbn; by rewrite E1).
  assert (queueCap cm2 = queueCap cm) as -> by (subst cm2; cbn; by rewrite E1).
  destruct (length (eventQueue cm) <? queueCap cm)%nat; [|done].
  cbv beta iota.
  destruct (GetContextSummary_hit sid (tick 5%nat)
              (set_eventQueue
                 (eventQueue cm ++
                    [ContextEvent.mk sid
                       (commandAction command aiResponse newID
                          (LocationState.Current (PlayerContext.Location c1)) (tick 4%nat))
                       (tick 4%nat)]) cm2) c1 Hc2) as [recent ->].
  done.
Qed.

End GameServerSpec.

Section GameServerTheorems.

Context {S : Type} `{ContextStorage S}.

Local Abbreviation CM := (ContextManager S).

Lemma commandAction_fields command aiResponse newID here now :
  ActionEvent.ID (commandAction command aiResponse newID here now) = newID /\
  ActionEvent.Timestamp (commandAction command aiResponse newID here now) = now /\
  ActionEvent.Command (commandAction command aiResponse newID here now) = command /\
  ActionEvent.Location (commandAction command aiResponse newID here now) = here /\
  ActionEvent.Outcome (commandAction command aiResponse newID here now) = aiResponse /\
  ActionEvent.Metadata (commandAction command aiResponse newID here now) = ∅.
Proof. unfold commandAction. by repeat case_match. Qed.

Lemma commandAction_nudge command aiResponse newID here now r :
  nudgeReputation
    (ActionEvent.Consequences (commandAction command aiResponse newID here now)) r
  = if String.eqb command "/attack goblin" then int_add r 5 else r.
Proof.
  unfold commandAction.
  destruct (String.eqb command "/look around" || String.eqb command "/look") eqn:E1.
  { assert (String.eqb command "/attack goblin" = false) as ->; [|done].
    apply orb_true_iff in E1 as [->%String.eqb_eq| ->%String.eqb_eq]; done. }
  destruct (String.eqb command "/talk tavern_keeper") eqn:E2.
  { apply String.eqb_eq in E2 as ->. done. }
  destruct (String.eqb command "/attack goblin") eqn:E3; [done|].
  destruct (String.eqb command "/move forest" || String.eqb command "/go forest");
    [reflexivity|].
  destruct (String.eqb command "/examine chest" || String.eqb command "/search chest");
    [reflexivity|].
  by destruct (String.eqb command "/inventory" || String.eqb command "/inv").
Qed.

Lemma directEffect_facts command tick ctx :
  let ctx' := directEffect command tick ctx in
  let c := PlayerContext.Character ctx in
  let c' := PlayerContext.Character ctx' in
  (command = "/attack goblin" ->
   CharacterState.Reputation c' = clamp100 (int_add (CharacterState.Reputation c) 10) /\
   HealthStatus.Current (CharacterState.Health c')
   = clampHealth (int_add (HealthStatus.Current (CharacterState.Health c)) (-2))
       (HealthStatus.Max (CharacterState.Health c)) /\
   PlayerContext.LastUpdate ctx' = tick 2%nat) /\
  (command = "/move forest" \/ command = "/go forest" ->
   LocationState.Current (PlayerContext.Location ctx') = "thornwick_forest" /\
   ctx' = set_LastUpdate (tick 1%nat) (moveTo "thornwick_forest" (tick 1%nat) ctx)) /\
  (command = "/talk tavern_keeper" ->
   ctx' = set_LastUpdate (tick 1%nat)
            (touchNPC "tavern_keeper" "Marcus the Tavern Keeper" 5
               ["friendly_conversation"; "willing_to_help"] (tick 1%nat) ctx)) /\
  (command <> "/attack goblin" -> command <> "/move forest" -> command <> "/go forest" ->
   command <> "/talk tavern_keeper" -> ctx' = ctx).
Proof.
  cbn zeta. unfold directEffect. split; [|split; [|split]].
  - by intros ->.
  - intros Hmove.
    assert (String.eqb command "/talk tavern_keeper" = false) as ->
      by (destruct Hmove as [-> | ->]; done).
    assert (String.eqb command "/attack goblin" = false) as ->
      by (destruct Hmove as [-> | ->]; done).
    assert (String.eqb command "/move forest" || String.eqb command "/go forest" = true) as ->
      by (destruct Hmove as [-> | ->]; done).
    split; [|done]. cbn. unfold moveTo.
    destruct (String.eqb _ "thornwick_forest") eqn:E; [by apply String.eqb_eq in E|done].
  - by intros ->.
  - intros H1 H2 H3 H4.
    apply String.eqb_neq in H1 as ->. apply String.eqb_neq in H2 as ->.
    apply String.eqb_neq in H3 as ->. by apply String.eqb_neq in H4 as ->.
Qed.

(** X26. A command the game server accepts (the queue has room): the
    response carries the AI's answer and reports location, health and
    reputation of the session as the engine calls of the command left
    them; exactly one action is queued, with the command, the answer, no
    metadata and the session's location at that moment, so a move is
    recorded at its destination.  "/attack goblin" has by then added 10 to
    the reputation and taken 2 from the health (both clamped), a move has
    put the session in "thornwick_forest", and a command other than these
    and "/talk tavern_keeper" has changed nothing in the session.  The
    other sessions are untouched, and so is the store unless the command
    is "/talk tavern_keeper" or a move: those write the NPC map and the
    visit history, which a snapshot held by the in-memory store shares
    with the cached context, and nothing is stated of the store for
    them. *)
Theorem game_command_reports_and_records
  (cm : CM) (sid command aiResponse newID : string) (tick : nat -> Time) :
  (length (eventQueue cm) < queueCap cm)%nat ->
  exists resp cm' ctx' event,
    processGameCommand sid command aiResponse newID tick cm = Some (Some resp, None, cm') /\
    cache cm' !! sid = Some ctx' /\
    eventQueue cm' = eventQueue cm ++ [event] /\
    (command <> "/talk tavern_keeper" -> command <> "/move forest" ->
     command <> "/go forest" -> storage cm' = storage cm) /\
    (forall k, k <> sid -> cache cm' !! k = cache cm !! k) /\
    GameResponse.Success resp = true /\
    GameResponse.Message resp = aiResponse /\
    GameResponse.Context resp !! "location"
      = Some (VString (LocationState.Current (PlayerContext.Location ctx'))) /\
    GameResponse.Context resp !! "reputation"
      = Some (VInt (CharacterState.Reputation (PlayerContext.Character ctx'))) /\
    GameResponse.Context resp !! "health"
      = Some (VString
                (fmt_d (HealthStatus.Current
                          (CharacterState.Health (PlayerContext.Character ctx')))
                 ++ "/" ++
                 fmt_d (HealthStatus.Max
                          (CharacterState.Health (PlayerContext.Character ctx'))))%string) /\
    ContextEvent.SessionID event = sid /\
    ActionEvent.ID (ContextEvent.Event event) = newID /\
    ActionEvent.Command (ContextEvent.Event event) = command /\
    ActionEvent.Outcome (ContextEvent.Event event) = aiResponse /\
    ActionEvent.Metadata (ContextEvent.Event event) = ∅ /\
    ActionEvent.Location (ContextEvent.Event event)
      = LocationState.Current (PlayerContext.Location ctx') /\
    (command = "/move forest" \/ command = "/go forest" ->
     ActionEvent.Location (ContextEvent.Event event) = "thornwick_forest") /\
    (command = "/attack goblin" ->
     CharacterState.Reputation (PlayerContext.Character ctx')
     = clamp100 (int_add (CharacterState.Reputation
                            (PlayerContext.Character (GetContext sid (tick 0%nat) cm).1.1)) 10) /\
     HealthStatus.Current (CharacterState.Health (PlayerContext.Character ctx'))
     = clampHealth
         (int_add (HealthStatus.Current
                     (CharacterState.Health
                        (PlayerContext.Character (GetContext sid (tick 0%nat) cm).1.1))) (-2))
         (HealthStatus.Max
            (CharacterState.Health
               (PlayerContext.Character (GetContext sid (tick 0%nat) cm).1.1)))) /\
    (command <> "/attack goblin" -> command <> "/move forest" -> command <> "/go forest" ->
     command <> "/talk tavern_keeper" -> ctx' = (GetContext sid (tick 0%nat) cm).1.1).
Proof.
  intros Hroom. rewrite processGameCommand_spec.
  apply Nat.ltb_lt in Hroom as ->.
  destruct (direct_frame sid (tick 0%nat) cm (directEffect command tick))
    as (Hs & Hq & Hc & Ho).
  destruct (directEffect_facts command tick (GetContext sid (tick 0%nat) cm).1.1)
    as (Hattack & Hmove & _ & Hnone).
  destruct (commandAction_fields command aiResponse newID
              (LocationState.Current
                 (PlayerContext.Location
                    (directEffect command tick (GetContext sid (tick 0%nat) cm).1.1)))
              (tick 4%nat)) as (F1 & F2 & F3 & F4 & F5 & F6).
  eexists _, _, _, _. split; [reflexivity|].
  split; [exact Hc|]. split; [reflexivity|]. split; [intros _ _ _; exact Hs|].
  split; [exact Ho|].
  split; [done|]. split; [done|]. split; [done|]. split; [done|]. split; [done|].
  split; [done|]. split; [exact F1|]. split; [exact F3|]. split; [exact F5|].
  split; [exact F6|]. split; [exact F4|].
  split; [|split].
  - intros Hm. cbn [ContextEvent.Event]. rewrite F4. by apply Hmove.
  - intros Ha. destruct (Hattack Ha) as (? & ? & _). done.
  - exact Hnone.
Qed.

(** X27. A command that meets a full queue is refused with the capacity
    error and is not queued, but the engine calls of its arm have already
    run and stay: after the refused "/attack goblin" the session's
    reputation has gone up by 10 and its health down by 2 (both clamped),
    after a refused move the session is in "thornwick_forest", after a
    refused "/talk tavern_keeper" the session knows the tavern keeper.
    The other sessions are untouched, and so is the store unless the
    command is "/talk tavern_keeper" or a move (whose writes a snapshot
    held by the in-memory store can share). *)
Theorem game_command_refused_after_its_effects
  (cm : CM) (sid command aiResponse newID : string) (tick : nat -> Time) :
  (queueCap cm <= length (eventQueue cm))%nat ->
  exists cm' ctx',
    processGameCommand sid command aiResponse newID tick cm
      = Some (None, Some (RecordFailed ErrQueueFull), cm') /\
    eventQueue cm' = eventQueue cm /\
    (command <> "/talk tavern_keeper" -> command <> "/move forest" ->
     command <> "/go forest" -> storage cm' = storage cm) /\
    cache cm' !! sid = Some ctx' /\
    (forall k, k <> sid -> cache cm' !! k = cache cm !! k) /\
    (command = "/attack goblin" ->
     CharacterState.Reputation (PlayerContext.Character ctx')
     = clamp100 (int_add (CharacterState.Reputation
                            (PlayerContext.Character (GetContext sid (tick 0%nat) cm).1.1)) 10) /\
     HealthStatus.Current (CharacterState.Health (PlayerContext.Character ctx'))
     = clampHealth
         (int_add (HealthStatus.Current
                     (CharacterState.Health
                        (PlayerContext.Character (GetContext sid (tick 0%nat) cm).1.1))) (-2))
         (HealthStatus.Max
            (CharacterState.Health
               (PlayerContext.Character (GetContext sid (tick 0%nat) cm).1.1)))) /\
    (command = "/move forest" \/ command = "/go forest" ->
     LocationState.Current (PlayerContext.Location ctx') = "thornwick_forest") /\
    (command = "/talk tavern_keeper" ->
     is_Some (PlayerContext.NPCStates ctx' !! "tavern_keeper")).
Proof.
  intros Hfull. rewrite processGameCommand_spec.
  apply Nat.ltb_ge in Hfull as ->.
  destruct (direct_frame sid (tick 0%nat) cm (directEffect command tick))
    as (Hs & Hq & Hc & Ho).
  destruct (directEffect_facts command tick (GetContext sid (tick 0%nat) cm).1.1)
    as (Hattack & Hmove & Htalk & _).
  eexists _, _. split; [reflexivity|].
  split; [exact Hq|]. split; [intros _ _ _; exact Hs|]. split; [exact Hc|]. split; [exact Ho|].
  split; [|split].
  - intros Ha. destruct (Hattack Ha) as (? & ? & _). done.
  - intros Hm. by apply Hmove.
  - intros Ht. rewrite (Htalk Ht). cbn. rewrite lookup_insert_eq. by eexists.
Qed.

(** X28. Once the worker has processed the action a command queued, the
    session's log ends with it and the action count has gone up by one;
    the reputation is 5 higher than the response reported for "/attack
    goblin" (the "reputation_increase" tag, clamped) and otherwise as
    reported (clamped); health, inventory, location and NPC records are as
    the response left them: the tags "item_gained" of "/examine chest" and
    "npc_noticed" of "/talk tavern_keeper" come without metadata and do
    nothing. *)
Theorem game_command_once_processed
  (cm : CM) (sid command aiResponse newID : string) (tick : nat -> Time) (now : Time) :
  eventQueue cm = [] -> (0 < queueCap cm)%nat -> 0 < maxActions cm ->
  exists resp cm1 cm2 ctx1 ctx2 action,
    processGameCommand sid command aiResponse newID tick cm = Some (Some resp, None, cm1) /\
    processEvents_step now cm1 = Some cm2 /\
    cache cm1 !! sid = Some ctx1 /\
    cache cm2 !! sid = Some ctx2 /\
    eventQueue cm2 = [] /\
    last (PlayerContext.Actions ctx2) = Some action /\
    ActionEvent.Command action = command /\
    ActionEvent.Outcome action = aiResponse /\
    SessionMetrics.TotalActions (PlayerContext.SessionStats ctx2)
      = int_add (SessionMetrics.TotalActions (PlayerContext.SessionStats ctx1)) 1 /\
    CharacterState.Reputation (PlayerContext.Character ctx2)
      = clamp100 (if String.eqb command "/attack goblin"
                  then int_add (CharacterState.Reputation (PlayerContext.Character ctx1)) 5
                  else CharacterState.Reputation (PlayerContext.Character ctx1)) /\
    CharacterState.Health (PlayerContext.Character ctx2)
      = CharacterState.Health (PlayerContext.Character ctx1) /\
    CharacterState.Inventory (PlayerContext.Character ctx2)
      = CharacterState.Inventory (PlayerContext.Character ctx1) /\
    PlayerContext.Location ctx2 = PlayerContext.Location ctx1 /\
    PlayerContext.NPCStates ctx2 = PlayerContext.NPCStates ctx1.
Proof.
  intros Hq Hcap Hm. rewrite processGameCommand_spec, Hq.
  assert ((length (@nil ContextEvent.t) <? queueCap cm)%nat = true) as ->
    by (apply Nat.ltb_lt; cbn; lia).
  destruct (direct_frame sid (tick 0%nat) cm (directEffect command tick))
    as (Hs & _ & Hc & Ho).
  set (ctx1 := directEffect command tick (GetContext sid (tick 0%nat) cm).1.1) in *.
  set (cm0 := cache_Store sid ctx1 (GetContext sid (tick 0%nat) cm).2) in *.
  set (action := commandAction command aiResponse newID
                   (LocationState.Current (PlayerContext.Location ctx1)) (tick 4%nat)).
  destruct (commandAction_fields command aiResponse newID
              (LocationState.Current (PlayerContext.Location ctx1)) (tick 4%nat))
    as (F1 & F2 & F3 & F4 & F5 & F6). fold action in F1, F2, F3, F4, F5, F6.
  assert (maxActions cm0 = maxActions cm) as Hm0.
  { pose proof (GetContext_logs_kept sid (tick 0%nat) cm) as [E _].
    subst cm0. cbn. by rewrite E. }
  unfold processEvents_step. cbn [app eventQueue set_eventQueue].
  assert (0 <= maxActions
                 (set_eventQueue []
                    (set_eventQueue [ContextEvent.mk sid action (tick 4%nat)] cm0))) as Hm1
    by (change (0 <= maxActions cm0); lia).
  pose proof (processContextEvent_plain sid action (tick 4%nat) now
                (set_eventQueue [] (set_eventQueue [ContextEvent.mk sid action (tick 4%nat)] cm0))
                Hm1 F6) as Hrun.
  assert (cache (set_eventQueue []
                   (set_eventQueue [ContextEvent.mk sid action (tick 4%nat)] cm0)) !! sid
          = Some ctx1) as Hc1 by exact Hc.
  rewrite (GetContext_hit sid now _ ctx1 Hc1) in Hrun. cbn [fst snd] in Hrun.
  eexists _, _, _, ctx1, _, action.
  split; [reflexivity|]. split; [exact Hrun|]. split; [exact Hc|].
  split; [apply lookup_insert_eq|]. split; [done|].
  split; [|split; [exact F3|split; [exact F5|split; [done|split; [|done]]]]].
  - change (last (drop (length (PlayerContext.Actions ctx1 ++ [action])
                        - Z.to_nat (maxActions cm0))
                    (PlayerContext.Actions ctx1 ++ [action])) = Some action).
    rewrite Hm0, drop_app_le by (rewrite length_app; cbn [length]; lia).
    apply last_snoc.
  - change (CharacterState.Reputation (PlayerContext.Character _))
      with (clamp100 (nudgeReputation (ActionEvent.Consequences action)
                        (CharacterState.Reputation (PlayerContext.Character ctx1)))) at 1.
    subst action. by rewrite commandAction_nudge.
Qed.

End GameServerTheorems.

(** ** The world-context section of the prompt *)

Lemma append_empty_r (s : string) : (s ++ "")%string = s.
Proof.
  induction s as [|a s IH]; [done|].
  change (String a (s ++ "")%string = String a s). by f_equal.
Qed.

(** X29. On the world state of a summary, [formatWorldContext] always opens
    with the line of explored locations, followed by the combat line
    exactly when the session has combat actions and by the social line
    exactly when it has more social than combat actions; the fallback
    "- New to this world" is never produced, and is what an empty world
    state gives. *)
Theorem world_context_always_names_locations (ctx : PlayerContext.t) :
  let s := PlayerContext.SessionStats ctx in
  formatWorldContext_lines (summaryWorldState ctx)
  = [("- Locations explored: " ++ fmt_d (SessionMetrics.LocationsVisited s))%string]
    ++ (if 0 <? SessionMetrics.CombatActions s then ["- Has combat experience"] else [])
    ++ (if SessionMetrics.CombatActions s <? SessionMetrics.SocialActions s
        then ["- Prefers social interactions"] else []) /\
  (exists rest,
     formatWorldContext (summaryWorldState ctx)
     = ("- Locations explored: " ++ fmt_d (SessionMetrics.LocationsVisited s) ++ rest)%string) /\
  formatWorldContext (summaryWorldState ctx) <> "- New to this world" /\
  formatWorldContext ∅ = "- New to this world".
Proof.
  cbn zeta.
  assert (formatWorldContext_lines (summaryWorldState ctx)
          = [("- Locations explored: "
              ++ fmt_d (SessionMetrics.LocationsVisited (PlayerContext.SessionStats ctx)))%string]
            ++ (if 0 <? SessionMetrics.CombatActions (PlayerContext.SessionStats ctx)
                then ["- Has combat experience"] else [])
            ++ (if SessionMetrics.CombatActions (PlayerContext.SessionStats ctx)
                   <? SessionMetrics.SocialActions (PlayerContext.SessionStats ctx)
                then ["- Prefers social interactions"] else [])) as Hlines.
  { assert (summaryWorldState ctx !! "locations_visited"
            = Some (VInt (SessionMetrics.LocationsVisited (PlayerContext.SessionStats ctx))))
      as H1 by (unfold summaryWorldState; by simplify_map_eq).
    assert (summaryWorldState ctx !! "combat_experienced"
            = Some (VBool (0 <? SessionMetrics.CombatActions (PlayerContext.SessionStats ctx))))
      as H2 by (unfold summaryWorldState; by simplify_map_eq).
    assert (summaryWorldState ctx !! "social_active"
            = Some (VBool (SessionMetrics.CombatActions (PlayerContext.SessionStats ctx)
                           <? SessionMetrics.SocialActions (PlayerContext.SessionStats ctx))))
      as H3 by (unfold summaryWorldState; by simplify_map_eq).
    unfold formatWorldContext_lines. rewrite H1, H2, H3. cbn [as_int as_bool app].
    by destruct (0 <? _), (_ <? SessionMetrics.SocialActions _). }
  assert (exists rest,
     formatWorldContext (summaryWorldState ctx)
     = ("- Locations explored: "
        ++ fmt_d (SessionMetrics.LocationsVisited (PlayerContext.SessionStats ctx))
        ++ rest)%string) as [rest Hrest].
  { unfold formatWorldContext. rewrite Hlines.
    destruct (0 <? _), (_ <? SessionMetrics.SocialActions _);
      cbn [app String.concat];
      [eexists; reflexivity ..|exists ""%string; by rewrite append_empty_r]. }
  split; [exact Hlines|]. split; [by exists rest|]. split; [|done].
  intros Heq. rewrite Hrest in Heq. cbv -[fmt_d] in Heq. discriminate.
Qed.

(** ** The MCP server *)

Section MCPServerTheorems.

Context {S : Type} `{ContextStorage S}.

Variable Fields : string -> list string.

Local Abbreviation CM := (ContextManager S).

Lemma prefix_head a b p (c : string) :
  String.prefix (String a (String b p)) c = true ->
  exists rest, c = String a (String b rest).
Proof.
  destruct c as [|a0 [|a1 rest]]; cbn [String.prefix]; [done| |].
  - by destruct (Ascii.ascii_dec a a0).
  - destruct (Ascii.ascii_dec a a0) as [<-|]; [|done].
    destruct (Ascii.ascii_dec b a1) as [<-|]; [|done]. eauto.
Qed.

Lemma attack_is_no_look (command : string) :
  String.prefix "/attack" command = true \/ String.prefix "/fight" command = true ->
  String.prefix "/look" command = false /\ String.prefix "/examine" command = false /\
  String.prefix "/talk" command = false /\ String.prefix "/speak" command = false.
Proof.
  intros [Hp|Hp]; apply prefix_head in Hp as [rest ->]; repeat split; reflexivity.
Qed.

Lemma parseGameCommand_attack (command : string) :
  String.prefix "/attack" command = true \/ String.prefix "/fight" command = true ->
  parseGameCommand Fields command
  = ("combat", secondField Fields command, ["combat_success"; "reputation_increase"]).
Proof.
  intros Hatt. destruct (attack_is_no_look command Hatt) as (H1 & H2 & H3 & H4).
  unfold parseGameCommand, HasPrefix. rewrite H1, H2, H3, H4. cbn [orb].
  by destruct Hatt as [-> | ->]; [|rewrite orb_true_r].
Qed.

Lemma attack_effects_cached sid command tick (cm : CM) c :
  cache cm !! sid = Some c ->
  applyActionConsequences sid command tick 3%nat
    ["combat_success"; "reputation_increase"] cm
  = cache_Store sid (attackEffect tick c) cm.
Proof.
  intros Hc. cbn [applyActionConsequences].
  change (applyActionConsequence sid command (tick 3%nat) "combat_success" cm)
    with (UpdateCharacterHealth sid (-2) (tick 3%nat)
            (UpdateReputation sid 10 (tick 3%nat) cm).2).2.
  change (applyActionConsequence sid command (tick 4%nat) "reputation_increase" ?x)
    with (UpdateReputation sid 5 (tick 4%nat) x).2.
  rewrite (UpdateReputation_unfold sid 10 (tick 3%nat) cm). cbn [snd].
  rewrite (GetContext_hit sid _ cm c Hc). cbn [fst snd].
  rewrite (UpdateCharacterHealth_unfold sid (-2) (tick 3%nat)). cbn [snd].
  rewrite (GetContext_hit sid _ _ _ (lookup_insert_eq _ _ _)). cbn [fst snd].
  rewrite cache_Store_twice.
  rewrite (UpdateReputation_unfold sid 5 (tick 4%nat)). cbn [snd].
  rewrite (GetContext_hit sid _ _ _ (lookup_insert_eq _ _ _)). cbn [fst snd].
  by rewrite cache_Store_twice.
Qed.

(** The tool on an attack, as one send followed by one update. *)
Lemma toolExecuteAction_attack args sid command aiResponse newID tick (cm : CM) :
  args !! "sessionID" = Some (VString sid) ->
  args !! "command" = Some (VString command) ->
  String.prefix "/attack" command = true \/ String.prefix "/fight" command = true ->
  let c0 := (GetContext sid (tick 0%nat) cm).1.1 in
  let cm1 := (GetContext sid (tick 0%nat) cm).2 in
  let c1 := attackEffect tick c0 in
  let health := CharacterState.Health (PlayerContext.Character c1) in
  let action :=
    ActionEvent.mk newID (tick 2%nat) "combat" command (secondField Fields command)
      (LocationState.Current (PlayerContext.Location c0)) aiResponse
      ["combat_success"; "reputation_increase"] ∅ in
  toolExecuteAction Fields args aiResponse newID tick cm =
    if (length (eventQueue cm) <? queueCap cm)%nat then
      Some (Some (ActionResult.mk aiResponse
                    (LocationState.Current (PlayerContext.Location c1))
                    (fmt_d (HealthStatus.Current health) ++ "/"
                     ++ fmt_d (HealthStatus.Max health))%string
                    (CharacterState.Reputation (PlayerContext.Character c1))),
            None,
            cache_Store sid c1
              (set_eventQueue (eventQueue cm ++ [ContextEvent.mk sid action (tick 2%nat)])
                 cm1))
    else Some (None, Some (ToolFailed "failed to record action" ErrQueueFull), cm1).
Proof.
  intros Hsid Hcmd Hatt. cbn zeta. unfold toolExecuteAction. rewrite Hsid, Hcmd.
  cbn [as_string].
  pose proof (GetContext_cached sid (tick 0%nat) cm) as Hc.
  pose proof (GetContext_no_error sid (tick 0%nat) cm) as He.
  pose proof (GetContext_logs_kept sid (tick 0%nat) cm) as [E1 _].
  destruct (GetContext sid (tick 0%nat) cm) as [[c0 err] cm1]. cbn in Hc, He, E1. subst err.
  cbn [fst snd]. rewrite (parseGameCommand_attack command Hatt).
  destruct (GenerateAIPrompt_recentActions_hit sid (tick 1%nat) cm1 c0 Hc) as [entries ->].
  cbn [mbind option_bind]. rewrite (GetContext_hit sid _ cm1 c0 Hc). rewrite Hc.
  cbn [default from_option id]. unfold RecordAction.
  assert (eventQueue cm1 = eventQueue cm) as -> by (by rewrite E1).
  assert (queueCap cm1 = queueCap cm) as -> by (by rewrite E1).
  destruct (length (eventQueue cm) <? queueCap cm)%nat; [|done].
  cbv beta iota.
  set (cmq := set_eventQueue _ cm1).
  assert (cache cmq !! sid = Some c0) as Hcq by exact Hc.
  rewrite (attack_effects_cached sid command tick cmq c0 Hcq).
  destruct (GetContextSummary_hit sid (tick 5%nat)
              (cache_Store sid (attackEffect tick c0) cmq) (attackEffect tick c0)
              (lookup_insert_eq _ _ _)) as [recent ->].
  done.
Qed.

(** X30. An attack through the MCP tool ("/attack ..." or "/fight ...")
    counts its "reputation_increase" tag twice.  When the queue has room,
    the action is queued with the location the session was at, then the
    tool's own engine calls add 10 and 5 to the reputation and take 2 from
    the health (each step clamped), which is what the result reports; when
    the worker later processes the queued action it adds 5 more for the
    same tag and leaves the health alone.  When the queue is full the tool
    fails before any of its engine calls: the session is as [GetContext]
    returned it. *)
Theorem mcp_attack_counts_reputation_increase_twice
  (cm : CM) (args : gmap string value) (sid command aiResponse newID : string)
  (tick : nat -> Time) (now : Time) :
  args !! "sessionID" = Some (VString sid) ->
  args !! "command" = Some (VString command) ->
  String.prefix "/attack" command = true \/ String.prefix "/fight" command = true ->
  let c0 := (GetContext sid (tick 0%nat) cm).1.1 in
  let rep0 := CharacterState.Reputation (PlayerContext.Character c0) in
  let health0 := CharacterState.Health (PlayerContext.Character c0) in
  ((queueCap cm <= length (eventQueue cm))%nat ->
   toolExecuteAction Fields args aiResponse newID tick cm
   = Some (None, Some (ToolFailed "failed to record action" ErrQueueFull),
           (GetContext sid (tick 0%nat) cm).2)) /\
  (eventQueue cm = [] -> (0 < queueCap cm)%nat -> 0 < maxActions cm ->
   exists res cm1 cm2 ctx1 ctx2 event,
     toolExecuteAction Fields args aiResponse newID tick cm = Some (Some res, None, cm1) /\
     eventQueue cm1 = [event] /\
     ActionEvent.Location (ContextEvent.Event event)
       = LocationState.Current (PlayerContext.Location c0) /\
     ActionEvent.Consequences (ContextEvent.Event event)
       = ["combat_success"; "reputation_increase"] /\
     cache cm1 !! sid = Some ctx1 /\
     CharacterState.Reputation (PlayerContext.Character ctx1)
       = clamp100 (int_add (clamp100 (int_add rep0 10)) 5) /\
     HealthStatus.Current (CharacterState.Health (PlayerContext.Character ctx1))
       = clampHealth (int_add (HealthStatus.Current health0) (-2))
           (HealthStatus.Max health0) /\
     ActionResult.Reputation res
       = CharacterState.Reputation (PlayerContext.Character ctx1) /\
     processEvents_step now cm1 = Some cm2 /\
     cache cm2 !! sid = Some ctx2 /\
     CharacterState.Reputation (PlayerContext.Character ctx2)
       = clamp100 (int_add (CharacterState.Reputation (PlayerContext.Character ctx1)) 5) /\
     CharacterState.Health (PlayerContext.Character ctx2)
       = CharacterState.Health (PlayerContext.Character ctx1)).
Proof.
  intros Hsid Hcmd Hatt. cbn zeta.
  rewrite (toolExecuteAction_attack args sid command aiResponse newID tick cm Hsid Hcmd Hatt).
  split.
  - intros Hfull. by apply Nat.ltb_ge in Hfull as ->.
  - intros Hq Hcap Hm. rewrite Hq.
    assert ((length (@nil ContextEvent.t) <? queueCap cm)%nat = true) as ->
      by (apply Nat.ltb_lt; cbn; lia).
    pose proof (GetContext_logs_kept sid (tick 0%nat) cm) as [E1 _].
    set (c0 := (GetContext sid (tick 0%nat) cm).1.1) in *.
    set (cm0 := (GetContext sid (tick 0%nat) cm).2) in *.
    set (ctx1 := attackEffect tick c0).
    set (action := ActionEvent.mk newID (tick 2%nat) "combat" command
                     (secondField Fields command)
                     (LocationState.Current (PlayerContext.Location c0)) aiResponse
                     ["combat_success"; "reputation_increase"] ∅).
    set (cm1 := cache_Store sid ctx1
                  (set_eventQueue ([] ++ [ContextEvent.mk sid action (tick 2%nat)]) cm0)).
    assert (cache cm1 !! sid = Some ctx1) as Hc1 by apply lookup_insert_eq.
    assert (0 <= maxActions (set_eventQueue [] cm1)) as Hm1.
    { change (0 <= maxActions cm0). rewrite E1. cbn. lia. }
    pose proof (processContextEvent_plain sid action (tick 2%nat) now
                  (set_eventQueue [] cm1) Hm1 eq_refl) as Hrun.
    rewrite (GetContext_hit sid now (set_eventQueue [] cm1) ctx1 Hc1) in Hrun.
    cbn [fst snd] in Hrun.
    eexists _, cm1, _, ctx1, _, _.
    split; [reflexivity|]. split; [reflexivity|]. split; [reflexivity|].
    split; [reflexivity|]. split; [exact Hc1|]. split; [reflexivity|].
    split; [reflexivity|]. split; [reflexivity|].
    split; [exact Hrun|]. split; [apply lookup_insert_eq|].
    split; reflexivity.
Qed.

End MCPServerTheorems.

(** ** The properties on recorded scenarios *)

Lemma tour_trace_runs : run tour_trace freshManager = Some tour_final.
Proof. vm_compute. reflexivity. Qed.

Lemma tour_final_filed : filed tour_final.
Proof.
  apply (run_filed tour_trace freshManager tour_final tour_trace_runs).
  apply NewContextManager_filed.
Qed.

Lemma tour_busy_trace_runs : run tour_busy_trace tour_final = Some tour_busy.
Proof. vm_compute. reflexivity. Qed.

Lemma tour_busy_filed : filed tour_busy.
Proof.
  exact (run_filed tour_busy_trace tour_final tour_busy tour_busy_trace_runs
           tour_final_filed).
Qed.

Lemma npc_mood_follows_disposition_witness :
  run tour_trace freshManager = Some tour_final /\
  forall k ctx id r,
    cache tour_final !! k = Some ctx -> PlayerContext.NPCStates ctx !! id = Some r ->
    NPCRelationship.NPCID r = id /\
    NPCRelationship.Mood r = calculateMood (NPCRelationship.Disposition r).
Proof.
  split; [exact tour_trace_runs|].
  apply (npc_mood_follows_disposition freshManager tour_final tour_trace).
  - apply NewMemoryStorage_satisfy.
  - exact tour_trace_runs.
Defined.

Lemma npcs_interacted_counts_records_witness :
  run tour_trace freshManager = Some tour_final /\
  forall k ctx, cache tour_final !! k = Some ctx ->
    SessionMetrics.NPCsInteracted (PlayerContext.SessionStats ctx)
    = wrap64 (Z.of_nat (size (PlayerContext.NPCStates ctx))).
Proof.
  split; [exact tour_trace_runs|].
  apply (npcs_interacted_counts_records freshManager tour_final tour_trace).
  - apply NewMemoryStorage_satisfy.
  - exact tour_trace_runs.
Defined.

Lemma location_history_tracks_moves_witness :
  run tour_trace freshManager = Some tour_final /\
  forall k ctx, cache tour_final !! k = Some ctx -> places_ok ctx.
Proof.
  split; [exact tour_trace_runs|].
  apply (location_history_tracks_moves freshManager tour_final tour_trace).
  - apply NewMemoryStorage_satisfy.
  - exact tour_trace_runs.
Defined.

Lemma recorded_action_effects_witness :
  0 <= maxActions tour_final /\
  ActionEvent.Metadata tour_action = ∅ /\
  exists cm' ctx',
    processContextEvent (ContextEvent.mk "sid-1" tour_action 1190) 1200 tour_final = Some cm' /\
    cache cm' !! "sid-1" = Some ctx' /\
    PlayerContext.LastUpdate ctx' = 1200 /\
    storage cm' = storage tour_final.
Proof.
  assert (0 <= maxActions tour_final) as Hm by (vm_compute; discriminate).
  split; [exact Hm|]. split; [reflexivity|].
  destruct (recorded_action_effects tour_final "sid-1" tour_action 1190 1200 Hm eq_refl)
    as (cm' & ctx' & Hrun & Hc & _ & _ & _ & _ & _ & _ & _ & _ & Hstamp & _ & Hs & _).
  exists cm', ctx'. split; [exact Hrun|]. split; [exact Hc|]. split; [exact Hstamp|exact Hs].
Defined.

Lemma recorded_action_reputation_witness :
  exists cm' ctx',
    processContextEvent (ContextEvent.mk "sid-1" tour_action 1190) 1200 tour_final = Some cm' /\
    cache cm' !! "sid-1" = Some ctx' /\
    CharacterState.Reputation (PlayerContext.Character ctx') = 9.
Proof.
  destruct (recorded_action_reputation tour_final "sid-1" tour_action 1190 1200)
    as (cm' & ctx' & Hrun & Hc & Hrep).
  - vm_compute. discriminate.
  - reflexivity.
  - vm_compute. discriminate.
  - vm_compute. split; discriminate.
  - exists cm', ctx'. split; [exact Hrun|]. split; [exact Hc|].
    rewrite Hrep. vm_compute. reflexivity.
Defined.

Lemma health_in_range_through_public_calls_witness :
  exists cm',
    run tour_trace freshManager = Some cm' /\
    sessions_satisfy health_ok cm' /\
    forall k ctx, cache cm' !! k = Some ctx ->
      let h := CharacterState.Health (PlayerContext.Character ctx) in
      0 <= HealthStatus.Current h <= HealthStatus.Max h.
Proof.
  apply (health_in_range_through_public_calls freshManager tour_trace).
  - apply NewMemoryStorage_satisfy.
  - constructor.
  - vm_compute. discriminate.
  - repeat constructor.
Defined.

Lemma statistics_count_processed_actions_witness :
  exists cm',
    processAll tour_events tour_final = Some cm' /\
    SessionMetrics.TotalActions (sessionStats "sid-1" cm') = 3 /\
    SessionMetrics.CombatActions (sessionStats "sid-1" cm') = 2 /\
    SessionMetrics.ExploreActions (sessionStats "sid-1" cm') = 1.
Proof.
  destruct (statistics_count_processed_actions tour_final "sid-1" tour_events)
    as (cm' & Hrun & Htotal & Hcombat & _ & Hexplore).
  - vm_compute. discriminate.
  - unfold tour_events. repeat (apply Forall_cons; split; [reflexivity|]). by apply Forall_nil.
  - repeat (apply Forall_cons; split; [vm_compute; split; [discriminate|reflexivity]|]).
    by apply Forall_nil.
  - exists cm'. split; [exact Hrun|].
    rewrite Htotal, Hcombat, Hexplore. vm_compute. repeat split.
Defined.

Lemma worker_panics_only_on_malformed_item_witness :
  0 <= maxActions freshManager /\
  processContextEvent chest_event 2000 freshManager = None.
Proof.
  assert (0 <= maxActions freshManager) as Hm by (vm_compute; discriminate).
  split; [exact Hm|].
  apply (proj2 (worker_panics_only_on_malformed_item freshManager chest_event 2000 Hm)).
  split; [apply list_elem_of_here|].
  exists (<["name" := VString "gem"]> ∅). split; [reflexivity|]. left. reflexivity.
Defined.

Lemma sessions_are_filed_under_their_own_id_witness :
  filed freshManager /\
  run tour_trace freshManager = Some tour_final /\
  (forall k c, cache tour_final !! k = Some c -> PlayerContext.SessionID c = k) /\
  NoDup (GetActiveSessions tour_final).
Proof.
  split; [apply NewContextManager_filed|]. split; [exact tour_trace_runs|].
  destruct (sessions_are_filed_under_their_own_id tour_trace freshManager tour_final
              NewContextManager_filed tour_trace_runs) as (Hc & _ & _ & _ & Hnd & _).
  split; [exact Hc|exact Hnd].
Defined.

Lemma saveAllCachedContexts_persists_the_cache_witness :
  filed tour_busy /\
  cache tour_busy !! "sid-1" <> contexts (storage tour_busy) !! "sid-1" /\
  (forall k c, cache tour_busy !! k = Some c ->
     LoadContext (storage (saveAllCachedContexts tour_busy)) k = inl c) /\
  saveAllCachedContexts (saveAllCachedContexts tour_busy) = saveAllCachedContexts tour_busy.
Proof.
  split; [exact tour_busy_filed|]. split; [vm_compute; discriminate|].
  destruct (saveAllCachedContexts_persists_the_cache tour_busy tour_busy_filed)
    as (_ & _ & Hload & _ & Hidem).
  split; [exact Hload|exact Hidem].
Defined.

Lemma cleanupOldContexts_evicts_without_loss_witness :
  filed tour_final /\
  cache (cleanupOldContexts (10 ^ 13) tour_final) !! "sid-1" = None /\
  forall sid now', (GetContext sid now' (cleanupOldContexts (10 ^ 13) tour_final)).1.1
                   = (GetContext sid now' tour_final).1.1.
Proof.
  split; [exact tour_final_filed|].
  destruct (cleanupOldContexts_evicts_without_loss (10 ^ 13) tour_final tour_final_filed)
    as (Hcache & _ & _ & Hsame & _).
  split; [|exact Hsame].
  rewrite Hcache. vm_compute. reflexivity.
Defined.

Lemma Shutdown_stores_every_queued_action_witness :
  filed tour_busy /\ queue_safe tour_busy /\
  exists cm',
    Shutdown tour_clock tour_busy = Some cm' /\
    eventQueue cm' = [] /\
    ActionEvent.ID <$> storedLog "sid-1" cm' = ["a1"; "a2"] /\
    ActionEvent.ID <$> storedLog "sid-2" cm' = ["a3"].
Proof.
  assert (queue_safe tour_busy) as Hsafe.
  { split; [vm_compute; discriminate|].
    assert (eventQueue tour_busy
            = [ContextEvent.mk "sid-1"
                 (ActionEvent.mk "a2" 1090 "examine" "/look" "" "cave" "dark"
                    ["exploration_success"] ∅) 1090;
               ContextEvent.mk "sid-2"
                 (ActionEvent.mk "a3" 1100 "social" "/talk bob" "bob" "village" "hello"
                    ["reputation_increase"] ∅) 1100]) as ->
      by (vm_compute; reflexivity).
    repeat (apply Forall_cons; split; [by apply payload_ok_empty|]). by apply Forall_nil. }
  split; [exact tour_busy_filed|]. split; [exact Hsafe|].
  destruct (Shutdown_stores_every_queued_action tour_clock tour_busy 50
              tour_busy_filed Hsafe eq_refl)
    as (cm' & Hrun & Hq & _ & _ & _ & Hlog).
  exists cm'. split; [exact Hrun|]. split; [exact Hq|]. split.
  - rewrite Hlog by (vm_compute; lia). vm_compute. reflexivity.
  - rewrite Hlog by (vm_compute; lia). vm_compute. reflexivity.
Defined.

Lemma game_command_reports_and_records_witness :
  (length (eventQueue tour_final) < queueCap tour_final)%nat /\
  exists resp cm' event,
    processGameCommand "sid-1" "/move forest" "You enter the forest." "a8" tour_clock
      tour_final = Some (Some resp, None, cm') /\
    eventQueue cm' = eventQueue tour_final ++ [event] /\
    GameResponse.Context resp !! "location" = Some (VString "thornwick_forest") /\
    ActionEvent.Location (ContextEvent.Event event) = "thornwick_forest".
Proof.
  assert (length (eventQueue tour_final) < queueCap tour_final)%nat as Hroom
    by (vm_compute; lia).
  split; [exact Hroom|].
  destruct (game_command_reports_and_records tour_final "sid-1" "/move forest"
              "You enter the forest." "a8" tour_clock Hroom)
    as (resp & cm' & ctx' & event & Hrun & _ & Hq & _ & _ & _ & _ & Hloc & _ & _ & _ & _
        & _ & _ & _ & Hhere & Hmove & _).
  exists resp, cm', event. split; [exact Hrun|]. split; [exact Hq|].
  pose proof (Hmove (or_introl eq_refl)) as Hdest.
  split; [|exact Hdest]. rewrite Hloc, <- Hhere, Hdest. reflexivity.
Defined.

Lemma game_command_refused_after_its_effects_witness :
  (queueCap crowded <= length (eventQueue crowded))%nat /\
  exists cm' ctx',
    processGameCommand "sid-1" "/attack goblin" "You strike." "a9" tour_clock crowded
      = Some (None, Some (RecordFailed ErrQueueFull), cm') /\
    eventQueue cm' = eventQueue crowded /\
    cache cm' !! "sid-1" = Some ctx' /\
    CharacterState.Reputation (PlayerContext.Character ctx') = 10 /\
    HealthStatus.Current (CharacterState.Health (PlayerContext.Character ctx')) = 18.
Proof.
  assert (queueCap crowded <= length (eventQueue crowded))%nat as Hfull
    by (vm_compute; reflexivity).
  split; [exact Hfull|].
  destruct (game_command_refused_after_its_effects crowded "sid-1" "/attack goblin"
              "You strike." "a9" tour_clock Hfull)
    as (cm' & ctx' & Hrun & Hq & _ & Hc & _ & Hattack & _).
  destruct (Hattack eq_refl) as [Hrep Hhealth].
  exists cm', ctx'. split; [exact Hrun|]. split; [exact Hq|]. split; [exact Hc|].
  split; [rewrite Hrep|rewrite Hhealth]; vm_compute; reflexivity.
Defined.

Lemma game_command_once_processed_witness :
  eventQueue tour_final = [] /\
  exists resp cm1 cm2 ctx1 ctx2,
    processGameCommand "sid-1" "/attack goblin" "You strike." "a9" tour_clock tour_final
      = Some (Some resp, None, cm1) /\
    processEvents_step 3000 cm1 = Some cm2 /\
    cache cm1 !! "sid-1" = Some ctx1 /\
    cache cm2 !! "sid-1" = Some ctx2 /\
    CharacterState.Reputation (PlayerContext.Character ctx2)
      = clamp100 (int_add (CharacterState.Reputation (PlayerContext.Character ctx1)) 5) /\
    CharacterState.Health (PlayerContext.Character ctx2)
      = CharacterState.Health (PlayerContext.Character ctx1).
Proof.
  split; [vm_compute; reflexivity|].
  destruct (game_command_once_processed tour_final "sid-1" "/attack goblin" "You strike."
              "a9" tour_clock 3000)
    as (resp & cm1 & cm2 & ctx1 & ctx2 & action & Hrun & Hstep & Hc1 & Hc2 & _ & _ & _
        & _ & _ & Hrep & Hhealth & _).
  - vm_compute. reflexivity.
  - vm_compute. lia.
  - vm_compute. reflexivity.
  - exists resp, cm1, cm2, ctx1, ctx2.
    split; [exact Hrun|]. split; [exact Hstep|]. split; [exact Hc1|]. split; [exact Hc2|].
    split; [exact Hrep|exact Hhealth].
Defined.

Lemma mcp_attack_counts_reputation_increase_twice_witness :
  String.prefix "/attack" "/attack goblin" = true /\
  eventQueue tour_final = [] /\
  exists res cm1 cm2 ctx2,
    toolExecuteAction attack_fields attack_args "You strike." "a9" tour_clock tour_final
      = Some (Some res, None, cm1) /\
    ActionResult.Reputation res = 17 /\
    processEvents_step 3000 cm1 = Some cm2 /\
    cache cm2 !! "sid-1" = Some ctx2 /\
    CharacterState.Reputation (PlayerContext.Character ctx2) = 22.
Proof.
  assert (attack_args !! "sessionID" = Some (VString "sid-1")) as Hsid
    by (vm_compute; reflexivity).
  assert (attack_args !! "command" = Some (VString "/attack goblin")) as Hcmd
    by (vm_compute; reflexivity).
  assert (eventQueue tour_final = []) as Hq by (vm_compute; reflexivity).
  split; [reflexivity|]. split; [exact Hq|].
  destruct (mcp_attack_counts_reputation_increase_twice attack_fields tour_final attack_args
              "sid-1" "/attack goblin" "You strike." "a9" tour_clock 3000 Hsid Hcmd
              (or_introl eq_refl)) as [_ Hroom].
  destruct (Hroom Hq) as (res & cm1 & cm2 & ctx1 & ctx2 & event & Hrun & _ & _ & _ & Hc1
                          & Hrep1 & _ & Hres & Hstep & Hc2 & Hrep2 & _).
  - vm_compute. lia.
  - vm_compute. reflexivity.
  - exists res, cm1, cm2, ctx2. split; [exact Hrun|]. split.
    + rewrite Hres, Hrep1. vm_compute. reflexivity.
    + split; [exact Hstep|]. split; [exact Hc2|].
      rewrite Hrep2, Hrep1. vm_compute. reflexivity.
Defined.

(** Evaluated over the store that accepts no save: a session created
    there and evicted later comes back as the skeleton. *)
Example cleanup_over_failing_store_forgets :
  let cm := (CreateSession "p1" "Aragorn" "sid-1" 1000
               (NewContextManager (tt : UnreachableStorage))).2 in
  IsSessionActive "sid-1" cm = true /\
  IsSessionActive "sid-1" (cleanupOldContexts (10 ^ 13) cm) = false /\
  (GetContext "sid-1" 2000 (cleanupOldContexts (10 ^ 13) cm)).1.1
  = createNewContext "sid-1" 2000.
Proof. vm_compute. repeat split. Qed.
